(** * Autonomous QA agent: retrieval pipeline and grounded test-case generation

    A shallow embedding of the Python sources

    - [backend/utils/helpers.py]
    - [backend/services/document_parser.py]
    - [backend/services/vector_store.py]
    - [backend/services/rag_service.py]
    - [backend/services/test_case_agent.py]
    - [backend/services/script_agent.py]

    followed by the properties of the specification that are stated about
    them, and by further properties that the code has.  Python values are
    modelled as the interpreter has them: a [str] is a sequence of Unicode
    code points, a [float] is an IEEE binary64 number, exceptions are an
    explicit error result. *)

From Stdlib Require Import ZArith NArith PrimFloat SpecFloat FloatOps.
From Stdlib Require Import String Ascii.
From stdpp Require Import base option list gmap sorting pretty strings.

Set Default Proof Using "Type".
Local Open Scope N_scope.

(* ===================================================================== *)
(** * Part I: definitions *)
(* ===================================================================== *)

(** ** Python strings *)

Module Py.

(** A Python [str]: a sequence of code points. *)
Abbreviation pystr := (list N).

(** An ASCII literal read as a Python string. *)
Definition py (s : string) : pystr :=
  N_of_ascii <$> list_ascii_of_string s.

(** [str.isspace] on one code point, which is also what [\s] matches in a
    [re] pattern over [str] (CPython's [Py_UNICODE_ISSPACE]). *)
Definition isspace (c : N) : bool :=
  ((0x09 <=? c) && (c <=? 0x0D))
  || ((0x1C <=? c) && (c <=? 0x20))
  || (c =? 0x85) || (c =? 0xA0) || (c =? 0x1680)
  || ((0x2000 <=? c) && (c <=? 0x200A))
  || (c =? 0x2028) || (c =? 0x2029) || (c =? 0x202F)
  || (c =? 0x205F) || (c =? 0x3000).

(** [s.lstrip()] *)
Fixpoint lstrip (s : pystr) : pystr :=
  match s with
  | [] => []
  | c :: r => if isspace c then lstrip r else s
  end.

(** [s.rstrip()] *)
Fixpoint rstrip (s : pystr) : pystr :=
  match s with
  | [] => []
  | c :: r =>
      match rstrip r with
      | [] => if isspace c then [] else [c]
      | r' => c :: r'
      end
  end.

(** [s.strip()] *)
Definition strip (s : pystr) : pystr := rstrip (lstrip s).

(** [sep.join(parts)] *)
Fixpoint join (sep : pystr) (parts : list pystr) : pystr :=
  match parts with
  | [] => []
  | [p] => p
  | p :: rest => p ++ sep ++ join sep rest
  end.

(** [s <= t] on strings: lexicographic on code points. *)
Fixpoint str_leb (s t : pystr) : bool :=
  match s, t with
  | [], _ => true
  | _ :: _, [] => false
  | a :: s', b :: t' => (a <? b) || ((a =? b) && str_leb s' t')
  end.

Definition str_le (s t : pystr) : Prop := str_leb s t = true.

#[export] Instance str_le_dec : RelDecision str_le.
Proof. intros s t. unfold str_le. apply _. Defined.

(** [sorted(xs)] for a collection of strings. *)
Definition sorted (xs : list pystr) : list pystr := merge_sort str_le xs.

(** [str(n)] for a non-negative integer. *)
Definition str_of_nat (n : nat) : pystr := py (pretty n).

(** [s.startswith(p)] *)
Fixpoint starts_with (p s : pystr) : bool :=
  match p, s with
  | [], _ => true
  | _ :: _, [] => false
  | a :: p', b :: s' => (a =? b) && starts_with p' s'
  end.

(** The line feed, and a literal in which [@] stands for the double quote. *)
Definition nl : pystr := [0x0A].
Definition pyq (s : string) : pystr :=
  (fun c => if c =? 0x40 then 0x22 else c) <$> py s.

(** [enumerate(xs)] *)
Definition enumerate {A} (xs : list A) : list (nat * A) := imap pair xs.

(** *** Values

    The values that [json.loads] builds and that the agents pass around.
    A [dict] keeps its keys in insertion order and holds each key once. *)
#[warnings="-register-all"]
Inductive pyval : Type :=
| PNone
| PBool (b : bool)
| PInt (z : Z)
| PFloat (f : float)
| PStr (s : pystr)
| PList (l : list pyval)
| PDict (d : list (pystr * pyval)).

Abbreviation pydict := (list (pystr * pyval)).

(** [bool(v)], as in [if not v:]. *)
Definition truthy (v : pyval) : bool :=
  match v with
  | PNone => false
  | PBool b => b
  | PInt z => negb (z =? 0)%Z
  | PFloat f => negb (PrimFloat.eqb f 0%float)
  | PStr s => negb (bool_decide (s = []))
  | PList l => negb (bool_decide (l = []))
  | PDict d => negb (bool_decide (d = []))
  end.

(** [k in d] *)
Fixpoint dict_mem (k : pystr) (d : pydict) : bool :=
  match d with
  | [] => false
  | (k', _) :: r => bool_decide (k = k') || dict_mem k r
  end.

(** [d.get(k)] *)
Fixpoint dict_get (k : pystr) (d : pydict) : option pyval :=
  match d with
  | [] => None
  | (k', v) :: r => if decide (k = k') then Some v else dict_get k r
  end.

(** [d[k] = v] *)
Fixpoint dict_set (k : pystr) (v : pyval) (d : pydict) : pydict :=
  match d with
  | [] => [(k, v)]
  | (k', v') :: r =>
      if decide (k = k') then (k, v) :: r else (k', v') :: dict_set k v r
  end.

(** *** Exceptions *)

Inductive exn_type : Type :=
| TypeError | ValueError | IndexError | UnicodeEncodeError
| JSONDecodeError | ValidationError | Exception.

(** A raised exception: its class and [str(e)]. *)
Record exn : Type := Exn { exn_class : exn_type; exn_str : pystr }.

(** The outcome of a call: a value, or an exception on its way up. *)
Inductive result (A : Type) : Type :=
| Ok (a : A)
| Raise (e : exn).
Arguments Ok {A} a.
Arguments Raise {A} e.

#[export] Instance result_ret : MRet result := @Ok.
#[export] Instance result_bind : MBind result :=
  fun A B f m => match m with Ok a => f a | Raise e => Raise e end.
#[export] Instance result_fmap : FMap result :=
  fun A B f m => match m with Ok a => Ok (f a) | Raise e => Raise e end.

(** [try: body except Exception as e: handler(e)] *)
Definition try_except {A} (body : result A) (handler : exn -> result A)
  : result A :=
  match body with
  | Ok a => Ok a
  | Raise e => handler e
  end.

(** [l[i]] *)
Definition index {A} (l : list A) (i : nat) : result A :=
  match l !! i with
  | Some a => Ok a
  | None => Raise (Exn IndexError (py "list index out of range"))
  end.

(** *** Encoding and formatting *)

Definition is_surrogate (c : N) : bool := (0xD800 <=? c) && (c <=? 0xDFFF).

(** The UTF-8 bytes of one code point that is not a surrogate. *)
Definition utf8_bytes (c : N) : list N :=
  if c <? 0x80 then [c]
  else if c <? 0x800 then [0xC0 + c / 0x40; 0x80 + c mod 0x40]
  else if c <? 0x10000
  then [0xE0 + c / 0x1000; 0x80 + (c / 0x40) mod 0x40; 0x80 + c mod 0x40]
  else [0xF0 + c / 0x40000; 0x80 + (c / 0x1000) mod 0x40;
        0x80 + (c / 0x40) mod 0x40; 0x80 + c mod 0x40].

Definition hex_digit (n : N) : N :=
  if n <? 10 then 0x30 + n else 0x61 + (n - 10).

(** The [UnicodeEncodeError] of the strict UTF-8 codec for the run of [run]
    surrogates that starts with [c] at position [pos]. *)
Definition surrogate_error (pos : nat) (c : N) (run : nat) : exn :=
  Exn UnicodeEncodeError
    (py "'utf-8' codec can't encode "
     ++ (if decide (run = 1%nat)
         then py "character '\u"
              ++ [hex_digit (c / 0x1000); hex_digit ((c / 0x100) mod 0x10);
                  hex_digit ((c / 0x10) mod 0x10); hex_digit (c mod 0x10)]
              ++ py "' in position " ++ str_of_nat pos
         else py "characters in position " ++ str_of_nat pos ++ py "-"
              ++ str_of_nat (pos + run - 1))
     ++ py ": surrogates not allowed").

Fixpoint surrogate_run (s : pystr) : nat :=
  match s with
  | c :: r => if is_surrogate c then S (surrogate_run r) else O
  | [] => O
  end.

Fixpoint encode_from (pos : nat) (s : pystr) : result (list N) :=
  match s with
  | [] => Ok []
  | c :: r =>
      if is_surrogate c
      then Raise (surrogate_error pos c (surrogate_run s))
      else bs ← encode_from (S pos) r; Ok (utf8_bytes c ++ bs)
  end.

(** [s.encode()] *)
Definition encode (s : pystr) : result (list N) := encode_from 0 s.

(** [round(m * 2^e * 100)] to the nearest integer, ties to even. *)
Definition hundredths (m : positive) (e : Z) : N :=
  match e with
  | Z.neg k =>
      let num := 100 * N.pos m in
      let den := 2 ^ N.pos k in
      let q := num / den in
      match N.compare (2 * (num mod den)) den with
      | Lt => q
      | Gt => q + 1
      | Eq => if N.even q then q else q + 1
      end
  | _ => 100 * N.pos m * 2 ^ Z.to_N e
  end.

(** [f"{x:.2f}"] *)
Definition format_2f (x : float) : pystr :=
  match Prim2SF x with
  | S754_nan => py "nan"
  | S754_infinity s => (if s then py "-" else []) ++ py "inf"
  | S754_zero s => (if s then py "-" else []) ++ py "0.00"
  | S754_finite s m e =>
      let q := hundredths m e in
      let frac := py (pretty (q mod 100)) in
      (if s then py "-" else []) ++ py (pretty (q / 100)) ++ py "."
        ++ replicate (2 - length frac) 0x30 ++ frac
  end.

(** [for x in xs: ys.append(f(x))], leaving at the first exception. *)
Fixpoint for_each {A B} (f : A -> result B) (xs : list A)
  : result (list B) :=
  match xs with
  | [] => Ok []
  | x :: r => y ← f x; ys ← for_each f r; Ok (y :: ys)
  end.

End Py.
Export Py.

(** ** [hashlib.md5] (RFC 1321), on bytes *)

Module MD5.

Definition add32 (a b : N) : N := (a + b) mod 0x100000000.
Definition not32 (a : N) : N := N.lxor a 0xFFFFFFFF.
Definition rotl32 (x n : N) : N :=
  N.lor (N.shiftl x n mod 0x100000000) (N.shiftr x (32 - n)).

Definition shifts : list N :=
  [7; 12; 17; 22; 7; 12; 17; 22; 7; 12; 17; 22; 7; 12; 17; 22;
   5; 9; 14; 20; 5; 9; 14; 20; 5; 9; 14; 20; 5; 9; 14; 20;
   4; 11; 16; 23; 4; 11; 16; 23; 4; 11; 16; 23; 4; 11; 16; 23;
   6; 10; 15; 21; 6; 10; 15; 21; 6; 10; 15; 21; 6; 10; 15; 21].

Definition sines : list N :=
  [0xd76aa478; 0xe8c7b756; 0x242070db; 0xc1bdceee;
   0xf57c0faf; 0x4787c62a; 0xa8304613; 0xfd469501;
   0x698098d8; 0x8b44f7af; 0xffff5bb1; 0x895cd7be;
   0x6b901122; 0xfd987193; 0xa679438e; 0x49b40821;
   0xf61e2562; 0xc040b340; 0x265e5a51; 0xe9b6c7aa;
   0xd62f105d; 0x02441453; 0xd8a1e681; 0xe7d3fbc8;
   0x21e1cde6; 0xc33707d6; 0xf4d50d87; 0x455a14ed;
   0xa9e3e905; 0xfcefa3f8; 0x676f02d9; 0x8d2a4c8a;
   0xfffa3942; 0x8771f681; 0x6d9d6122; 0xfde5380c;
   0xa4beea44; 0x4bdecfa9; 0xf6bb4b60; 0xbebfbc70;
   0x289b7ec6; 0xeaa127fa; 0xd4ef3085; 0x04881d05;
   0xd9d4d039; 0xe6db99e5; 0x1fa27cf8; 0xc4ac5665;
   0xf4292244; 0x432aff97; 0xab9423a7; 0xfc93a039;
   0x655b59c3; 0x8f0ccc92; 0xffeff47d; 0x85845dd1;
   0x6fa87e4f; 0xfe2ce6e0; 0xa3014314; 0x4e0811a1;
   0xf7537e82; 0xbd3af235; 0x2ad7d2bb; 0xeb86d391].

(** Four bytes, least significant first, as one 32-bit word. *)
Definition word_of_bytes (bs : list N) : N :=
  foldr (fun b acc => b + 256 * acc) 0 bs.

Fixpoint bytes_of_word (n : nat) (w : N) : list N :=
  match n with
  | O => []
  | S n' => w mod 256 :: bytes_of_word n' (w / 256)
  end.

(** The message followed by 0x80, zeros up to 56 modulo 64, and the bit
    length on eight bytes. *)
Definition pad (msg : list N) : list N :=
  let len := length msg in
  let zeros := ((55 + 64 - len mod 64) mod 64)%nat in
  msg ++ [0x80] ++ replicate zeros 0 ++ bytes_of_word 8 (8 * N.of_nat len).

Fixpoint words (n : nat) (bs : list N) : list N :=
  match n with
  | O => []
  | S n' => word_of_bytes (take 4 bs) :: words n' (drop 4 bs)
  end.

Definition state : Type := N * N * N * N.

Definition step (m : list N) (st : state) (i : nat) : state :=
  let '(a, b, c, d) := st in
  let '(f, g) :=
    if (i <? 16)%nat then (N.lor (N.land b c) (N.land (not32 b) d), i)
    else if (i <? 32)%nat
    then (N.lor (N.land d b) (N.land (not32 d) c), ((5 * i + 1) mod 16)%nat)
    else if (i <? 48)%nat
    then (N.lxor b (N.lxor c d), ((3 * i + 5) mod 16)%nat)
    else (N.lxor c (N.lor b (not32 d)), ((7 * i) mod 16)%nat) in
  let f := add32 (add32 (add32 f a) (sines !!! i)) (m !!! g) in
  (d, add32 b (rotl32 f (shifts !!! i)), b, c).

Definition block (st : state) (bs : list N) : state :=
  let m := words 16 bs in
  let '(a, b, c, d) := foldl (step m) st (seq 0 64) in
  let '(a0, b0, c0, d0) := st in
  (add32 a0 a, add32 b0 b, add32 c0 c, add32 d0 d).

Fixpoint blocks (n : nat) (st : state) (bs : list N) : state :=
  match n with
  | O => st
  | S n' => blocks n' (block st (take 64 bs)) (drop 64 bs)
  end.

Definition digest (msg : list N) : list N :=
  let padded := pad msg in
  let '(a, b, c, d) :=
    blocks (length padded / 64)
      (0x67452301, 0xefcdab89, 0x98badcfe, 0x10325476) padded in
  bytes_of_word 4 a ++ bytes_of_word 4 b ++ bytes_of_word 4 c
    ++ bytes_of_word 4 d.

(** [hashlib.md5(msg).hexdigest()] *)
Definition hexdigest (msg : list N) : list N :=
  digest msg ≫= fun b => [hex_digit (b / 16); hex_digit (b mod 16)].

End MD5.

(** ** Records passed between the services *)

(** The metadata dictionary of a stored chunk.  [source_document] is read
    with [.get], so its absence is representable. *)
Module Metadata.
Record t : Type := {
  source_document : option pystr;
  chunk_index : nat;
  total_chunks : nat;
  file_type : pystr;
  file_size : Z
}.
End Metadata.

(** A parsed document as [add_documents] receives it: [content] and
    [metadata] are read with [.get], the fields of [metadata] too. *)
Module Document.
Record meta : Type := {
  filename : option pystr;
  file_type : option pystr;
  file_size : option Z
}.
Record t : Type := {
  content : option pystr;
  metadata : option meta
}.
End Document.

(** A retrieved match, as [VectorStore.query] builds it. *)
Module Chunk.
Record t : Type := {
  text : pystr;
  metadata : Metadata.t;
  score : float;
  source_document : pystr
}.
End Chunk.

(** ** [backend/config.py] *)

Module settings.
Definition COLLECTION_NAME : pystr := py "qa_knowledge_base".
Definition TOP_K_RESULTS : Z := 5.
Definition MAX_TOKENS : Z := 2000.
Definition TEMPERATURE : float := 0x1.999999999999ap-4%float.
End settings.

(** ** External collaborators

    The text splitter, the embedding model, the JSON decoder and the
    chat-completion provider are libraries and services outside the
    repository; the code is verified for every behaviour they may have. *)

Class Collaborators : Type := {
  (** [RecursiveCharacterTextSplitter(...).split_text] *)
  split_text : pystr -> list pystr;
  (** [SentenceTransformer.encode] on one text and on a batch *)
  embed_text : pystr -> result (list float);
  embed_batch : list pystr -> result (list (list float));
  (** [json.loads] *)
  json_loads : pystr -> result pyval;
  (** [client.chat.completions.create(...)], then
      [.choices[0].message.content]: system prompt, user message,
      temperature, max_tokens *)
  chat_completion : pystr -> pystr -> float -> Z -> result pystr
}.

(** What [collection.query] returns: one row per query embedding. *)
Module QueryResult.
Record t : Type := {
  ids : list (list pystr);
  documents : list (list pystr);
  metadatas : list (list Metadata.t);
  distances : list (list float)
}.
End QueryResult.

(** The ChromaDB client and its collection. *)
Class VectorBackend : Type := {
  collection : Type;
  (** the collection right after [delete_collection] and
      [get_or_create_collection] *)
  recreated_collection : collection;
  (** [collection.add(ids, embeddings, documents, metadatas)] *)
  collection_add :
    list pystr -> list (list float) -> list pystr -> list Metadata.t ->
    collection -> result collection;
  (** [collection.query(query_embeddings, n_results, where)] *)
  collection_query :
    list (list float) -> Z -> option pydict -> collection ->
    result QueryResult.t;
  (** [collection.get(limit)['metadatas']] *)
  collection_get : Z -> collection -> result (list Metadata.t);
  (** [collection.count()] *)
  collection_count : collection -> result nat
}.

(** ** [backend/utils/helpers.py] *)

Module Helpers.

(** [re.sub(r'\s+', ' ', text)]: every maximal run of whitespace becomes
    one space.  [in_run] records that the previous character was
    whitespace, so that the run has already produced its space. *)
Fixpoint collapse_ws (in_run : bool) (text : pystr) : pystr :=
  match text with
  | [] => []
  | c :: r =>
      if isspace c
      then (if in_run then collapse_ws true r else 0x20 :: collapse_ws true r)
      else c :: collapse_ws false r
  end.

(** The character class [[\x00-\x08\x0b-\x0c\x0e-\x1f\x7f-\x9f]]. *)
Definition is_control (c : N) : bool :=
  (c <=? 0x08)
  || ((0x0B <=? c) && (c <=? 0x0C))
  || ((0x0E <=? c) && (c <=? 0x1F))
  || ((0x7F <=? c) && (c <=? 0x9F)).

(** [re.sub(r'[\x00-\x08\x0b-\x0c\x0e-\x1f\x7f-\x9f]', '', text)] *)
Definition remove_control (text : pystr) : pystr :=
  filter (fun c => is_control c = false) text.

(** [clean_text]: collapse whitespace, then remove control characters,
    then strip. *)
Definition clean_text (text : pystr) : pystr :=
  let text := collapse_ws false text in
  let text := remove_control text in
  strip text.

(** [generate_chunk_id]: ["chunk_<index>_<first 8 hex digits of the MD5 of
    the text>"]. *)
Definition generate_chunk_id (text : pystr) (index : nat) : result pystr :=
  bytes ← encode text;
  let text_hash := take 8 (MD5.hexdigest bytes) in
  Ok (py "chunk_" ++ str_of_nat index ++ py "_" ++ text_hash).

(** [create_metadata_dict(source_document, chunk_index, total_chunks,
    file_type=..., file_size=...)] *)
Definition create_metadata_dict (source_document : pystr)
    (chunk_index total_chunks : nat) (file_type : pystr) (file_size : Z)
  : Metadata.t :=
  {| Metadata.source_document := Some source_document;
     Metadata.chunk_index := chunk_index;
     Metadata.total_chunks := total_chunks;
     Metadata.file_type := file_type;
     Metadata.file_size := file_size |}.

(** [f"TC-{index:03d}"] for the indices [i + 1] the agent passes. *)
Definition generate_test_id (index : nat) : pystr :=
  let digits := str_of_nat index in
  py "TC-" ++ replicate (3 - length digits)%nat 0x30 ++ digits.

(** A character that is neither whitespace nor a control character. *)
Definition visible (c : N) : bool := negb (isspace c) && negb (is_control c).

(** Whitespace in [s] is U+0020 only, never twice in a row, and not at the
    start when [after_space] says that a space precedes [s]. *)
Fixpoint single_spaced (after_space : bool) (s : pystr) : bool :=
  match s with
  | [] => true
  | c :: r =>
      if isspace c
      then (c =? 0x20) && negb after_space && single_spaced true r
      else single_spaced false r
  end.

(** [s] holds no control character. *)
Definition no_control (s : pystr) : Prop :=
  Forall (fun c => is_control c = false) s.

(** The only whitespace in [s] is U+0020. *)
Definition only_spaces (s : pystr) : Prop :=
  Forall (fun c => isspace c = true -> c = 0x20) s.

End Helpers.
Export Helpers.

(** ** [backend/services/document_parser.py] *)

Module DocumentParser.

(** [_parse_markdown], on the text read from the file. *)
Definition _parse_markdown (content : pystr) : pystr := clean_text content.

(** [_parse_text] *)
Definition _parse_text (content : pystr) : pystr := clean_text content.

End DocumentParser.
Export DocumentParser.

(** ** [backend/services/vector_store.py] *)

Module VectorStore.

(** The dictionary [add_documents] returns. *)
Record AddResult : Type := {
  success : bool;
  message : pystr;
  total_chunks : nat;
  total_documents : nat
}.

(** One prepared chunk: what the three parallel lists [all_chunks],
    [all_metadatas] and [all_ids] hold at one position. *)
Record Entry : Type := {
  entry_chunk : pystr;
  entry_metadata : Metadata.t;
  entry_id : pystr
}.

(** The dictionary [get_stats] returns. *)
Record Stats : Type := {
  stats_total_chunks : nat;
  stats_total_documents : nat;
  stats_collection_name : pystr;
  stats_documents : list pystr
}.

Section Store.
Context `{Collaborators} `{VectorBackend}.

(** The body of [for doc in documents:] for one document: nothing for a
    document without content, else one entry per chunk of the split. *)
Definition document_entries (doc : Document.t) : result (list Entry) :=
  match Document.content doc with
  | None | Some [] => Ok []
  | Some content =>
      let doc_metadata := Document.metadata doc in
      let filename :=
        default (py "unknown") (doc_metadata ≫= Document.filename) in
      let chunks := split_text content in
      for_each
        (fun '(i, chunk) =>
           chunk_id ← generate_chunk_id chunk i;
           let metadata :=
             create_metadata_dict filename i (length chunks)
               (default [] (doc_metadata ≫= Document.file_type))
               (default 0%Z (doc_metadata ≫= Document.file_size)) in
           Ok {| entry_chunk := chunk;
                 entry_metadata := metadata;
                 entry_id := chunk_id |})
        (enumerate chunks)
  end.

(** The batch the loop over [documents] builds. *)
Definition prepare_batch (documents : list Document.t)
  : result (list Entry) :=
  @concat Entry <$> for_each document_entries documents.

(** [add_documents] *)
Definition add_documents (documents : list Document.t) (c : collection)
  : result (AddResult * collection) :=
  batch ← prepare_batch documents;
  let all_chunks := entry_chunk <$> batch in
  let all_metadatas := entry_metadata <$> batch in
  let all_ids := entry_id <$> batch in
  let total_chunks := length batch in
  if decide (all_chunks = [])
  then Ok ({| success := false;
              message := py "No valid content to process";
              total_chunks := 0;
              total_documents := 0 |}, c)
  else
    all_embeddings ← embed_batch all_chunks;
    c' ← collection_add all_ids all_embeddings all_chunks all_metadatas c;
    Ok ({| success := true;
           message := py "Documents added successfully";
           total_chunks := total_chunks;
           total_documents := length documents |}, c').

(** [query] *)
Definition query (query_text : pystr) (n_results : option Z)
    (filter_dict : option pydict) (c : collection)
  : result (list Chunk.t) :=
  let n_results := default settings.TOP_K_RESULTS n_results in
  query_embedding ← embed_text query_text;
  results ← collection_query [query_embedding] n_results filter_dict c;
  match QueryResult.ids results with
  | ids0 :: _ =>
      if decide (0 < length ids0)%nat
      then
        for_each
          (fun i =>
             documents0 ← index (QueryResult.documents results) 0;
             text ← index documents0 i;
             metadatas0 ← index (QueryResult.metadatas results) 0;
             metadata ← index metadatas0 i;
             distances0 ← index (QueryResult.distances results) 0;
             distance ← index distances0 i;
             Ok {| Chunk.text := text;
                   Chunk.metadata := metadata;
                   Chunk.score := PrimFloat.sub 1%float distance;
                   Chunk.source_document :=
                     default (py "unknown")
                       (Metadata.source_document metadata) |})
          (seq 0 (length ids0))
      else Ok []
  | [] => Ok []
  end.

(** The loop of [get_all_documents] that fills the set [sources]. *)
Definition collect_sources (metadatas : list Metadata.t) : gset (list N) :=
  foldl
    (fun sources metadata =>
       match Metadata.source_document metadata with
       | Some source =>
           if decide (source = []) then sources else {[source]} ∪ sources
       | None => sources
       end)
    ∅ metadatas.

(** [get_all_documents] *)
Definition get_all_documents (c : collection) : result (list pystr) :=
  results ← collection_get 10000%Z c;
  Ok (sorted (elements (collect_sources results))).

(** [clear_collection] *)
Definition clear_collection (c : collection) : collection :=
  recreated_collection.

(** [get_stats] *)
Definition get_stats (c : collection) : result Stats :=
  count ← collection_count c;
  documents ← get_all_documents c;
  Ok {| stats_total_chunks := count;
        stats_total_documents := length documents;
        stats_collection_name := settings.COLLECTION_NAME;
        stats_documents := documents |}.

End Store.
End VectorStore.

(** ** [backend/services/rag_service.py] *)

Module RAGService.

(** The dictionary [rag_query] returns. *)
Record RagResult : Type := {
  response : pystr;
  context : pystr;
  retrieved_chunks : list Chunk.t;
  num_chunks : nat
}.

Section Rag.
Context `{Collaborators} `{VectorBackend}.

(** [retrieve_context]; [n_results or settings.TOP_K_RESULTS]. *)
Definition retrieve_context (query : pystr) (n_results : option Z)
    (filter_dict : option pydict) (c : collection)
  : result (list Chunk.t) :=
  let n :=
    match n_results with
    | Some n => if (n =? 0)%Z then settings.TOP_K_RESULTS else n
    | None => settings.TOP_K_RESULTS
    end in
  VectorStore.query query (Some n) filter_dict c.

(** [format_context] *)
Definition format_context (retrieved_chunks : list Chunk.t) : pystr :=
  if decide (retrieved_chunks = [])
  then py "No relevant documentation found."
  else
    let context_parts :=
      (fun chunk =>
         let source := Chunk.source_document chunk in
         let text := Chunk.text chunk in
         let score := Chunk.score chunk in
         py "=== From " ++ source ++ py " (relevance: " ++ format_2f score
           ++ py ") ===" ++ nl ++ text ++ nl) <$> retrieved_chunks in
    join nl context_parts.

(** [generate_response] *)
Definition generate_response (user_query context system_prompt : pystr)
    (temperature : option float) : result pystr :=
  let temperature := default settings.TEMPERATURE temperature in
  let user_message :=
    py "Based on the following documentation:" ++ nl ++ nl
      ++ context ++ nl ++ nl
      ++ py "User Request: " ++ user_query ++ nl ++ nl
      ++ py "Please respond based ONLY on the provided documentation. "
      ++ py "Do not make up or hallucinate any features not mentioned "
      ++ py "in the documents." in
  try_except
    (chat_completion system_prompt user_message temperature
       settings.MAX_TOKENS)
    (fun e =>
       Raise (Exn Exception (py "LLM generation failed: " ++ exn_str e))).

(** [rag_query] *)
Definition rag_query (user_query system_prompt : pystr)
    (n_results : option Z) (temperature : option float)
    (filter_dict : option pydict) (c : collection) : result RagResult :=
  retrieved_chunks ← retrieve_context user_query n_results filter_dict c;
  let context := format_context retrieved_chunks in
  response ← generate_response user_query context system_prompt temperature;
  Ok {| response := response;
        context := context;
        retrieved_chunks := retrieved_chunks;
        num_chunks := length retrieved_chunks |}.

End Rag.
End RAGService.

(** ** [backend/models.py]: the test-case models *)

Module Models.

Record TestCase : Type := {
  test_id : pystr;
  feature : pystr;
  test_scenario : pystr;
  test_type : pystr;
  preconditions : pystr;
  test_steps : list pystr;
  expected_result : pystr;
  grounded_in : pystr
}.

Record TestCaseResponse : Type := {
  success : bool;
  message : pystr;
  test_cases : list TestCase;
  total_cases : nat
}.

Definition get_str (k : string) (d : pydict) : option pystr :=
  match dict_get (py k) d with
  | Some (PStr s) => Some s
  | _ => None
  end.

Definition get_str_list (k : string) (d : pydict) : option (list pystr) :=
  match dict_get (py k) d with
  | Some (PList l) =>
      mapM (fun v => match v with PStr s => Some s | _ => None end) l
  | _ => None
  end.

(** Modelled from the spec: the [TestCase] model of [backend/models.py] is
    not among the sources.  The specification gives the shape
    [{testId, feature, scenario, type ∈ {positive, negative, edge_case},
    preconditions, steps[ordered], expectedResult, groundedIn}] and says that
    an item failing required-field validation is dropped; the field names are
    those of the agent's prompt and of the attribute accesses in
    [script_agent.py].  Building a [TestCase] from the keys of [tc_data]
    is: every field present with
    the type of the shape, other keys ignored; [None] stands for the
    validation error. *)
Definition TestCase_new (tc_data : pydict) : option TestCase :=
  test_id ← get_str "test_id" tc_data;
  feature ← get_str "feature" tc_data;
  test_scenario ← get_str "test_scenario" tc_data;
  test_type ← get_str "test_type" tc_data;
  guard (test_type ∈ [py "positive"; py "negative"; py "edge_case"]);;
  preconditions ← get_str "preconditions" tc_data;
  test_steps ← get_str_list "test_steps" tc_data;
  expected_result ← get_str "expected_result" tc_data;
  grounded_in ← get_str "grounded_in" tc_data;
  Some {| test_id := test_id;
          feature := feature;
          test_scenario := test_scenario;
          test_type := test_type;
          preconditions := preconditions;
          test_steps := test_steps;
          expected_result := expected_result;
          grounded_in := grounded_in |}.

End Models.

(** ** [backend/services/test_case_agent.py] *)

Module TestCaseAgent.
Import Models.

(** [self.system_prompt] *)
Definition system_prompt : pystr := pyq
"You are an expert QA Test Case Designer.

Your task is to generate comprehensive, documentation-grounded test cases.

CRITICAL RULES:
1. Base ALL test cases ONLY on the provided documentation
2. DO NOT invent, assume, or hallucinate any features not mentioned in docs
3. Each test case MUST reference which document(s) it's based on
4. Include both positive and negative test scenarios
5. Be specific and actionable

OUTPUT FORMAT:
Return test cases as a JSON array with this structure:
[
  {
    @test_id@: @TC-001@,
    @feature@: @Feature name@,
    @test_scenario@: @Detailed scenario description@,
    @test_type@: @positive|negative|edge_case@,
    @preconditions@: @Setup required before test@,
    @test_steps@: [
      @Step 1: Action to perform@,
      @Step 2: Next action@,
      @Step 3: Verification@
    ],
    @expected_result@: @What should happen@,
    @grounded_in@: @Exact source document name (e.g., product_specs.md)@
  }
]

Generate clear, testable scenarios that can be automated with Selenium.".

(** *** The two regular-expression searches of [_extract_json_from_response]

    [re.search] returns the leftmost match; both patterns are compiled with
    [re.DOTALL], so [.] matches every character. *)

(** What follows the leftmost occurrence of the literal [pat] in [s]. *)
Fixpoint after_first (pat s : pystr) : option pystr :=
  if starts_with pat s then Some (drop (length pat) s)
  else match s with
       | [] => None
       | _ :: r => after_first pat r
       end.

Definition fence : pystr := py "```".

(** The lazy group [(.*?)] in front of [\s*```]: the shortest prefix of [s]
    after which optional whitespace and a closing fence follow. *)
Fixpoint until_fence (s : pystr) : option pystr :=
  if starts_with fence (lstrip s) then Some []
  else match s with
       | [] => None
       | c :: r => cons c <$> until_fence r
       end.

(** Group 1 of [re.search(r'```json\s*(.*?)\s*```', text, re.DOTALL)].
    After the leftmost [```json] the greedy [\s*] takes all the whitespace
    that follows; giving some of it back, or starting at a later [```json],
    finds a closing fence only where this attempt finds one too. *)
Definition search_json_block (text : pystr) : option pystr :=
  rest ← after_first (py "```json") text;
  until_fence (lstrip rest).

(** The longest prefix of [s] that ends with a closing bracket. *)
Fixpoint through_last_bracket (s : pystr) : option pystr :=
  match s with
  | [] => None
  | c :: r =>
      match through_last_bracket r with
      | Some t => Some (c :: t)
      | None => if c =? 0x5D then Some [c] else None
      end
  end.

(** Group 0 of [re.search(r'\[.*\]', text, re.DOTALL)]: from the first
    opening bracket to the last closing bracket after it. *)
Definition search_array (text : pystr) : option pystr :=
  rest ← after_first [0x5B] text;
  t ← through_last_bracket rest;
  Some (0x5B :: t).

(** [_infer_source_documents] *)
Definition _infer_source_documents (retrieved_chunks : list Chunk.t)
  : pystr :=
  if decide (retrieved_chunks = []) then py "documentation"
  else
    let sources : gset (list N) :=
      foldl
        (fun sources chunk =>
           let source := Chunk.source_document chunk in
           if decide (source = []) then sources else {[source]} ∪ sources)
        ∅ (take 3 retrieved_chunks) in
    if decide (sources = ∅) then py "documentation"
    else join (py ", ") (sorted (elements sources)).

(** The distinct elements of a list, in the order of their first
    occurrence. *)
Fixpoint distinct (l : list (list N)) : list (list N) :=
  match l with
  | [] => []
  | x :: r => x :: filter (fun y => y <> x) (distinct r)
  end.

(** The specification's "distinct source documents among the retrieved
    matches", best match first; a match without source name counts for
    none. *)
Definition ranked_source_documents (retrieved_chunks : list Chunk.t)
  : list (list N) :=
  distinct
    (filter (fun s => s <> []) (Chunk.source_document <$> retrieved_chunks)).

(** The back-fill as the specification words it: the first three of the
    distinct source documents among the retrieved matches, sorted and
    joined; the word ["documentation"] when there is none. *)
Definition top_distinct_source_documents (retrieved_chunks : list Chunk.t)
  : pystr :=
  let docs := sorted (take 3 (ranked_source_documents retrieved_chunks)) in
  if decide (docs = []) then py "documentation" else join (py ", ") docs.
(** [for i, tc_data in enumerate(test_cases_data)]: the items a value
    yields when it is iterated. *)
Definition iterate (v : pyval) : result (list pyval) :=
  let not_iterable (t : string) :=
    Raise (Exn TypeError (py "'" ++ py t ++ py "' object is not iterable")) in
  match v with
  | PList l => Ok l
  | PStr s => Ok ((fun c => PStr [c]) <$> s)
  | PDict d => Ok ((fun kv => PStr kv.1) <$> d)
  | PNone => not_iterable "NoneType"
  | PBool _ => not_iterable "bool"
  | PInt _ => not_iterable "int"
  | PFloat _ => not_iterable "float"
  end.

(** The dictionary handed to [TestCase] for item [i]: [test_id] and
    [grounded_in] filled in when missing (or, for [grounded_in], falsy).
    An item that is not a dictionary raises [TypeError] at one of the
    subscript operations, whatever its membership tests answer. *)
Definition complete_item (i : nat) (tc_data : pyval)
    (retrieved_chunks : list Chunk.t) : option pydict :=
  match tc_data with
  | PDict d =>
      let d :=
        if dict_mem (py "test_id") d then d
        else dict_set (py "test_id") (PStr (generate_test_id (i + 1))) d in
      let d :=
        match dict_get (py "grounded_in") d with
        | Some v =>
            if truthy v then d
            else dict_set (py "grounded_in")
                   (PStr (_infer_source_documents retrieved_chunks)) d
        | None =>
            dict_set (py "grounded_in")
              (PStr (_infer_source_documents retrieved_chunks)) d
        end in
      Some d
  | _ => None
  end.

(** The body of the inner [try]: [None] when it raised, and the item is
    skipped. *)
Definition build_test_case (i : nat) (tc_data : pyval)
    (retrieved_chunks : list Chunk.t) : option TestCase :=
  complete_item i tc_data retrieved_chunks ≫= TestCase_new.

Section Agent.
Context `{Collaborators} `{VectorBackend}.

(** The string [_extract_json_from_response] hands to [json.loads]. *)
Definition json_candidate (response_text : pystr) : pystr :=
  match search_json_block response_text with
  | Some block => block
  | None =>
      match search_array response_text with
      | Some array => array
      | None => response_text
      end
  end.

(** [_extract_json_from_response]; [PNone] is the [None] it returns on a
    [JSONDecodeError]. *)
Definition _extract_json_from_response (response_text : pystr)
  : result pyval :=
  match json_loads (json_candidate response_text) with
  | Ok data =>
      Ok (match data with
          | PDict _ => PList [data]
          | _ => data
          end)
  | Raise e =>
      match exn_class e with
      | JSONDecodeError => Ok PNone
      | _ => Raise e
      end
  end.

(** The reply yields no parseable JSON under any of the three extraction
    strategies: neither a fenced JSON block, nor a bracket-delimited array,
    nor the whole reply decodes. *)
Definition no_parseable_json (response_text : pystr) : Prop :=
  (forall block, search_json_block response_text = Some block ->
     forall data, json_loads block <> Ok data)
  /\ (forall array, search_array response_text = Some array ->
        forall data, json_loads array <> Ok data)
  /\ (forall data, json_loads response_text <> Ok data).

(** The extraction as the specification words it: the three strategies are
    tried in order, the next one when the one before yields no JSON. *)
Definition extract_trying_in_order (response_text : pystr) : option pyval :=
  let decoded (candidate : option pystr) : option pyval :=
    s ← candidate;
    match json_loads s with
    | Ok data => Some data
    | Raise _ => None
    end in
  let found :=
    match decoded (search_json_block response_text) with
    | Some data => Some data
    | None =>
        match decoded (search_array response_text) with
        | Some data => Some data
        | None => decoded (Some response_text)
        end
    end in
  (fun data => match data with
               | PDict _ => PList [data]
               | _ => data
               end) <$> found.
(** [enhanced_query] *)
Definition enhanced_query (user_query : pystr) (include_negative : bool)
  : pystr :=
  if include_negative
  then user_query ++ py " Include both positive and negative test scenarios."
  else user_query.

(** [generate_test_cases] *)
Definition generate_test_cases (user_query : pystr)
    (include_negative : bool) (c : collection) : result TestCaseResponse :=
  try_except
    (rag_result ←
       RAGService.rag_query (enhanced_query user_query include_negative)
         system_prompt (Some 8%Z) (Some 0x1.999999999999ap-4%float) None c;
     let response_text := RAGService.response rag_result in
     test_cases_data ← _extract_json_from_response response_text;
     if negb (truthy test_cases_data)
     then Ok {| success := false;
                message := py "Failed to parse test cases from LLM response";
                test_cases := [];
                total_cases := 0 |}
     else
       items ← iterate test_cases_data;
       let test_cases :=
         omap
           (fun '(i, tc_data) =>
              build_test_case i tc_data
                (RAGService.retrieved_chunks rag_result))
           (enumerate items) in
       if decide (test_cases = [])
       then Ok {| success := false;
                  message := py "No valid test cases generated";
                  test_cases := [];
                  total_cases := 0 |}
       else Ok {| success := true;
                  message := py "Generated "
                               ++ str_of_nat (length test_cases)
                               ++ py " test cases";
                  test_cases := test_cases;
                  total_cases := length test_cases |})
    (fun e =>
       Ok {| success := false;
             message := py "Error generating test cases: " ++ exn_str e;
             test_cases := [];
             total_cases := 0 |}).

End Agent.
End TestCaseAgent.

(** ** Reference collaborators

    Executable stand-ins for the external collaborators, used to run the
    model on concrete inputs: a JSON decoder, a paragraph splitter, an
    in-memory vector collection with exact cosine search, and a chat
    provider that answers with a fixed reply. *)

Module Json.

Definition is_ws (c : N) : bool :=
  (c =? 0x20) || (c =? 0x09) || (c =? 0x0A) || (c =? 0x0D).

Fixpoint skip_ws (s : pystr) : pystr :=
  match s with
  | c :: r => if is_ws c then skip_ws r else s
  | [] => []
  end.

Definition is_digit (c : N) : bool := (0x30 <=? c) && (c <=? 0x39).

Definition hex_value (c : N) : option N :=
  if is_digit c then Some (c - 0x30)
  else if (0x61 <=? c) && (c <=? 0x66) then Some (c - 0x61 + 10)
  else if (0x41 <=? c) && (c <=? 0x46) then Some (c - 0x41 + 10)
  else None.

(** The four hexadecimal digits of a [\u] escape. *)
Definition hex4 (s : pystr) : option (N * pystr) :=
  match s with
  | a :: b :: c :: d :: r =>
      va ← hex_value a; vb ← hex_value b; vc ← hex_value c;
      vd ← hex_value d;
      Some (((va * 16 + vb) * 16 + vc) * 16 + vd, r)
  | _ => None
  end.

Definition simple_escape (c : N) : option N :=
  if c =? 0x22 then Some 0x22
  else if c =? 0x5C then Some 0x5C
  else if c =? 0x2F then Some 0x2F
  else if c =? 0x62 then Some 0x08
  else if c =? 0x66 then Some 0x0C
  else if c =? 0x6E then Some 0x0A
  else if c =? 0x72 then Some 0x0D
  else if c =? 0x74 then Some 0x09
  else None.

(** The characters of a string literal after its opening quote, and what
    follows the closing quote. *)
Fixpoint parse_string (fuel : nat) (s acc : pystr) : option (pystr * pystr) :=
  match fuel, s with
  | S fuel', c :: r =>
      if c =? 0x22 then Some (acc, r)
      else if c <? 0x20 then None
      else if c =? 0x5C then
        match r with
        | e :: r' =>
            if e =? 0x75 then
              '(u, r'') ← hex4 r';
              if (0xD800 <=? u) && (u <=? 0xDBFF)
                 && starts_with [0x5C; 0x75] r''
              then
                match hex4 (drop 2 r'') with
                | Some (u2, r3) =>
                    if (0xDC00 <=? u2) && (u2 <=? 0xDFFF)
                    then parse_string fuel' r3
                           (acc ++ [0x10000 + (u - 0xD800) * 0x400
                                    + (u2 - 0xDC00)])
                    else parse_string fuel' r'' (acc ++ [u])
                | None => parse_string fuel' r'' (acc ++ [u])
                end
              else parse_string fuel' r'' (acc ++ [u])
            else e' ← simple_escape e; parse_string fuel' r' (acc ++ [e'])
        | [] => None
        end
      else parse_string fuel' r (acc ++ [c])
  | _, _ => None
  end.

Fixpoint take_digits (s : pystr) : list N * pystr :=
  match s with
  | c :: r =>
      if is_digit c
      then let '(ds, r') := take_digits r in (c - 0x30 :: ds, r')
      else ([], s)
  | [] => ([], [])
  end.

Definition number_of_digits (ds : list N) : N :=
  foldl (fun n d => 10 * n + d) 0 ds.

(** The binary64 number nearest to [m * 10^e10], ties to even. *)
Definition float_of_decimal (neg : bool) (m : N) (e10 : Z) : float :=
  let sign := if neg then (-1)%Z else 1%Z in
  SF2Prim
    match e10 with
    | Z.neg k =>
        let den := (10 ^ Z.pos k)%Z in
        let s := (64 + 4 * Z.pos k)%Z in
        let num := (Z.of_N m * 2 ^ s)%Z in
        let sticky := if (num mod den =? 0)%Z then 0%Z else 1%Z in
        binary_normalize 53 1024 (sign * (2 * (num / den) + sticky))
          (- s - 1) neg
    | _ => binary_normalize 53 1024 (sign * Z.of_N m * 10 ^ e10) 0 neg
    end.

(** A number literal: an optional minus sign, an integer part without
    leading zero, an optional fraction, an optional exponent. *)
Definition parse_number (s : pystr) : option (pyval * pystr) :=
  let '(neg, s1) :=
    match s with
    | c :: r => if c =? 0x2D then (true, r) else (false, s)
    | [] => (false, s)
    end in
  let '(int_digits, s2) :=
    match s1 with
    | c :: r => if c =? 0x30 then ([0], r) else take_digits s1
    | [] => ([], s1)
    end in
  if decide (int_digits = []) then None
  else
    let '(frac_digits, s3) :=
      match s2 with
      | c :: r =>
          if c =? 0x2E
          then let '(ds, r') := take_digits r in
               if decide (ds = []) then ([], s2) else (ds, r')
          else ([], s2)
      | [] => ([], s2)
      end in
    let '(exponent, s4) :=
      match s3 with
      | c :: r =>
          if (c =? 0x65) || (c =? 0x45)
          then
            let '(eneg, r1) :=
              match r with
              | c' :: r' =>
                  if c' =? 0x2D then (true, r')
                  else if c' =? 0x2B then (false, r')
                  else (false, r)
              | [] => (false, r)
              end in
            let '(ds, r2) := take_digits r1 in
            if decide (ds = []) then (None, s3)
            else
              let e := Z.of_N (number_of_digits ds) in
              (Some (if eneg then (- e)%Z else e), r2)
          else (None, s3)
      | [] => (None, s3)
      end in
    match frac_digits, exponent with
    | [], None =>
        let n := Z.of_N (number_of_digits int_digits) in
        Some (PInt (if neg then (- n)%Z else n), s4)
    | _, _ =>
        Some (PFloat
                (float_of_decimal neg
                   (number_of_digits (int_digits ++ frac_digits))
                   (default 0%Z exponent - Z.of_nat (length frac_digits))),
              s4)
    end.

Definition literals : list (pystr * pyval) :=
  [(py "null", PNone); (py "true", PBool true); (py "false", PBool false);
   (py "NaN", PFloat nan); (py "Infinity", PFloat infinity);
   (py "-Infinity", PFloat neg_infinity)].

Definition parse_literal (s : pystr) : option (pyval * pystr) :=
  (fun '(name, v) => (v, drop (length name) s))
    <$> list_find (fun '(name, _) => starts_with name s = true) literals
        ≫= fun '(_, x) => Some x.

(** One JSON value at the head of [s], and what follows it. *)
Fixpoint parse_value (fuel : nat) (s : pystr) {struct fuel}
  : option (pyval * pystr) :=
  match fuel, s with
  | S fuel', c :: r =>
      if c =? 0x22 then
        '(str, r') ← parse_string (length r) r []; Some (PStr str, r')
      else if c =? 0x7B then
        match skip_ws r with
        | c' :: r' =>
            if c' =? 0x7D then Some (PDict [], r')
            else parse_members fuel' (c' :: r') []
        | [] => None
        end
      else if c =? 0x5B then
        match skip_ws r with
        | c' :: r' =>
            if c' =? 0x5D then Some (PList [], r')
            else parse_elements fuel' (c' :: r') []
        | [] => None
        end
      else
        match parse_literal s with
        | Some x => Some x
        | None => parse_number s
        end
  | _, _ => None
  end
with parse_elements (fuel : nat) (s : pystr) (acc : list pyval)
       {struct fuel} : option (pyval * pystr) :=
  match fuel with
  | S fuel' =>
      '(v, r) ← parse_value fuel' s;
      match skip_ws r with
      | c :: r' =>
          if c =? 0x2C then parse_elements fuel' (skip_ws r') (acc ++ [v])
          else if c =? 0x5D then Some (PList (acc ++ [v]), r')
          else None
      | [] => None
      end
  | O => None
  end
with parse_members (fuel : nat) (s : pystr) (acc : pydict)
       {struct fuel} : option (pyval * pystr) :=
  match fuel, s with
  | S fuel', c :: r =>
      if c =? 0x22 then
        '(k, r1) ← parse_string (length r) r [];
        match skip_ws r1 with
        | c2 :: r2 =>
            if c2 =? 0x3A then
              '(v, r3) ← parse_value fuel' (skip_ws r2);
              match skip_ws r3 with
              | c4 :: r4 =>
                  if c4 =? 0x2C
                  then parse_members fuel' (skip_ws r4) (dict_set k v acc)
                  else if c4 =? 0x7D
                  then Some (PDict (dict_set k v acc), r4)
                  else None
              | [] => None
              end
            else None
        | [] => None
        end
      else None
  | _, _ => None
  end.

Definition decode (s : pystr) : option pyval :=
  '(v, r) ← parse_value (2 * length s + 4) (skip_ws s);
  if decide (skip_ws r = []) then Some v else None.

(** The decoder as [json.loads]: a document that does not decode raises
    [JSONDecodeError] (the position in its message is not tracked). *)
Definition loads (s : pystr) : result pyval :=
  match decode s with
  | Some v => Ok v
  | None => Raise (Exn JSONDecodeError (py "Expecting value"))
  end.

End Json.

Module Reference.

(** Splits at blank lines and drops empty pieces. *)
Fixpoint paragraphs_from (s cur : pystr) : list pystr :=
  match s with
  | [] => [cur]
  | a :: r =>
      match r with
      | b :: r' =>
          if (a =? 0x0A) && (b =? 0x0A)
          then cur :: paragraphs_from r' []
          else paragraphs_from r (cur ++ [a])
      | [] => [cur ++ [a]]
      end
  end.

Definition paragraphs (s : pystr) : list pystr :=
  filter (fun p => p <> []) (paragraphs_from s []).

Definition collaborators (embedding : pystr -> list float) (reply : pystr)
  : Collaborators :=
  {| split_text := paragraphs;
     embed_text := fun s => Ok (embedding s);
     embed_batch := fun texts => Ok (embedding <$> texts);
     json_loads := Json.loads;
     chat_completion := fun _ _ _ _ => Ok reply |}.

(** One stored record of the in-memory collection. *)
Record Stored : Type := {
  stored_id : pystr;
  stored_embedding : list float;
  stored_document : pystr;
  stored_metadata : Metadata.t
}.

Fixpoint zip_records (ids : list pystr) (embeddings : list (list float))
    (documents : list pystr) (metadatas : list Metadata.t)
  : option (list Stored) :=
  match ids, embeddings, documents, metadatas with
  | [], [], [], [] => Some []
  | i :: ids', e :: embeddings', d :: documents', m :: metadatas' =>
      cons {| stored_id := i; stored_embedding := e;
              stored_document := d; stored_metadata := m |}
        <$> zip_records ids' embeddings' documents' metadatas'
  | _, _, _, _ => None
  end.

(** A record whose id is already stored is ignored. *)
Definition store (c : list Stored) (r : Stored) : list Stored :=
  if decide (stored_id r ∈ stored_id <$> c) then c else c ++ [r].

Definition add (ids : list pystr) (embeddings : list (list float))
    (documents : list pystr) (metadatas : list Metadata.t)
    (c : list Stored) : result (list Stored) :=
  match zip_records ids embeddings documents metadatas with
  | None => Raise (Exn ValueError (py "Unequal lengths for fields"))
  | Some batch =>
      if decide (NoDup ids) then Ok (foldl store c batch)
      else Raise (Exn ValueError (py "Expected IDs to be unique"))
  end.

Fixpoint dot (a b : list float) : float :=
  match a, b with
  | x :: a', y :: b' => PrimFloat.add (PrimFloat.mul x y) (dot a' b')
  | _, _ => 0%float
  end.

Definition cosine_distance (a b : list float) : float :=
  PrimFloat.sub 1%float
    (PrimFloat.div (dot a b)
       (PrimFloat.mul (PrimFloat.sqrt (dot a a)) (PrimFloat.sqrt (dot b b)))).

(** The [where] filters understood: equality on [source_document]. *)
Definition satisfies (where_ : option pydict) (r : Stored) : bool :=
  match where_ ≫= dict_get (py "source_document") with
  | Some (PStr s) =>
      bool_decide (Metadata.source_document (stored_metadata r) = Some s)
  | _ => true
  end.

Definition closer (x y : float * Stored) : Prop :=
  PrimFloat.leb x.1 y.1 = true.

#[local] Instance closer_dec : RelDecision closer.
Proof. intros x y. unfold closer. apply _. Defined.

Definition nearest (q : list float) (n : Z) (where_ : option pydict)
    (c : list Stored) : list (float * Stored) :=
  take (Z.to_nat n)
    (merge_sort closer
       ((fun r => (cosine_distance q (stored_embedding r), r))
          <$> filter (fun r => satisfies where_ r = true) c)).

Definition ask (queries : list (list float)) (n : Z)
    (where_ : option pydict) (c : list Stored) : result QueryResult.t :=
  let rows := (fun q => nearest q n where_ c) <$> queries in
  Ok {| QueryResult.ids := fmap (fun x => stored_id x.2) <$> rows;
        QueryResult.documents :=
          fmap (fun x => stored_document x.2) <$> rows;
        QueryResult.metadatas :=
          fmap (fun x => stored_metadata x.2) <$> rows;
        QueryResult.distances := fmap fst <$> rows |}.

Definition backend : VectorBackend :=
  {| collection := list Stored;
     recreated_collection := [];
     collection_add := add;
     collection_query := ask;
     collection_get :=
       fun limit c => Ok (take (Z.to_nat limit) (stored_metadata <$> c));
     collection_count := fun c => Ok (length c) |}.

End Reference.

(** ** Concrete inputs *)

Module Examples.

Definition document (name text : string) : Document.t :=
  {| Document.content := Some (py text);
     Document.metadata :=
       Some {| Document.filename := Some (py name);
               Document.file_type := Some (py "md");
               Document.file_size := Some (Z.of_nat (String.length text)) |} |}.

(** Two documents whose first paragraph is the same text. *)
Definition product_specs : Document.t :=
  document "product_specs.md" "SAVE15: 15% discount

Express shipping costs $10".

Definition legacy_specs : Document.t :=
  document "legacy_specs.md" "SAVE15: 15% discount

Standard shipping is free".

Definition contains (word : string) (text : pystr) : bool :=
  bool_decide (is_Some (TestCaseAgent.after_first (py word) text)).

(** A two-dimensional stand-in for the embedding model. *)
Definition embedding (text : pystr) : list float :=
  if contains "discount" text then [1; 0]%float
  else if contains "shipping" text then [-1; 0x1p-1]%float
  else [0; 1]%float.

(** The model's reply: one test case, as a single object in a fenced JSON
    block, without [test_id] and without [grounded_in]. *)
Definition reply_preamble : pystr := py "Here is the test case:" ++ nl.

Definition reply_object : pystr := pyq
"{
  @feature@: @Discount code@,
  @test_scenario@: @Apply SAVE15 at checkout@,
  @test_type@: @positive@,
  @preconditions@: @Cart is not empty@,
  @test_steps@: [@Enter SAVE15@, @Click apply@],
  @expected_result@: @Total is reduced by 15%@
}".

Definition reply_postamble : pystr :=
  nl ++ py "Let me know if you need more.".

Definition fenced_reply : pystr :=
  reply_preamble ++ py "```json" ++ nl ++ reply_object ++ nl ++ py "```"
    ++ reply_postamble.

(** The dictionary that the object decodes to. *)
Definition reply_dict : pydict :=
  match Json.decode reply_object with
  | Some (PDict d) => d
  | _ => []
  end.

(** A reply with no JSON in it. *)
Definition prose_reply : pystr :=
  py "I could not find this feature in the documentation.".

Definition collaborators (reply : pystr) : Collaborators :=
  Reference.collaborators embedding reply.

Definition ingest (documents : list Document.t)
    (c : list Reference.Stored)
  : result (VectorStore.AddResult * list Reference.Stored) :=
  @VectorStore.add_documents (collaborators []) Reference.backend documents c.

Definition entries_of (doc : Document.t) : list VectorStore.Entry :=
  match @VectorStore.document_entries (collaborators []) doc with
  | Ok entries => entries
  | Raise _ => []
  end.

Definition entry_at (doc : Document.t) (i : nat) : VectorStore.Entry :=
  default
    {| VectorStore.entry_chunk := [];
       VectorStore.entry_metadata := create_metadata_dict [] 0 0 [] 0;
       VectorStore.entry_id := [] |}
    (entries_of doc !! i).

(** The collection after ingesting [product_specs] into an empty one. *)
Definition ingested : list Reference.Stored :=
  match ingest [product_specs] [] with
  | Ok (_, c) => c
  | Raise _ => []
  end.

(** The answer of [generate_test_cases] on the ingested collection, for a
    given reply of the model. *)
Definition generate (reply : pystr) : result Models.TestCaseResponse :=
  @TestCaseAgent.generate_test_cases (collaborators reply) Reference.backend
    (py "discount code") true ingested.

Definition rag_result (reply : pystr) : result RAGService.RagResult :=
  @RAGService.rag_query (collaborators reply) Reference.backend
    (TestCaseAgent.enhanced_query (py "discount code") true)
    TestCaseAgent.system_prompt (Some 8%Z)
    (Some 0x1.999999999999ap-4%float) None ingested.

Definition failure : Models.TestCaseResponse :=
  {| Models.success := false; Models.message := [];
     Models.test_cases := []; Models.total_cases := 0 |}.

(** The response to the fenced reply, and to the reply without JSON. *)
Definition generated : Models.TestCaseResponse :=
  match generate fenced_reply with
  | Ok resp => resp
  | Raise _ => failure
  end.

Definition prose_rag_result : RAGService.RagResult :=
  match rag_result prose_reply with
  | Ok r => r
  | Raise _ => RAGService.Build_RagResult [] [] [] 0
  end.

Definition ingest_result : VectorStore.AddResult :=
  match ingest [product_specs] [] with
  | Ok (r, _) => r
  | Raise _ => VectorStore.Build_AddResult false [] 0 0
  end.

(** What the collection answers to the query ["discount code"], and the
    matches [query] makes of it. *)
Definition discount_results : QueryResult.t :=
  match Reference.ask [embedding (py "discount code")]
          settings.TOP_K_RESULTS None ingested with
  | Ok results => results
  | Raise _ => QueryResult.Build_t [] [] [] []
  end.

Definition discount_matches : list Chunk.t :=
  match @VectorStore.query (collaborators []) Reference.backend
          (py "discount code") None None ingested with
  | Ok matches => matches
  | Raise _ => []
  end.

(** A collection of single-chunk documents [doc0.md], [doc1.md], ... *)
Definition single_chunk_record (i : nat) : Reference.Stored :=
  let text := py "notes " ++ str_of_nat i in
  {| Reference.stored_id :=
       match generate_chunk_id text 0 with
       | Ok chunk_id => chunk_id
       | Raise _ => []
       end;
     Reference.stored_embedding := embedding text;
     Reference.stored_document := text;
     Reference.stored_metadata :=
       create_metadata_dict (py "doc" ++ str_of_nat i ++ py ".md") 0 1
         (py "md") 0 |}.

Definition single_chunk_documents (n : Z) : list Reference.Stored :=
  single_chunk_record <$> seq 0 (Z.to_nat n).


End Examples.

(** ** Predicates and measures used in the statements *)

Module Text.

(** A decimal digit, and a digit of lower-case hexadecimal notation. *)
Definition is_digit (c : N) : bool := (0x30 <=? c) && (c <=? 0x39).

Definition is_lower_hex (c : N) : bool :=
  is_digit c || ((0x61 <=? c) && (c <=? 0x66)).

(** The number a string of decimal digits denotes. *)
Definition decimal_value (s : pystr) : N :=
  foldl (fun acc c => 10 * acc + (c - 0x30)) 0 s.

End Text.
Export Text.

(** ** [backend/services/vector_store.py]: what a document contributes *)

Module Ingest.
Section Ingest.
Context `{Collaborators}.

(** The chunks a document contributes: none without content, else the
    pieces of the splitter. *)
Definition document_chunks (doc : Document.t) : list pystr :=
  match Document.content doc with
  | None | Some [] => []
  | Some content => split_text content
  end.

End Ingest.
End Ingest.

(** ** [backend/utils/helpers.py]: code blocks of a reply *)

Module Markdown.
Import TestCaseAgent.

(** What follows an opening [```python\n] or [```\n] at the head of [s]:
    the optional group [(?:python)?] and the line feed after it. *)
Definition code_fence_open (s : pystr) : option pystr :=
  if starts_with (py "```python" ++ nl) s then Some (drop 10 s)
  else if starts_with (py "```" ++ nl) s then Some (drop 4 s)
  else None.

(** The lazy group [(.*?)] in front of the closing fence. *)
Fixpoint before_fence (s : pystr) : option pystr :=
  if starts_with fence s then Some []
  else match s with
       | [] => None
       | c :: r => cons c <$> before_fence r
       end.

(** Group 1 of the leftmost match of [```(?:python)?\n(.*?)```] with
    [re.DOTALL]: the first element of [re.findall]. *)
Fixpoint first_code_block (text : pystr) : option pystr :=
  match code_fence_open text ≫= before_fence with
  | Some code => Some code
  | None =>
      match text with
      | [] => None
      | _ :: r => first_code_block r
      end
  end.

(** [extract_code_from_markdown] *)
Definition extract_code_from_markdown (text : pystr) : pystr :=
  match first_code_block text with
  | Some code => strip code
  | None => strip text
  end.

End Markdown.

(** ** [backend/services/script_agent.py] *)

Module ScriptAgent.
Import TestCaseAgent.

(** [re.sub(r"```python|```", "", script)]: the matches are taken from left
    to right without overlap, [```python] before [```]; [skip] counts the
    characters of the current match still to drop. *)
Fixpoint remove_fences (skip : nat) (script : pystr) : pystr :=
  match script with
  | [] => []
  | c :: r =>
      match skip with
      | S k => remove_fences k r
      | O =>
          if starts_with (py "```python") script then remove_fences 8 r
          else if starts_with fence script then remove_fences 2 r
          else c :: remove_fences 0 r
      end
  end.

(** The import preamble of [_clean_script]. *)
Definition imports : pystr := py
"from selenium import webdriver
from selenium.webdriver.common.by import By
from selenium.webdriver.support.ui import WebDriverWait
from selenium.webdriver.support import expected_conditions as EC
from selenium.webdriver.chrome.service import Service
from webdriver_manager.chrome import ChromeDriverManager
from selenium.common.exceptions import TimeoutException, NoSuchElementException
import time
import os

".

(** [_clean_script] *)
Definition _clean_script (script : pystr) : pystr :=
  let script := remove_fences 0 script in
  let script := strip script in
  if negb (starts_with (py "from") script)
     && negb (starts_with (py "import") script)
  then imports ++ script
  else script.

End ScriptAgent.

(** ** [backend/services/test_case_agent.py]: requests for one feature *)

Module FeatureRequests.
Section FeatureRequests.
Context `{Collaborators} `{VectorBackend}.

(** [generate_test_cases_for_feature]; [html_content] is used when it is
    neither [None] nor empty, and only its first 1000 characters. *)
Definition generate_test_cases_for_feature (feature_name : pystr)
    (html_content : option pystr) (c : collection)
  : result Models.TestCaseResponse :=
  let query :=
    py "Generate comprehensive test cases for the " ++ feature_name
      ++ py " feature." in
  let query :=
    match html_content with
    | None | Some [] => query
    | Some html =>
        query ++ nl ++ nl ++ py "Consider the following HTML structure:"
          ++ nl ++ take 1000 html
    end in
  TestCaseAgent.generate_test_cases query true c.

End FeatureRequests.
End FeatureRequests.

(** ** [backend/services/document_parser.py]: JSON documents *)

(** [repr] of a float, which the interpreter computes. *)
Class Interpreter : Type := {
  float_repr : float -> pystr
}.

Module JsonText.

(** [s] occurs in [t] as a contiguous piece. *)
Definition occurs_in (s t : pystr) : Prop :=
  exists pre post, t = pre ++ s ++ post.

(** The keys and the string values of a decoded JSON document. *)
Fixpoint strings_of (data : pyval) : list pystr :=
  match data with
  | PStr s => [s]
  | PList l =>
      (fix go (l : list pyval) : list pystr :=
         match l with
         | [] => []
         | item :: rest => strings_of item ++ go rest
         end) l
  | PDict d =>
      (fix go (d : pydict) : list pystr :=
         match d with
         | [] => []
         | (key, value) :: rest => key :: strings_of value ++ go rest
         end) d
  | _ => []
  end.

Section JsonText.
Context `{Interpreter} `{Collaborators}.

(** [f"{value}"] for a value that is neither a [dict] nor a [list];
    [None] for the two container types, which [isinstance] tells apart. *)
Definition scalar_str (value : pyval) : option pystr :=
  match value with
  | PNone => Some (py "None")
  | PBool true => Some (py "True")
  | PBool false => Some (py "False")
  | PInt z => Some (py (pretty z))
  | PFloat f => Some (float_repr f)
  | PStr s => Some s
  | PList _ | PDict _ => None
  end.

(** The separator of [_json_to_text], written ["\\n"] in the source: the
    two characters backslash and [n]. *)
Definition separator : pystr := [0x5C; 0x6E].

(** [_json_to_text].  The recursion follows the nesting of the document;
    the interpreter's limits on recursion depth and on the number of digits
    of an integer it converts, which [json.load] meets first on the same
    document, are not modelled. *)
Fixpoint _json_to_text (data : pyval) (indent : nat) {struct data} : pystr :=
  let prefix := concat (replicate indent (py "  ")) in
  let lines :=
    match data with
    | PDict d =>
        (fix items (d : pydict) : list pystr :=
           match d with
           | [] => []
           | (key, value) :: rest =>
               match scalar_str value with
               | None =>
                   [prefix ++ key ++ py ":";
                    _json_to_text value (indent + 1)]
               | Some text => [prefix ++ key ++ py ": " ++ text]
               end ++ items rest
           end) d
    | PList l =>
        (fix items (l : list pyval) : list pystr :=
           match l with
           | [] => []
           | item :: rest =>
               match scalar_str item with
               | None => _json_to_text item indent
               | Some text => prefix ++ py "- " ++ text
               end :: items rest
           end) l
    | _ =>
        match scalar_str data with
        | Some text => [prefix ++ text]
        | None => []
        end
    end in
  join separator lines.

(** [_parse_json], on the text of the file: [json.load] reads and decodes
    it. *)
Definition _parse_json (content : pystr) : result pystr :=
  data ← json_loads content;
  Ok (_json_to_text data 0).

End JsonText.
End JsonText.

(** ** Further concrete inputs *)

Module Scenarios.

(** Collaborators whose chat-completion provider fails. *)
Definition failing_provider : Collaborators :=
  {| split_text := Reference.paragraphs;
     embed_text := fun s => Ok (Examples.embedding s);
     embed_batch := fun texts => Ok (Examples.embedding <$> texts);
     json_loads := Json.loads;
     chat_completion := fun _ _ _ _ =>
       Raise (Exn Exception (py "rate limit exceeded")) |}.

(** Collaborators whose embedding model fails. *)
Definition failing_embedder : Collaborators :=
  {| split_text := Reference.paragraphs;
     embed_text := fun _ => Raise (Exn ValueError (py "model not loaded"));
     embed_batch := fun _ => Raise (Exn ValueError (py "model not loaded"));
     json_loads := Json.loads;
     chat_completion := fun _ _ _ _ => Ok [] |}.

(** What the pipeline retrieves and generates when the model replies with
    [reply]. *)
Definition rag_result_of (reply : pystr) : RAGService.RagResult :=
  match Examples.rag_result reply with
  | Ok r => r
  | Raise _ => RAGService.Build_RagResult [] [] [] 0
  end.

(** A stand-in for the interpreter's [repr] of floats. *)
Definition interpreter : Interpreter := {| float_repr := format_2f |}.

(** A small configuration document. *)
Definition config_json : pystr := pyq
"{@shipping@: {@express@: 10, @standard@: @free@},
  @codes@: [@SAVE15@, {@percent@: 15}], @active@: true}".

(** A backend whose answer names one identifier and holds no document,
    metadata or distance for it. *)
Definition incomplete_backend : VectorBackend :=
  {| collection := unit;
     recreated_collection := tt;
     collection_add := fun _ _ _ _ c => Ok c;
     collection_query := fun _ _ _ _ =>
       Ok {| QueryResult.ids := [[py "chunk_0_5d41402a"]];
             QueryResult.documents := [[]];
             QueryResult.metadatas := [[]];
             QueryResult.distances := [[]] |};
     collection_get := fun _ _ => Ok [];
     collection_count := fun _ => Ok 1%nat |}.

(** Three documents: the first gives the three best matches of a question
    about discounts, the other two the next two. *)
Definition pricing : Document.t :=
  Examples.document "pricing.md" "SAVE15: 15% discount

One discount code per order

A discount never applies to gift cards".

Definition checkout : Document.t :=
  Examples.document "checkout.md" "The cart shows the order total".

Definition shipping : Document.t :=
  Examples.document "shipping.md" "Express shipping costs $10".

Definition crowded : list Reference.Stored :=
  match Examples.ingest [pricing; checkout; shipping] [] with
  | Ok (_, c) => c
  | Raise _ => []
  end.

(** What is retrieved from that collection for ["discount code"], and the
    answer of [generate_test_cases] when the model replies with one object
    without [grounded_in]. *)
Definition crowded_matches : list Chunk.t :=
  match @RAGService.rag_query (Examples.collaborators Examples.fenced_reply)
          Reference.backend
          (TestCaseAgent.enhanced_query (py "discount code") true)
          TestCaseAgent.system_prompt (Some 8%Z)
          (Some 0x1.999999999999ap-4%float) None crowded with
  | Ok r => RAGService.retrieved_chunks r
  | Raise _ => []
  end.

Definition generate_crowded : result Models.TestCaseResponse :=
  @TestCaseAgent.generate_test_cases
    (Examples.collaborators Examples.fenced_reply) Reference.backend
    (py "discount code") true crowded.

(** A fenced JSON block that does not decode, followed by an array. *)
Definition broken_block_reply : pystr :=
  py "```json not json ``` [1]".

(** A raw object that holds two arrays. *)
Definition raw_object_reply : pystr := pyq "{@a@: [1], @b@: [2]}".

(** The object of [Examples.fenced_reply] in a fence without the [json]
    tag. *)
Definition untagged_reply : pystr :=
  py "```" ++ nl ++ Examples.reply_object ++ nl ++ py "```".

End Scenarios.

(* ===================================================================== *)
(** * Part II: properties *)
(* ===================================================================== *)

(** ** Evaluation on known values *)

Example clean_text_example :
  clean_text (py "  hello   world  ") = py "hello world".
Proof. reflexivity. Qed.

Example md5_empty : MD5.hexdigest [] = py "d41d8cd98f00b204e9800998ecf8427e".
Proof. vm_compute. reflexivity. Qed.

Example md5_abc :
  (MD5.hexdigest <$> encode (py "abc"))
  = Ok (py "900150983cd24fb0d6963f7d28e17f72").
Proof. vm_compute. reflexivity. Qed.

Example generate_chunk_id_example :
  generate_chunk_id (py "hello") 0 = Ok (py "chunk_0_5d41402a").
Proof. vm_compute. reflexivity. Qed.

Example generate_test_id_example :
  generate_test_id 7 = py "TC-007" /\ generate_test_id 1234 = py "TC-1234".
Proof. split; vm_compute; reflexivity. Qed.

Example format_2f_example :
  format_2f 0x1p-3%float = py "0.12"
  /\ format_2f (-0x1p-1)%float = py "-0.50"
  /\ format_2f 0x1.8p-2%float = py "0.38".
Proof. repeat split; vm_compute; reflexivity. Qed.

Example json_decode_example :
  Json.decode (pyq "{@a@: [1, true, null], @b@: @x@, @a@: 7}")
  = Some (PDict [(py "a", PInt 7); (py "b", PStr (py "x"))]).
Proof. vm_compute. reflexivity. Qed.

(** ** Lists *)

Lemma filter_all {A} (P : A -> Prop) `{forall x, Decision (P x)}
    (l : list A) :
  (forall x, x ∈ l -> P x) -> filter P l = l.
Proof.
  induction l as [|x l IH]; intros Hall; [done|].
  rewrite filter_cons_True by (apply Hall; by left).
  f_equal. apply IH. intros y Hy. apply Hall. by right.
Qed.



(** ** Text normalisation *)

Section CleanText.

Implicit Types (s : pystr) (c : N).

Lemma collapse_ws_only_spaces b s : only_spaces (collapse_ws b s).
Proof.
  revert b. induction s as [|c r IH]; intros b; simpl; [constructor|].
  destruct (isspace c) eqn:Hc.
  - destruct b; [apply IH|]. constructor; [done | apply IH].
  - constructor; [congruence | apply IH].
Qed.

Lemma lstrip_Forall (P : N -> Prop) s : Forall P s -> Forall P (lstrip s).
Proof.
  induction 1 as [|c r Hc Hr IH]; simpl; [constructor|].
  destruct (isspace c); [done | by constructor].
Qed.

Lemma rstrip_Forall (P : N -> Prop) s : Forall P s -> Forall P (rstrip s).
Proof.
  induction 1 as [|c r Hc Hr IH]; simpl; [constructor|].
  destruct (rstrip r) as [|c' r'].
  - destruct (isspace c); [constructor | by repeat constructor].
  - by constructor.
Qed.

Lemma remove_control_Forall (P : N -> Prop) s :
  Forall P s -> Forall P (remove_control s).
Proof.
  unfold remove_control. induction 1 as [|c r Hc Hr IH]; [constructor|].
  rewrite filter_cons. case_decide; [by constructor | done].
Qed.

Lemma clean_text_only_spaces s : only_spaces (clean_text s).
Proof.
  unfold clean_text, strip.
  apply rstrip_Forall, lstrip_Forall, remove_control_Forall,
    collapse_ws_only_spaces.
Qed.

(** No line break (nor any other vertical whitespace) survives. *)
Lemma clean_text_no_newline s : 0x0A ∉ clean_text s.
Proof.
  intros Hin. pose proof (clean_text_only_spaces s) as H.
  unfold only_spaces in H. rewrite Forall_forall in H.
  specialize (H _ Hin eq_refl). discriminate.
Qed.

End CleanText.

(** *** What normalisation keeps *)

Section Visible.
Implicit Types (s : list N) (c : N).

Lemma visible_collapse_ws b s :
  filter (fun c => visible c = true) (collapse_ws b s)
  = filter (fun c => visible c = true) s.
Proof.
  revert b. induction s as [|c s IH]; intros b; simpl; [done|].
  destruct (isspace c) eqn:Hc.
  - rewrite (filter_cons_False _ c) by (unfold visible; by rewrite Hc).
    destruct b; [apply IH|].
    rewrite filter_cons_False by done. apply IH.
  - rewrite !filter_cons, IH. done.
Qed.

Lemma visible_remove_control s :
  filter (fun c => visible c = true) (remove_control s)
  = filter (fun c => visible c = true) s.
Proof.
  unfold remove_control. rewrite list_filter_filter.
  apply list_filter_iff. intros c. unfold visible.
  destruct (isspace c), (is_control c); simpl; split; try done;
    by intros [? ?].
Qed.

Lemma visible_lstrip s :
  filter (fun c => visible c = true) (lstrip s)
  = filter (fun c => visible c = true) s.
Proof.
  induction s as [|c s IH]; simpl; [done|].
  destruct (isspace c) eqn:Hc; [|done].
  by rewrite filter_cons_False by (unfold visible; by rewrite Hc).
Qed.

Lemma visible_rstrip s :
  filter (fun c => visible c = true) (rstrip s)
  = filter (fun c => visible c = true) s.
Proof.
  induction s as [|c s IH]; simpl; [done|].
  destruct (rstrip s) as [|c' r'].
  - rewrite (filter_cons _ c s), <- IH. destruct (isspace c) eqn:Hc.
    + rewrite decide_False by (unfold visible; by rewrite Hc). done.
    + by rewrite filter_cons.
  - by rewrite (filter_cons _ c (c' :: r')), (filter_cons _ c s), IH.
Qed.

(** Every visible character is kept, in order. *)
Lemma clean_text_keeps_visible s :
  filter (fun c => visible c = true) (clean_text s)
  = filter (fun c => visible c = true) s.
Proof.
  unfold clean_text, strip.
  by rewrite visible_rstrip, visible_lstrip, visible_remove_control,
    visible_collapse_ws.
Qed.

End Visible.

(** *** Normalisation of text without control characters *)

Section Tidy.
Implicit Types (s : list N) (c : N) (b : bool).

Lemma single_spaced_collapse b s : single_spaced b (collapse_ws b s) = true.
Proof.
  revert b. induction s as [|c s IH]; intros b; simpl; [done|].
  destruct (isspace c) eqn:Hc.
  - destruct b; [apply IH|]. simpl. apply IH.
  - simpl. rewrite Hc. apply IH.
Qed.

Lemma collapse_single_spaced b s :
  single_spaced b s = true -> collapse_ws b s = s.
Proof.
  revert b. induction s as [|c s IH]; intros b; simpl; [done|].
  destruct (isspace c) eqn:Hc.
  - intros Hs. apply andb_prop in Hs as [Hs Hr].
    apply andb_prop in Hs as [Hc0 Hb].
    apply N.eqb_eq in Hc0 as ->. destruct b; [done|].
    by rewrite (IH true).
  - intros Hr. by rewrite (IH false).
Qed.

Lemma single_spaced_weaken s :
  single_spaced true s = true -> single_spaced false s = true.
Proof.
  destruct s as [|c s]; simpl; [done|].
  destruct (isspace c); [|done]. by rewrite andb_false_r.
Qed.

Lemma single_spaced_lstrip b s :
  single_spaced b s = true -> single_spaced false (lstrip s) = true.
Proof.
  destruct s as [|c s]; simpl; [done|].
  destruct (isspace c) eqn:Hc.
  - intros Hs. apply andb_prop in Hs as [_ Hr].
    destruct s as [|c' s']; simpl in *; [done|].
    destruct (isspace c') eqn:Hc'; [by rewrite andb_false_r in Hr|].
    simpl. by rewrite Hc'.
  - simpl. by rewrite Hc.
Qed.

Lemma single_spaced_rstrip b s :
  single_spaced b s = true -> single_spaced b (rstrip s) = true.
Proof.
  revert b. induction s as [|c s IH]; intros b; simpl; [done|].
  destruct (isspace c) eqn:Hc.
  - intros Hs. apply andb_prop in Hs as [Hs Hr].
    specialize (IH true Hr). destruct (rstrip s) as [|c' r']; [done|].
    simpl in *. rewrite Hc, Hs. done.
  - intros Hr. specialize (IH false Hr).
    destruct (rstrip s) as [|c' r']; simpl in *; by rewrite Hc.
Qed.

Lemma no_control_collapse b s : no_control s -> no_control (collapse_ws b s).
Proof.
  intros Hs. revert b. induction Hs as [|c s Hc Hs IH]; intros b; simpl;
    [constructor|].
  destruct (isspace c); [destruct b|]; try apply IH;
    (constructor; [done | apply IH]).
Qed.

Lemma remove_control_no_control s : no_control s -> remove_control s = s.
Proof. intros Hs. apply filter_all. by apply Forall_forall. Qed.

Lemma rstrip_rstrip s : rstrip (rstrip s) = rstrip s.
Proof.
  induction s as [|c s IH]; simpl; [done|].
  destruct (rstrip s) as [|c' r'] eqn:Hr.
  - destruct (isspace c) eqn:Hc; simpl; [done|]. by rewrite Hc.
  - simpl in *. by rewrite IH.
Qed.

Lemma lstrip_lstrip s : lstrip (lstrip s) = lstrip s.
Proof.
  induction s as [|c s IH]; simpl; [done|].
  destruct (isspace c) eqn:Hc; [done|]. simpl. by rewrite Hc.
Qed.

(** [rstrip] removes nothing from the front. *)
Lemma lstrip_rstrip_fixed s : lstrip s = s -> lstrip (rstrip s) = rstrip s.
Proof.
  destruct s as [|c s]; simpl; [done|].
  destruct (isspace c) eqn:Hc.
  - intros Hfix. exfalso.
    assert (length (lstrip s) <= length s)%nat as Hlen.
    { clear. induction s as [|x r IH]; simpl; [lia|].
      destruct (isspace x); simpl; lia. }
    rewrite Hfix in Hlen. simpl in Hlen. lia.
  - intros _. destruct (rstrip s); simpl; by rewrite Hc.
Qed.

Lemma strip_strip s : strip (strip s) = strip s.
Proof.
  unfold strip.
  rewrite (lstrip_rstrip_fixed (lstrip s)) by apply lstrip_lstrip.
  apply rstrip_rstrip.
Qed.

(** On text without control characters normalisation is idempotent: the
    two results of [clean_text] differ only where a control character was
    removed between two whitespace runs. *)
Lemma clean_text_idempotent_without_control s :
  no_control s -> clean_text (clean_text s) = clean_text s.
Proof.
  intros Hs. unfold clean_text.
  rewrite (remove_control_no_control (collapse_ws false s))
    by by apply no_control_collapse.
  set (t := strip (collapse_ws false s)).
  assert (single_spaced false t = true) as Ht.
  { apply single_spaced_rstrip, (single_spaced_lstrip false),
      single_spaced_collapse. }
  assert (no_control t) as Hc.
  { apply rstrip_Forall, lstrip_Forall. by apply no_control_collapse. }
  rewrite (collapse_single_spaced false t) by done.
  rewrite remove_control_no_control by done. apply strip_strip.
Qed.

End Tidy.

(** C7 (code defect): [_parse_markdown] is documented as "clean but preserve
    markdown structure", but it returns [clean_text content], which turns
    every run of whitespace, line breaks included, into one space.  On a
    document with a header and two list items the result is a single line,
    and for every input the result contains no line break at all: the line
    structure of a markdown document never survives.  What survives is the
    sequence of visible characters, the marker characters among them. *)
Theorem parse_markdown_flattens_lines :
  _parse_markdown (py "# Title

- item one
- item two
") = py "# Title - item one - item two"
  /\ (forall content, 0x0A ∉ _parse_markdown content)
  /\ (forall content,
        filter (fun c => visible c = true) (_parse_markdown content)
        = filter (fun c => visible c = true) content).
Proof.
  split; [reflexivity|]. split; intros content.
  - apply clean_text_no_newline.
  - apply clean_text_keeps_visible.
Qed.

(** C8 (code defect): [clean_text] is not idempotent.  Control characters are
    removed after the whitespace runs were collapsed, so the spaces on either
    side of a removed control character stay doubled in the first result and
    are collapsed only by a second application.  The input is
    ["a \x1b b"]. *)
Theorem clean_text_not_idempotent :
  let x := py "a " ++ [0x1B] ++ py " b" in
  clean_text x = py "a  b"
  /\ clean_text (clean_text x) = py "a b"
  /\ clean_text (clean_text x) <> clean_text x.
Proof. repeat split. discriminate. Qed.

(** ** The result monad and loops *)

Section Loops.
Context {A B : Type}.
Implicit Types (f : A -> result B) (xs : list A) (ys : list B).

Lemma for_each_cons f x xs :
  for_each f (x :: xs)
  = match f x with
    | Ok y =>
        match for_each f xs with
        | Ok ys => Ok (y :: ys)
        | Raise e => Raise e
        end
    | Raise e => Raise e
    end.
Proof. reflexivity. Qed.

Lemma for_each_Ok_lookup f xs ys i y :
  for_each f xs = Ok ys -> ys !! i = Some y ->
  exists x, xs !! i = Some x /\ f x = Ok y.
Proof.
  revert ys i. induction xs as [|x xs IH]; intros ys i Hrun Hy.
  - injection Hrun as <-. by rewrite lookup_nil in Hy.
  - rewrite for_each_cons in Hrun.
    destruct (f x) as [y0|] eqn:Hx; [|done].
    destruct (for_each f xs) as [ys0|] eqn:Hxs; [|done].
    injection Hrun as <-. destruct i as [|i]; simpl in *.
    + injection Hy as <-. eauto.
    + eauto.
Qed.

Lemma for_each_Ok_length f xs ys :
  for_each f xs = Ok ys -> length ys = length xs.
Proof.
  revert ys. induction xs as [|x xs IH]; intros ys Hrun.
  - by injection Hrun as <-.
  - rewrite for_each_cons in Hrun.
    destruct (f x) as [y0|]; [|done].
    destruct (for_each f xs) as [ys0|]; [|done].
    injection Hrun as <-. simpl. f_equal. by apply IH.
Qed.

Lemma for_each_Ok_elem f xs ys x :
  for_each f xs = Ok ys -> x ∈ xs -> exists y, y ∈ ys /\ f x = Ok y.
Proof.
  revert ys. induction xs as [|x0 xs IH]; intros ys Hrun Hin.
  - by apply elem_of_nil in Hin.
  - rewrite for_each_cons in Hrun.
    destruct (f x0) as [y0|] eqn:Hx; [|done].
    destruct (for_each f xs) as [ys0|] eqn:Hxs; [|done].
    injection Hrun as <-. apply elem_of_cons in Hin as [->|Hin].
    + exists y0. split; [left | done].
    + destruct (IH ys0 eq_refl Hin) as (y & Hy & Hfx).
      exists y. split; [by right | done].
Qed.

End Loops.

Lemma enumerate_lookup {A} (xs : list A) i j x :
  enumerate xs !! i = Some (j, x) <-> j = i /\ xs !! i = Some x.
Proof.
  unfold enumerate. rewrite list_lookup_imap.
  destruct (xs !! i) as [x'|]; simpl; split.
  - intros [= <- <-]. done.
  - intros [-> [= ->]]. done.
  - done.
  - by intros [_ ?].
Qed.


(** ** Ingestion: chunk identifiers *)

Section Ingestion.
Context `{Collaborators}.
Import VectorStore.

(** What the loop of [add_documents] prepares at position [i] of a
    document. *)
Lemma document_entries_lookup doc entries i e :
  document_entries doc = Ok entries -> entries !! i = Some e ->
  exists content,
    Document.content doc = Some content
    /\ split_text content !! i = Some (entry_chunk e)
    /\ generate_chunk_id (entry_chunk e) i = Ok (entry_id e)
    /\ Metadata.chunk_index (entry_metadata e) = i
    /\ Metadata.source_document (entry_metadata e)
       = Some (default (py "unknown")
                 (Document.metadata doc ≫= Document.filename)).
Proof.
  unfold document_entries. intros Hrun He.
  destruct (Document.content doc) as [[|c0 content]|] eqn:Hcontent;
    try (injection Hrun as <-; by rewrite lookup_nil in He).
  destruct (for_each_Ok_lookup _ _ _ _ _ Hrun He) as ([j chunk] & Hj & Hf).
  apply enumerate_lookup in Hj as [-> Hchunk].
  destruct (generate_chunk_id chunk i) as [chunk_id|] eqn:Hid; [|done].
  injection Hf as <-. exists (c0 :: content). simpl. by rewrite Hid.
Qed.

Lemma prepare_batch_elem documents batch doc entries e :
  prepare_batch documents = Ok batch -> doc ∈ documents ->
  document_entries doc = Ok entries -> e ∈ entries -> e ∈ batch.
Proof.
  unfold prepare_batch. intros Hrun Hdoc Hentries He.
  destruct (for_each document_entries documents) as [per_doc|] eqn:Hall;
    [|done].
  injection Hrun as <-.
  destruct (for_each_Ok_elem _ _ _ _ Hall Hdoc) as (es & Hes & Hdoc').
  rewrite Hentries in Hdoc'. injection Hdoc' as <-.
  apply list_elem_of_In, in_concat. exists entries.
  split; by apply list_elem_of_In.
Qed.



End Ingestion.

(** ** Ingestion: what reaches the collection *)

Section Reingestion.
Context `{Collaborators} `{VectorBackend}.
Import VectorStore.


End Reingestion.

Section KeyedCollection.
Context `{VectorBackend} (stored_ids : collection -> list pystr).
Hypothesis keyed : forall ids embeddings texts metadatas c0 c1,
  collection_add ids embeddings texts metadatas c0 = Ok c1 ->
  stored_ids c1 = stored_ids c0 ++ filter (fun id => id ∉ stored_ids c0) ids.



End KeyedCollection.

(** C10: the identifier of a chunk depends on the chunk text and on its
    index within its own document only.  For two documents of one
    [add_documents] call (or of two calls: the entries of a document depend
    on nothing else), entries at the same index with the same text get the
    same identifier, [generate_chunk_id] of that text and index, although
    their metadata name different source documents; both entries are in the
    batch handed to the collection. *)
Theorem chunk_id_independent_of_document `{Collaborators}
    (documents : list Document.t) (batch : list VectorStore.Entry)
    (doc1 doc2 : Document.t) (entries1 entries2 : list VectorStore.Entry)
    (i : nat) (e1 e2 : VectorStore.Entry) :
  VectorStore.prepare_batch documents = Ok batch ->
  doc1 ∈ documents -> doc2 ∈ documents ->
  VectorStore.document_entries doc1 = Ok entries1 ->
  VectorStore.document_entries doc2 = Ok entries2 ->
  entries1 !! i = Some e1 -> entries2 !! i = Some e2 ->
  VectorStore.entry_chunk e1 = VectorStore.entry_chunk e2 ->
  VectorStore.entry_id e1 = VectorStore.entry_id e2
  /\ generate_chunk_id (VectorStore.entry_chunk e1) i
     = Ok (VectorStore.entry_id e1)
  /\ e1 ∈ batch /\ e2 ∈ batch
  /\ Metadata.source_document (VectorStore.entry_metadata e1)
     = Some (default (py "unknown")
               (Document.metadata doc1 ≫= Document.filename))
  /\ Metadata.source_document (VectorStore.entry_metadata e2)
     = Some (default (py "unknown")
               (Document.metadata doc2 ≫= Document.filename)).
Proof.
  intros Hbatch Hin1 Hin2 Hdoc1 Hdoc2 He1 He2 Htext.
  destruct (document_entries_lookup _ _ _ _ Hdoc1 He1)
    as (content1 & _ & _ & Hid1 & _ & Hsrc1).
  destruct (document_entries_lookup _ _ _ _ Hdoc2 He2)
    as (content2 & _ & _ & Hid2 & _ & Hsrc2).
  rewrite <- Htext, Hid1 in Hid2. injection Hid2 as Hid2.
  repeat split; try done.
  - apply (prepare_batch_elem documents batch doc1 entries1); try done.
    by eapply list_elem_of_lookup_2.
  - apply (prepare_batch_elem documents batch doc2 entries2); try done.
    by eapply list_elem_of_lookup_2.
Qed.


(** ** The reference collection *)

Section ReferenceStore.
Import Reference.
Implicit Types (c : list Stored) (r : Stored) (batch : list Stored).

Lemma store_keeps c r x :
  x ∈ stored_id <$> c -> x ∈ stored_id <$> store c r.
Proof.
  unfold store. case_decide; [done|].
  rewrite fmap_app. intros ?. apply elem_of_app. by left.
Qed.

Lemma store_has c r : stored_id r ∈ stored_id <$> store c r.
Proof.
  unfold store. case_decide; [done|].
  rewrite fmap_app. apply elem_of_app. right. by left.
Qed.

Lemma foldl_store_keeps batch c x :
  x ∈ stored_id <$> c -> x ∈ stored_id <$> foldl store c batch.
Proof.
  revert c. induction batch as [|r batch IH]; intros c Hx; [done|].
  simpl. by apply IH, store_keeps.
Qed.

Lemma foldl_store_has batch c r :
  r ∈ batch -> stored_id r ∈ stored_id <$> foldl store c batch.
Proof.
  revert c. induction batch as [|r0 batch IH]; intros c Hr.
  - by apply elem_of_nil in Hr.
  - simpl. apply elem_of_cons in Hr as [->|Hr].
    + apply foldl_store_keeps, store_has.
    + by apply IH.
Qed.

Lemma foldl_store_known batch c :
  (forall r, r ∈ batch -> stored_id r ∈ stored_id <$> c) ->
  foldl store c batch = c.
Proof.
  induction batch as [|r batch IH]; intros Hknown; [done|].
  simpl. unfold store at 2. rewrite decide_True.
  - apply IH. intros r' Hr'. apply Hknown. by right.
  - apply Hknown. by left.
Qed.





End ReferenceStore.

Lemma chunk_id_independent_of_document_witness :
  VectorStore.entry_id (Examples.entry_at Examples.product_specs 0)
  = VectorStore.entry_id (Examples.entry_at Examples.legacy_specs 0).
Proof.
  refine (proj1
    (@chunk_id_independent_of_document (Examples.collaborators [])
       [Examples.product_specs; Examples.legacy_specs]
       (Examples.entries_of Examples.product_specs
          ++ Examples.entries_of Examples.legacy_specs)
       Examples.product_specs Examples.legacy_specs
       (Examples.entries_of Examples.product_specs)
       (Examples.entries_of Examples.legacy_specs)
       0%nat _ _ _ _ _ _ _ _ _ _)).
  - vm_compute. reflexivity.
  - apply list_elem_of_here.
  - apply list_elem_of_further, list_elem_of_here.
  - vm_compute. reflexivity.
  - vm_compute. reflexivity.
  - vm_compute. reflexivity.
  - vm_compute. reflexivity.
  - vm_compute. reflexivity.
Defined.


(** ** Sorting strings *)

Section Sorting.
Implicit Types (s t u : list N).

Lemma str_leb_total s t : str_leb s t = true \/ str_leb t s = true.
Proof.
  revert t. induction s as [|a s IH]; intros [|b t]; simpl; auto.
  destruct (N.ltb_spec a b), (N.ltb_spec b a), (N.eqb_spec a b),
    (N.eqb_spec b a); simpl; auto; try lia.
Qed.

Lemma str_le_total : Total str_le.
Proof. intros s t. apply str_leb_total. Qed.

Lemma sorted_Sorted (xs : list (list N)) : Sorted str_le (sorted xs).
Proof. apply (@Sorted_merge_sort _ str_le _ str_le_total). Qed.

Lemma sorted_elem (xs : list (list N)) s : s ∈ sorted xs <-> s ∈ xs.
Proof. unfold sorted. by rewrite merge_sort_Permutation. Qed.

Lemma sorted_NoDup (xs : list (list N)) : NoDup xs -> NoDup (sorted xs).
Proof. unfold sorted. by rewrite merge_sort_Permutation. Qed.

Lemma sorted_length (xs : list (list N)) : length (sorted xs) = length xs.
Proof. unfold sorted. by rewrite merge_sort_Permutation. Qed.

End Sorting.

(** ** Retrieval *)

Section Retrieval.
Context `{Collaborators} `{VectorBackend}.

Lemma index_Ok {A} (l : list A) i a : index l i = Ok a <-> l !! i = Some a.
Proof.
  unfold index. destruct (l !! i); split; intros Heq; try done.
  - by injection Heq as <-.
  - by injection Heq as <-.
Qed.

(** The answer of [query] when the backend's first row holds no id. *)
Lemma query_no_ids query_text n_results filter_dict c e results :
  embed_text query_text = Ok e ->
  collection_query [e] (default settings.TOP_K_RESULTS n_results)
    filter_dict c = Ok results ->
  default [] (QueryResult.ids results !! 0%nat) = [] ->
  VectorStore.query query_text n_results filter_dict c = Ok [].
Proof.
  intros He Hq Hids. unfold VectorStore.query. rewrite He. simpl.
  rewrite Hq. simpl.
  destruct (QueryResult.ids results) as [|ids0 rest]; [done|].
  simpl in Hids. subst ids0. done.
Qed.

(** Each match of [query] is built from one position of the first row. *)
Lemma query_match query_text n_results filter_dict c e results matches i m :
  embed_text query_text = Ok e ->
  collection_query [e] (default settings.TOP_K_RESULTS n_results)
    filter_dict c = Ok results ->
  VectorStore.query query_text n_results filter_dict c = Ok matches ->
  matches !! i = Some m ->
  exists distances0 distance,
    QueryResult.distances results !! 0%nat = Some distances0
    /\ distances0 !! i = Some distance
    /\ Chunk.score m = PrimFloat.sub 1%float distance.
Proof.
  intros He Hq Hrun Hm. unfold VectorStore.query in Hrun.
  rewrite He in Hrun. simpl in Hrun. rewrite Hq in Hrun. simpl in Hrun.
  destruct (QueryResult.ids results) as [|ids0 rest].
  { injection Hrun as <-. by rewrite lookup_nil in Hm. }
  case_decide.
  2:{ injection Hrun as <-. by rewrite lookup_nil in Hm. }
  destruct (for_each_Ok_lookup _ _ _ _ _ Hrun Hm) as (j & Hj & Hbody).
  apply lookup_seq in Hj as [-> _]. simpl in Hbody.
  destruct (index (QueryResult.documents results) 0) as [documents0|];
    [simpl in Hbody|done].
  destruct (index documents0 i) as [text|]; [simpl in Hbody|done].
  destruct (index (QueryResult.metadatas results) 0) as [metadatas0|];
    [simpl in Hbody|done].
  destruct (index metadatas0 i) as [metadata|]; [simpl in Hbody|done].
  destruct (index (QueryResult.distances results) 0) as [distances0|]
    eqn:Hd0; [simpl in Hbody|done].
  destruct (index distances0 i) as [distance|] eqn:Hd; [|done].
  injection Hbody as <-. apply index_Ok in Hd0, Hd. eauto.
Qed.

Lemma query_length query_text n_results filter_dict c e results matches :
  embed_text query_text = Ok e ->
  collection_query [e] (default settings.TOP_K_RESULTS n_results)
    filter_dict c = Ok results ->
  VectorStore.query query_text n_results filter_dict c = Ok matches ->
  length matches = length (default [] (QueryResult.ids results !! 0%nat)).
Proof.
  intros He Hq Hrun. unfold VectorStore.query in Hrun.
  rewrite He in Hrun. simpl in Hrun. rewrite Hq in Hrun. simpl in Hrun.
  destruct (QueryResult.ids results) as [|ids0 rest].
  { by injection Hrun as <-. }
  simpl. case_decide.
  - apply for_each_Ok_length in Hrun. by rewrite Hrun, length_seq.
  - injection Hrun as <-. simpl. lia.
Qed.

End Retrieval.

(** C5: querying an empty collection returns an empty match list, and an
    empty retrieval set is formatted as the sentinel sentence, not as the
    empty string; neither step raises.  The collection is empty when its
    count is 0; the backend answers a query on an empty collection with a
    result whose first row holds no id, and the embedding of the query text
    succeeds. *)
Theorem empty_collection_retrieval `{Collaborators} `{VectorBackend}
    (query_text : list N) (n_results : option Z)
    (filter_dict : option pydict) (c : collection) (e : list float) :
  (forall queries n where_ c0,
      collection_count c0 = Ok 0%nat ->
      exists results,
        collection_query queries n where_ c0 = Ok results
        /\ default [] (QueryResult.ids results !! 0%nat) = []) ->
  collection_count c = Ok 0%nat ->
  embed_text query_text = Ok e ->
  VectorStore.query query_text n_results filter_dict c = Ok []
  /\ RAGService.format_context []
     = py "No relevant documentation found."
  /\ RAGService.format_context [] <> [].
Proof.
  intros Hbackend Hcount He.
  destruct (Hbackend [e] (default settings.TOP_K_RESULTS n_results)
              filter_dict c Hcount) as (results & Hq & Hids).
  split; [by eapply query_no_ids|]. split; [reflexivity | discriminate].
Qed.

(** C6: every match that [query] returns carries the score [1 - distance]
    for the distance the backend reported at its position, computed in
    binary64 arithmetic and with no clamping; there is one match per
    identifier of the backend's first row.  In particular a score below
    zero (a distance above 1) is returned as it is. *)
Theorem score_is_one_minus_distance `{Collaborators} `{VectorBackend}
    (query_text : list N) (n_results : option Z)
    (filter_dict : option pydict) (c : collection) (e : list float)
    (results : QueryResult.t) (matches : list Chunk.t) :
  embed_text query_text = Ok e ->
  collection_query [e] (default settings.TOP_K_RESULTS n_results)
    filter_dict c = Ok results ->
  VectorStore.query query_text n_results filter_dict c = Ok matches ->
  length matches = length (default [] (QueryResult.ids results !! 0%nat))
  /\ forall i m,
       matches !! i = Some m ->
       exists distances0 distance,
         QueryResult.distances results !! 0%nat = Some distances0
         /\ distances0 !! i = Some distance
         /\ Chunk.score m = PrimFloat.sub 1%float distance
         /\ (PrimFloat.ltb (PrimFloat.sub 1%float distance) 0%float = true ->
             PrimFloat.ltb (Chunk.score m) 0%float = true).
Proof.
  intros He Hq Hrun. split; [by eapply query_length|].
  intros i m Hm.
  destruct (query_match _ _ _ _ _ _ _ _ _ He Hq Hrun Hm)
    as (distances0 & distance & Hd0 & Hd & Hscore).
  exists distances0, distance. repeat split; try done. by rewrite Hscore.
Qed.

Lemma reference_query_empty queries n where_ (c0 : list Reference.Stored) :
  @collection_count Reference.backend c0 = Ok 0%nat ->
  exists results,
    @collection_query Reference.backend queries n where_ c0 = Ok results
    /\ default [] (QueryResult.ids results !! 0%nat) = [].
Proof.
  simpl. intros [= Hlen]. apply nil_length_inv in Hlen as ->.
  eexists. split; [reflexivity|]. simpl.
  destruct queries as [|q queries]; [done|]. simpl.
  unfold Reference.nearest. rewrite filter_nil, fmap_nil.
  by destruct (Z.to_nat n).
Qed.

Lemma empty_collection_retrieval_witness :
  @VectorStore.query (Examples.collaborators []) Reference.backend
    (py "discount code") None None [] = Ok []
  /\ @RAGService.format_context [] = py "No relevant documentation found."
  /\ @RAGService.format_context [] <> [].
Proof.
  refine (@empty_collection_retrieval (Examples.collaborators [])
            Reference.backend (py "discount code") None None []
            (Examples.embedding (py "discount code")) _ _ _).
  - intros queries n where_ c0. apply reference_query_empty.
  - reflexivity.
  - reflexivity.
Defined.

Lemma score_is_one_minus_distance_witness :
  exists m distance,
    Examples.discount_matches !! 1%nat = Some m
    /\ Chunk.score m = PrimFloat.sub 1%float distance
    /\ PrimFloat.ltb 1%float distance = true
    /\ PrimFloat.ltb (Chunk.score m) 0%float = true.
Proof.
  destruct (Examples.discount_matches !! 1%nat) as [m|] eqn:Hm;
    [|vm_compute in Hm; discriminate].
  destruct (proj2
    (@score_is_one_minus_distance (Examples.collaborators [])
       Reference.backend (py "discount code") None None Examples.ingested
       (Examples.embedding (py "discount code")) Examples.discount_results
       Examples.discount_matches eq_refl
       ltac:(vm_compute; reflexivity) ltac:(vm_compute; reflexivity))
    1%nat m Hm) as (distances0 & distance & Hd0 & Hd & Hscore & Hneg).
  exists m, distance. split; [done|]. split; [done|].
  vm_compute in Hd0. injection Hd0 as <-.
  vm_compute in Hd. injection Hd as <-.
  split; [reflexivity|]. apply Hneg. reflexivity.
Defined.

(** ** Statistics *)

Section Statistics.
Context `{VectorBackend}.
Import VectorStore.

Lemma collect_sources_elem (metadatas : list Metadata.t) (s : list N) :
  s ∈ collect_sources metadatas
  <-> s <> [] /\ exists m, m ∈ metadatas /\ Metadata.source_document m = Some s.
Proof.
  unfold collect_sources.
  set (step := fun (sources : gset (list N)) (metadata : Metadata.t) => _).
  assert (forall acc,
    s ∈ foldl step acc metadatas
    <-> s ∈ acc
        \/ (s <> []
            /\ exists m, m ∈ metadatas /\ Metadata.source_document m = Some s))
    as Hgen.
  { induction metadatas as [|m0 ms IH]; intros acc; simpl.
    - split; [by left|]. intros [?|(_ & m & Hm & _)]; [done|].
      by apply elem_of_nil in Hm.
    - rewrite IH. unfold step.
      destruct (Metadata.source_document m0) as [s0|] eqn:Hs0.
      + case_decide as Hempty.
        * split.
          -- intros [?|(Hne & m & Hm & Hsrc)]; [by left|].
             right. split; [done|]. exists m. split; [by right | done].
          -- intros [?|(Hne & m & Hm & Hsrc)]; [by left|].
             apply elem_of_cons in Hm as [->|Hm].
             ++ rewrite Hs0 in Hsrc. injection Hsrc as ->. done.
             ++ right. eauto.
        * rewrite elem_of_union, elem_of_singleton. split.
          -- intros [[->|?]|(Hne & m & Hm & Hsrc)].
             ++ right. split; [done|]. exists m0. split; [by left | done].
             ++ by left.
             ++ right. split; [done|]. exists m. split; [by right | done].
          -- intros [?|(Hne & m & Hm & Hsrc)]; [left; by right|].
             apply elem_of_cons in Hm as [->|Hm].
             ++ rewrite Hs0 in Hsrc. injection Hsrc as ->. left. by left.
             ++ right. eauto.
      + split.
        * intros [?|(Hne & m & Hm & Hsrc)]; [by left|].
          right. split; [done|]. exists m. split; [by right | done].
        * intros [?|(Hne & m & Hm & Hsrc)]; [by left|].
          apply elem_of_cons in Hm as [->|Hm]; [congruence|].
          right. eauto. }
  rewrite Hgen. split; [|by right].
  intros [Hempty|?]; [|done]. by apply not_elem_of_empty in Hempty.
Qed.

(** What [get_all_documents] makes of the metadata the backend returns for
    [get(limit=10000)]. *)
Lemma get_all_documents_spec c metadatas :
  collection_get 10000 c = Ok metadatas ->
  exists documents,
    get_all_documents c = Ok documents
    /\ Sorted str_le documents
    /\ NoDup documents
    /\ forall s,
         s ∈ documents
         <-> s <> []
             /\ exists m, m ∈ metadatas /\ Metadata.source_document m = Some s.
Proof.
  intros Hget. unfold get_all_documents. rewrite Hget. simpl.
  eexists. split; [reflexivity|]. split; [apply sorted_Sorted|].
  split; [apply sorted_NoDup, NoDup_elements|].
  intros s. by rewrite sorted_elem, elem_of_elements, collect_sources_elem.
Qed.

End Statistics.

(** C9 (as amended): [get_stats] reports [total_chunks] equal to the
    collection's count, and [documents] equal to the sorted, duplicate-free
    list of the non-empty [source_document] values of the chunks that the
    backend returns for [get(limit=10000)], with [total_documents] its
    length.  After [clear_collection], on a collection of any size, it
    reports [total_chunks = 0] and [documents = []]: the recreated
    collection counts 0 chunks and returns none. *)
Theorem get_stats_reports `{VectorBackend} (c : collection) (count : nat)
    (metadatas : list Metadata.t) :
  collection_count c = Ok count ->
  collection_get 10000 c = Ok metadatas ->
  collection_count recreated_collection = Ok 0%nat ->
  collection_get 10000 recreated_collection = Ok [] ->
  (exists stats,
      VectorStore.get_stats c = Ok stats
      /\ VectorStore.stats_total_chunks stats = count
      /\ VectorStore.stats_total_documents stats
         = length (VectorStore.stats_documents stats)
      /\ Sorted str_le (VectorStore.stats_documents stats)
      /\ NoDup (VectorStore.stats_documents stats)
      /\ forall s,
           s ∈ VectorStore.stats_documents stats
           <-> s <> []
               /\ exists m,
                    m ∈ metadatas /\ Metadata.source_document m = Some s)
  /\ VectorStore.get_stats (VectorStore.clear_collection c)
     = Ok {| VectorStore.stats_total_chunks := 0;
             VectorStore.stats_total_documents := 0;
             VectorStore.stats_collection_name := settings.COLLECTION_NAME;
             VectorStore.stats_documents := [] |}.
Proof.
  intros Hcount Hget Hcount0 Hget0. split.
  - destruct (get_all_documents_spec c metadatas Hget)
      as (documents & Hdocs & Hsorted & Hnodup & Helem).
    unfold VectorStore.get_stats. rewrite Hcount. simpl. rewrite Hdocs.
    simpl. eexists. split; [reflexivity|]. simpl.
    split; [done|]. split; [done|]. split; [done|]. split; [done|].
    exact Helem.
  - unfold VectorStore.get_stats, VectorStore.clear_collection,
      VectorStore.get_all_documents.
    rewrite Hcount0. simpl. rewrite Hget0. reflexivity.
Qed.

Lemma get_stats_reports_witness :
  @VectorStore.get_stats Reference.backend
    (@VectorStore.clear_collection Reference.backend
       (Examples.single_chunk_documents 50))
  = Ok {| VectorStore.stats_total_chunks := 0;
          VectorStore.stats_total_documents := 0;
          VectorStore.stats_collection_name := settings.COLLECTION_NAME;
          VectorStore.stats_documents := [] |}.
Proof.
  refine (proj2
    (@get_stats_reports Reference.backend
       (Examples.single_chunk_documents 50) 50
       (Reference.stored_metadata <$> Examples.single_chunk_documents 50)
       _ _ _ _)); reflexivity.
Defined.

Lemma py_inj (s t : string) : py s = py t -> s = t.
Proof.
  unfold py. intros Heq.
  rewrite <- (string_of_list_ascii_of_string s),
    <- (string_of_list_ascii_of_string t). f_equal.
  revert Heq. generalize (list_ascii_of_string s) (list_ascii_of_string t).
  induction l as [|a l IH]; intros [|b l']; simpl; try done.
  intros [= Hab Hl]. f_equal; [|by apply IH].
  by rewrite <- (ascii_N_embedding a), <- (ascii_N_embedding b), Hab.
Qed.

Lemma get_stats_unfold `{VectorBackend} c count documents :
  collection_count c = Ok count ->
  VectorStore.get_all_documents c = Ok documents ->
  VectorStore.get_stats c
  = Ok {| VectorStore.stats_total_chunks := count;
          VectorStore.stats_total_documents := length documents;
          VectorStore.stats_collection_name := settings.COLLECTION_NAME;
          VectorStore.stats_documents := documents |}.
Proof.
  intros Hcount Hdocs. unfold VectorStore.get_stats.
  rewrite Hcount. simpl. rewrite Hdocs. reflexivity.
Qed.

(** C9 (counterexample): a collection that holds one chunk of each of the
    10001 documents [doc0.md] ... [doc10000.md].  [get_stats] counts 10001
    chunks, but [get_all_documents] asks the collection for 10000 records
    only, so [doc10000.md], the source of a stored chunk, is not among the
    documents it reports. *)
Lemma get_stats_misses_a_document :
  exists r stats,
    r ∈ Examples.single_chunk_documents 10001
    /\ Metadata.source_document (Reference.stored_metadata r)
       = Some (py "doc10000.md")
    /\ @VectorStore.get_stats Reference.backend
         (Examples.single_chunk_documents 10001) = Ok stats
    /\ VectorStore.stats_total_chunks stats = Z.to_nat 10001
    /\ py "doc10000.md" ∉ VectorStore.stats_documents stats.
Proof.
  remember (Examples.single_chunk_documents 10001) as c eqn:Hc.
  destruct (@get_all_documents_spec Reference.backend c
              (take (Z.to_nat 10000) (Reference.stored_metadata <$> c))
              eq_refl)
    as (documents & Hdocs & _ & _ & Helem).
  exists (Examples.single_chunk_record (Z.to_nat 10000)).
  exists {| VectorStore.stats_total_chunks := length c;
          VectorStore.stats_total_documents := length documents;
          VectorStore.stats_collection_name := settings.COLLECTION_NAME;
          VectorStore.stats_documents := documents |}.
  split; [|split; [|split; [|split]]].
  - subst c; apply list_elem_of_fmap; exists (Z.to_nat 10000); split; [done|];
    apply elem_of_seq; lia.
  - vm_compute; reflexivity.
  - by apply (@get_stats_unfold Reference.backend).
  - cbn [VectorStore.stats_total_chunks]; subst c;
    unfold Examples.single_chunk_documents;
    by rewrite length_fmap, length_seq.
  - cbn [VectorStore.stats_documents]. rewrite Helem.
    intros (_ & m & Hm & Hsrc).
    apply elem_of_take in Hm as (i & Hi & Hlt).
    subst c. unfold Examples.single_chunk_documents in Hi.
    rewrite !list_lookup_fmap in Hi.
    destruct (seq 0 (Z.to_nat 10001) !! i) as [j|] eqn:Hj; [|done].
    apply lookup_seq in Hj as [-> _].
    cbn [fmap option_fmap option_map] in Hi. injection Hi as <-.
    cbn [Examples.single_chunk_record Reference.stored_metadata
         create_metadata_dict Metadata.source_document] in Hsrc.
    apply (inj Some) in Hsrc.
    assert (py "doc" ++ str_of_nat i ++ py ".md"
            = py "doc" ++ str_of_nat (Z.to_nat 10000) ++ py ".md") as Heq
      by exact Hsrc.
    apply app_inv_head, app_inv_tail in Heq.
    unfold str_of_nat in Heq. apply py_inj in Heq.
    apply (inj pretty) in Heq. lia.
Qed.

(** ** Dictionaries *)

Section Dictionaries.
Implicit Types (k : list N) (v : pyval) (d : pydict).

Lemma dict_get_set_eq k v d : dict_get k (dict_set k v d) = Some v.
Proof.
  induction d as [|[k' v'] d IH]; simpl.
  - by rewrite decide_True.
  - destruct (decide (k = k')) as [->|Hne]; simpl.
    + by rewrite decide_True.
    + by rewrite decide_False.
Qed.

Lemma dict_get_set_ne k k' v d :
  k <> k' -> dict_get k (dict_set k' v d) = dict_get k d.
Proof.
  intros Hne. induction d as [|[k0 v0] d IH]; simpl.
  - by rewrite decide_False.
  - destruct (decide (k' = k0)) as [->|Hne0]; simpl.
    + by rewrite !decide_False.
    + destruct (decide (k = k0)); [done | apply IH].
Qed.


End Dictionaries.

(** ** Grounding *)

Section Grounding.
Import Models TestCaseAgent.

Lemma join_nonempty (sep : list N) (parts : list (list N)) :
  parts <> [] -> (forall p, p ∈ parts -> p <> []) -> join sep parts <> [].
Proof.
  destruct parts as [|p [|q rest]]; intros Hne Hparts; [done| |]; simpl.
  - apply Hparts. by left.
  - intros Heq. apply app_eq_nil in Heq as [Hp _].
    by apply (Hparts p); [left|].
Qed.

Lemma top_sources_elem (chunks : list Chunk.t) (s : list N) :
  s ∈ foldl
        (fun (sources : gset (list N)) chunk =>
           let source := Chunk.source_document chunk in
           if decide (source = []) then sources else {[source]} ∪ sources)
        ∅ chunks
  <-> s <> [] /\ exists ch, ch ∈ chunks /\ Chunk.source_document ch = s.
Proof.
  set (step := fun (sources : gset (list N)) (chunk : Chunk.t) => _).
  assert (forall acc,
    s ∈ foldl step acc chunks
    <-> s ∈ acc
        \/ (s <> [] /\ exists ch, ch ∈ chunks /\ Chunk.source_document ch = s))
    as Hgen.
  { induction chunks as [|ch0 chunks IH]; intros acc; simpl.
    - split; [by left|]. intros [?|(_ & ch & Hch & _)]; [done|].
      by apply elem_of_nil in Hch.
    - rewrite IH. unfold step. simpl. case_decide as Hempty.
      + split.
        * intros [?|(Hne & ch & Hch & Hsrc)]; [by left|].
          right. split; [done|]. exists ch. split; [by right | done].
        * intros [?|(Hne & ch & Hch & Hsrc)]; [by left|].
          apply elem_of_cons in Hch as [->|Hch]; [congruence|].
          right. eauto.
      + rewrite elem_of_union, elem_of_singleton. split.
        * intros [[->|?]|(Hne & ch & Hch & Hsrc)].
          -- right. split; [done|]. exists ch0. split; [by left | done].
          -- by left.
          -- right. split; [done|]. exists ch. split; [by right | done].
        * intros [?|(Hne & ch & Hch & Hsrc)]; [left; by right|].
          apply elem_of_cons in Hch as [->|Hch].
          -- left. left. done.
          -- right. eauto. }
  rewrite Hgen. split; [|by right].
  intros [Hempty|?]; [|done]. by apply not_elem_of_empty in Hempty.
Qed.

(** [_infer_source_documents]: the distinct non-empty source documents of
    the first three matches, sorted and joined with [", "]; the word
    ["documentation"] when there is none. *)
Lemma infer_source_documents_spec (retrieved_chunks : list Chunk.t) :
  exists docs : list (list N),
    Sorted str_le docs
    /\ NoDup docs
    /\ (length docs <= 3)%nat
    /\ (forall s,
          s ∈ docs
          <-> s <> []
              /\ exists ch,
                   ch ∈ take 3 retrieved_chunks
                   /\ Chunk.source_document ch = s)
    /\ _infer_source_documents retrieved_chunks
       = if decide (docs = []) then py "documentation"
         else join (py ", ") docs.
Proof.
  unfold _infer_source_documents.
  set (sources := foldl _ ∅ (take 3 retrieved_chunks)).
  exists (sorted (elements sources)).
  assert (forall s,
    s ∈ sorted (elements sources)
    <-> s <> []
        /\ exists ch,
             ch ∈ take 3 retrieved_chunks /\ Chunk.source_document ch = s)
    as Helem.
  { intros s. rewrite sorted_elem, elem_of_elements.
    apply top_sources_elem. }
  assert (NoDup (sorted (elements sources))) as Hnodup
    by apply sorted_NoDup, NoDup_elements.
  split; [apply sorted_Sorted|]. split; [done|]. split; [|split; [done|]].
  - transitivity (length (Chunk.source_document <$> take 3 retrieved_chunks)).
    + apply submseteq_length, NoDup_submseteq; [done|].
      intros s Hs. apply Helem in Hs as (_ & ch & Hch & <-).
      by apply list_elem_of_fmap_2.
    + rewrite length_fmap, length_take. lia.
  - destruct (decide (retrieved_chunks = [])) as [->|Hchunks].
    + rewrite decide_True; [done|]. reflexivity.
    + destruct (decide (sources = ∅)) as [Hempty|Hsources].
      * rewrite decide_True; [done|]. rewrite Hempty, elements_empty.
        reflexivity.
      * rewrite decide_False; [done|]. intros Hnil.
        apply Hsources, leibniz_equiv, elements_empty_inv.
        apply Permutation_nil_r. rewrite <- Hnil.
        unfold sorted. by rewrite merge_sort_Permutation.
Qed.

Lemma distinct_elem (l : list (list N)) x : x ∈ distinct l <-> x ∈ l.
Proof.
  induction l as [|y l IH]; simpl; [done|].
  rewrite !elem_of_cons, list_elem_of_filter, IH.
  destruct (decide (x = y)) as [->|Hne].
  - split; [intros _|]; by left.
  - split; [intros [?|[_ ?]]|intros [?|?]]; auto.
Qed.

Lemma distinct_length (l : list (list N)) :
  (length (distinct l) <= length l)%nat.
Proof.
  induction l as [|y l IH]; simpl; [lia|].
  pose proof (length_filter (fun z => z <> y) (distinct l)). lia.
Qed.

(** The distinct elements of a prefix are a prefix of the distinct
    elements. *)
Lemma distinct_app (l1 l2 : list (list N)) :
  distinct (l1 ++ l2)
  = distinct l1 ++ filter (fun y => y ∉ l1) (distinct l2).
Proof.
  induction l1 as [|x l1 IH]; simpl.
  - symmetry. apply filter_all. intros y _. apply not_elem_of_nil.
  - f_equal. rewrite IH, filter_app. f_equal.
    rewrite list_filter_filter. apply list_filter_iff.
    intros y. rewrite not_elem_of_cons. tauto.
Qed.

(** The documents [_infer_source_documents] reads off the first three
    matches are the first [k] of the ranked source documents of all the
    matches, for some [k] up to three. *)
Lemma top_sources_ranked (retrieved_chunks : list Chunk.t) :
  exists k,
    (k <= 3)%nat
    /\ forall s,
         (s <> []
          /\ exists ch,
               ch ∈ take 3 retrieved_chunks /\ Chunk.source_document ch = s)
         <-> s ∈ take k (ranked_source_documents retrieved_chunks).
Proof.
  set (top := filter (fun s => s <> [])
                (Chunk.source_document <$> take 3 retrieved_chunks)).
  set (rest := filter (fun s => s <> [])
                 (Chunk.source_document <$> drop 3 retrieved_chunks)).
  assert (ranked_source_documents retrieved_chunks
          = distinct top ++ filter (fun y => y ∉ top) (distinct rest))
    as Hranked.
  { unfold ranked_source_documents.
    rewrite <- (take_drop 3 retrieved_chunks) at 1.
    by rewrite fmap_app, filter_app, distinct_app. }
  exists (length (distinct top)). split.
  - transitivity (length top); [apply distinct_length|].
    transitivity (length (Chunk.source_document <$> take 3 retrieved_chunks)).
    + apply length_filter.
    + rewrite length_fmap, length_take. lia.
  - intros s. rewrite Hranked, take_app_length, distinct_elem.
    unfold top. rewrite list_elem_of_filter, list_elem_of_fmap.
    split.
    + intros (Hne & ch & Hch & <-). eauto.
    + intros (Hne & ch & -> & Hch). eauto.
Qed.

Lemma infer_source_documents_nonempty (retrieved_chunks : list Chunk.t) :
  _infer_source_documents retrieved_chunks <> [].
Proof.
  destruct (infer_source_documents_spec retrieved_chunks)
    as (docs & _ & _ & _ & Helem & ->).
  case_decide as Hdocs; [discriminate|].
  apply join_nonempty; [done|]. intros p Hp. by apply Helem in Hp as [? _].
Qed.

End Grounding.

(** ** Test-case generation *)

Section Generation.
Context `{Collaborators} `{VectorBackend}.
Import Models TestCaseAgent.

Lemma get_str_Some (k : string) (d : pydict) (s : list N) :
  get_str k d = Some s -> dict_get (py k) d = Some (PStr s).
Proof.
  unfold get_str. destruct (dict_get (py k) d) as [[]|]; try done.
  by intros [= ->].
Qed.

Lemma TestCase_new_grounded (d : pydict) (tc : TestCase) :
  TestCase_new d = Some tc ->
  dict_get (py "grounded_in") d = Some (PStr (grounded_in tc)).
Proof.
  unfold TestCase_new. intros Hnew.
  destruct (get_str "test_id" d); [simpl in Hnew|done].
  destruct (get_str "feature" d); [simpl in Hnew|done].
  destruct (get_str "test_scenario" d); [simpl in Hnew|done].
  destruct (get_str "test_type" d); [simpl in Hnew|done].
  case_guard; [simpl in Hnew|done].
  destruct (get_str "preconditions" d); [simpl in Hnew|done].
  destruct (get_str_list "test_steps" d); [simpl in Hnew|done].
  destruct (get_str "expected_result" d); [simpl in Hnew|done].
  destruct (get_str "grounded_in" d) as [g|] eqn:Hg; [simpl in Hnew|done].
  injection Hnew as <-. simpl. by apply get_str_Some.
Qed.

(** The [grounded_in] entry of a completed item: the item's own when it
    has a truthy one, the inferred source documents otherwise. *)
Lemma complete_item_grounded i (d d' : pydict) chunks :
  complete_item i (PDict d) chunks = Some d' ->
  match dict_get (py "grounded_in") d with
  | Some g =>
      if truthy g then dict_get (py "grounded_in") d' = Some g
      else dict_get (py "grounded_in") d'
           = Some (PStr (_infer_source_documents chunks))
  | None =>
      dict_get (py "grounded_in") d'
      = Some (PStr (_infer_source_documents chunks))
  end.
Proof.
  unfold complete_item. intros [= <-].
  set (d1 := if dict_mem (py "test_id") d then d else _).
  assert (dict_get (py "grounded_in") d1 = dict_get (py "grounded_in") d)
    as Hd1.
  { unfold d1. destruct (dict_mem (py "test_id") d); [done|].
    by apply dict_get_set_ne. }
  rewrite Hd1. destruct (dict_get (py "grounded_in") d) as [g|].
  - destruct (truthy g); [done | apply dict_get_set_eq].
  - apply dict_get_set_eq.
Qed.

Lemma build_test_case_dict i item chunks tc :
  build_test_case i item chunks = Some tc -> exists d, item = PDict d.
Proof.
  unfold build_test_case, complete_item.
  destruct item; try done. eauto.
Qed.

Lemma build_test_case_grounded i item chunks tc :
  build_test_case i item chunks = Some tc -> grounded_in tc <> [].
Proof.
  intros Hbuild.
  destruct (build_test_case_dict _ _ _ _ Hbuild) as [d ->].
  unfold build_test_case in Hbuild.
  destruct (complete_item i (PDict d) chunks) as [d'|] eqn:Hd'; [|done].
  simpl in Hbuild. apply TestCase_new_grounded in Hbuild.
  apply complete_item_grounded in Hd'.
  destruct (dict_get (py "grounded_in") d) as [g|].
  - destruct (truthy g) eqn:Hg.
    + rewrite Hbuild in Hd'. injection Hd' as <-. simpl in Hg.
      intros Hnil. rewrite Hnil in Hg. done.
    + rewrite Hbuild in Hd'. injection Hd' as ->.
      apply infer_source_documents_nonempty.
  - rewrite Hbuild in Hd'. injection Hd' as ->.
    apply infer_source_documents_nonempty.
Qed.

Lemma build_test_case_backfill i d chunks tc :
  build_test_case i (PDict d) chunks = Some tc ->
  (dict_get (py "grounded_in") d = None
   \/ exists g, dict_get (py "grounded_in") d = Some g /\ truthy g = false) ->
  grounded_in tc = _infer_source_documents chunks.
Proof.
  intros Hbuild Hmissing. unfold build_test_case in Hbuild.
  destruct (complete_item i (PDict d) chunks) as [d'|] eqn:Hd'; [|done].
  simpl in Hbuild. apply TestCase_new_grounded in Hbuild.
  apply complete_item_grounded in Hd'.
  destruct Hmissing as [Hnone|(g & Hsome & Hfalsy)].
  - rewrite Hnone, Hbuild in Hd'. by injection Hd'.
  - rewrite Hsome, Hfalsy, Hbuild in Hd'. by injection Hd'.
Qed.

Lemma build_test_case_kept i d chunks tc g :
  build_test_case i (PDict d) chunks = Some tc ->
  dict_get (py "grounded_in") d = Some g -> truthy g = true ->
  g = PStr (grounded_in tc).
Proof.
  intros Hbuild Hsome Htruthy. unfold build_test_case in Hbuild.
  destruct (complete_item i (PDict d) chunks) as [d'|] eqn:Hd'; [|done].
  simpl in Hbuild. apply TestCase_new_grounded in Hbuild.
  apply complete_item_grounded in Hd'.
  rewrite Hsome, Htruthy, Hbuild in Hd'. by injection Hd'.
Qed.
(** The two ways [generate_test_cases] returns: a failure with no test
    case, or the test cases built from the items of the extracted data. *)
Lemma generate_test_cases_inv user_query include_negative c resp :
  generate_test_cases user_query include_negative c = Ok resp ->
  (success resp = false /\ test_cases resp = [] /\ total_cases resp = 0%nat)
  \/ exists rag_result data items,
       RAGService.rag_query (enhanced_query user_query include_negative)
         system_prompt (Some 8%Z) (Some 0x1.999999999999ap-4%float) None c
       = Ok rag_result
       /\ _extract_json_from_response (RAGService.response rag_result)
          = Ok data
       /\ iterate data = Ok items
       /\ success resp = true
       /\ test_cases resp
          = omap
              (fun '(i, tc_data) =>
                 build_test_case i tc_data
                   (RAGService.retrieved_chunks rag_result))
              (enumerate items)
       /\ total_cases resp = length (test_cases resp).
Proof.
  unfold generate_test_cases, try_except.
  destruct (RAGService.rag_query _ _ _ _ _ c) as [rag_result|e] eqn:Hrag;
    simpl; [|intros [= <-]; by left].
  destruct (_extract_json_from_response _) as [data|e] eqn:Hdata;
    simpl; [|intros [= <-]; by left].
  destruct (truthy data); simpl; [|intros [= <-]; by left].
  destruct (iterate data) as [items|e] eqn:Hitems;
    simpl; [|intros [= <-]; by left].
  case_decide as Hnone; intros [= <-]; [by left|].
  right. exists rag_result, data, items. by repeat split.
Qed.

Lemma generate_test_cases_total user_query include_negative c :
  exists resp, generate_test_cases user_query include_negative c = Ok resp.
Proof.
  unfold generate_test_cases, try_except.
  destruct (RAGService.rag_query _ _ _ _ _ c) as [rag_result|e];
    simpl; [|eauto].
  destruct (_extract_json_from_response _) as [data|e]; simpl; [|eauto].
  destruct (truthy data); simpl; [|eauto].
  destruct (iterate data) as [items|e]; simpl; [|eauto].
  case_decide; eauto.
Qed.

End Generation.

(** C1 (as amended): every test case that [generate_test_cases] accepts has
    a non-empty [grounded_in].  Each accepted test case is built from a
    dictionary item of the decoded reply; whichever item of the reply it is
    built from, when that item has no [grounded_in], or a falsy one, the
    field is back-filled with [_infer_source_documents] of the retrieved
    matches, and a truthy one is kept.  The back-fill reads the first three
    retrieved matches only: it is the distinct non-empty source documents of
    those three matches, sorted and joined with [", "], and the word
    ["documentation"] when there is none; a document that first appears at
    the fourth match or later is not named. *)
Theorem generated_test_cases_are_grounded `{Collaborators} `{VectorBackend}
    (user_query : list N) (include_negative : bool) (c : collection)
    (resp : Models.TestCaseResponse) :
  TestCaseAgent.generate_test_cases user_query include_negative c = Ok resp ->
  (forall tc,
      tc ∈ Models.test_cases resp ->
      Models.grounded_in tc <> []
      /\ exists rag_result data items,
           RAGService.rag_query
             (TestCaseAgent.enhanced_query user_query include_negative)
             TestCaseAgent.system_prompt (Some 8%Z)
             (Some 0x1.999999999999ap-4%float) None c = Ok rag_result
           /\ TestCaseAgent._extract_json_from_response
                (RAGService.response rag_result) = Ok data
           /\ TestCaseAgent.iterate data = Ok items
           /\ (exists i d,
                 items !! i = Some (PDict d)
                 /\ TestCaseAgent.build_test_case i (PDict d)
                      (RAGService.retrieved_chunks rag_result) = Some tc)
           /\ (forall i d,
                 items !! i = Some (PDict d) ->
                 TestCaseAgent.build_test_case i (PDict d)
                   (RAGService.retrieved_chunks rag_result) = Some tc ->
                 ((dict_get (py "grounded_in") d = None
                   \/ exists g,
                        dict_get (py "grounded_in") d = Some g
                        /\ truthy g = false) ->
                  Models.grounded_in tc
                  = TestCaseAgent._infer_source_documents
                      (RAGService.retrieved_chunks rag_result))
                 /\ (forall g,
                       dict_get (py "grounded_in") d = Some g ->
                       truthy g = true ->
                       g = PStr (Models.grounded_in tc))))
  /\ forall retrieved_chunks,
       exists docs : list (list N),
         Sorted str_le docs
         /\ NoDup docs
         /\ (length docs <= 3)%nat
         /\ (forall s,
               s ∈ docs
               <-> s <> []
                   /\ exists ch,
                        ch ∈ take 3 retrieved_chunks
                        /\ Chunk.source_document ch = s)
         /\ TestCaseAgent._infer_source_documents retrieved_chunks
            = if decide (docs = []) then py "documentation"
              else join (py ", ") docs.
Proof.
  intros Hrun. split; [|apply infer_source_documents_spec].
  intros tc Htc.
  destruct (generate_test_cases_inv _ _ _ _ Hrun)
    as [(_ & Hnone & _)|(rag_result & data & items & Hrag & Hdata & Hitems
                          & _ & Hcases & _)].
  { rewrite Hnone in Htc. by apply elem_of_nil in Htc. }
  rewrite Hcases in Htc.
  apply list_elem_of_omap in Htc as ([i item] & Hin & Hbuild).
  apply list_elem_of_lookup in Hin as [j Hj].
  apply enumerate_lookup in Hj as [-> Hitem].
  destruct (build_test_case_dict _ _ _ _ Hbuild) as [d ->].
  split; [by eapply build_test_case_grounded|].
  exists rag_result, data, items. repeat (split; [done|]).
  split; [by exists j, d|].
  intros i d' _ Hbuild'. split.
  - by apply (build_test_case_backfill i).
  - intros g.
    by apply (build_test_case_kept i d'
                (RAGService.retrieved_chunks rag_result)).
Qed.

Lemma generated_test_cases_are_grounded_witness :
  exists tc,
    Models.test_cases Examples.generated = [tc]
    /\ Models.grounded_in tc = py "product_specs.md"
    /\ Models.grounded_in tc <> [].
Proof.
  destruct (Models.test_cases Examples.generated) as [|tc [|tc' rest]]
    eqn:Htc; try (vm_compute in Htc; discriminate).
  exists tc. split; [done|]. split.
  - vm_compute in Htc. injection Htc as <-. reflexivity.
  - refine (proj1
      (proj1
         (@generated_test_cases_are_grounded
            (Examples.collaborators Examples.fenced_reply) Reference.backend
            (py "discount code") true Examples.ingested Examples.generated
            _) tc _)).
    + vm_compute. reflexivity.
    + rewrite Htc. apply list_elem_of_here.
Defined.

(** C1 (counterexample): the back-fill is not the first three distinct
    source documents of the retrieved matches: when one document gives the
    three best matches and two other documents the next two, the accepted
    test case is grounded in the first document alone. *)
Lemma backfill_reads_three_matches_only :
  Chunk.source_document <$> Scenarios.crowded_matches
  = [py "pricing.md"; py "pricing.md"; py "pricing.md"; py "checkout.md";
     py "shipping.md"]
  /\ TestCaseAgent.ranked_source_documents Scenarios.crowded_matches
     = [py "pricing.md"; py "checkout.md"; py "shipping.md"]
  /\ TestCaseAgent.top_distinct_source_documents Scenarios.crowded_matches
     = py "checkout.md, pricing.md, shipping.md"
  /\ TestCaseAgent._infer_source_documents Scenarios.crowded_matches
     = py "pricing.md"
  /\ exists resp tc,
       Scenarios.generate_crowded = Ok resp
       /\ Models.test_cases resp = [tc]
       /\ Models.grounded_in tc = py "pricing.md"
       /\ Models.grounded_in tc
          <> TestCaseAgent.top_distinct_source_documents
               Scenarios.crowded_matches.
Proof.
  split; [vm_compute; reflexivity|].
  split; [vm_compute; reflexivity|].
  split; [vm_compute; reflexivity|].
  split; [vm_compute; reflexivity|].
  destruct Scenarios.generate_crowded as [resp|] eqn:Hresp;
    [|vm_compute in Hresp; discriminate].
  destruct (Models.test_cases resp) as [|tc [|tc' rest]] eqn:Htc;
    try (vm_compute in Hresp; injection Hresp as <-; discriminate).
  exists resp, tc. split; [done|]. split; [done|].
  assert (Models.grounded_in tc = py "pricing.md") as ->.
  { vm_compute in Hresp. injection Hresp as <-. simpl in Htc.
    injection Htc as <-. reflexivity. }
  split; [done|]. vm_compute. discriminate.
Qed.

(** C4: [generate_test_cases] never lets an exception escape: whatever the
    collaborators do, it returns a response.  When the model's reply yields
    no parseable JSON under any of the three extraction strategies, the
    response has [success = false], no test case and [total_cases = 0]. *)
Theorem unparseable_reply_is_reported `{Collaborators} `{VectorBackend}
    (user_query : list N) (include_negative : bool) (c : collection) :
  (exists resp,
      TestCaseAgent.generate_test_cases user_query include_negative c
      = Ok resp)
  /\ forall rag_result,
       RAGService.rag_query
         (TestCaseAgent.enhanced_query user_query include_negative)
         TestCaseAgent.system_prompt (Some 8%Z)
         (Some 0x1.999999999999ap-4%float) None c = Ok rag_result ->
       TestCaseAgent.no_parseable_json (RAGService.response rag_result) ->
       exists resp,
         TestCaseAgent.generate_test_cases user_query include_negative c
         = Ok resp
         /\ Models.success resp = false
         /\ Models.test_cases resp = []
         /\ Models.total_cases resp = 0%nat.
Proof.
  split; [apply generate_test_cases_total|].
  intros rag_result Hrag (Hblock & Harray & Hraw).
  assert (forall data,
    json_loads (TestCaseAgent.json_candidate (RAGService.response rag_result))
    <> Ok data) as Hcandidate.
  { unfold TestCaseAgent.json_candidate.
    destruct (TestCaseAgent.search_json_block _) as [block|];
      [by apply Hblock|].
    destruct (TestCaseAgent.search_array _) as [array|];
      [by apply Harray | done]. }
  unfold TestCaseAgent.generate_test_cases, try_except.
  rewrite Hrag. simpl. unfold TestCaseAgent._extract_json_from_response.
  destruct (json_loads
              (TestCaseAgent.json_candidate (RAGService.response rag_result)))
    as [data|e]; [exfalso; by apply (Hcandidate data)|].
  destruct (exn_class e); simpl; eauto.
Qed.

Lemma unparseable_reply_is_reported_witness :
  exists resp,
    Examples.generate Examples.prose_reply = Ok resp
    /\ Models.success resp = false
    /\ Models.test_cases resp = []
    /\ Models.total_cases resp = 0%nat.
Proof.
  refine (proj2
    (@unparseable_reply_is_reported
       (Examples.collaborators Examples.prose_reply) Reference.backend
       (py "discount code") true Examples.ingested)
    Examples.prose_rag_result _ _).
  - vm_compute. reflexivity.
  - split; [|split].
    + intros block Hblock. vm_compute in Hblock. discriminate.
    + intros array Harray. vm_compute in Harray. discriminate.
    + intros data Hdata. vm_compute in Hdata. discriminate.
Defined.

(** ** Extraction of the JSON payload *)

Section Extraction.
Import TestCaseAgent.
Implicit Types (s pre body tail post pat : list N) (c : N).

Lemma starts_with_app pat s : starts_with pat (pat ++ s) = true.
Proof. induction pat as [|a pat IH]; simpl; [done|]. by rewrite N.eqb_refl. Qed.

Lemma after_first_here pat s : after_first pat (pat ++ s) = Some s.
Proof.
  destruct (pat ++ s) as [|c r] eqn:Heq; simpl;
    rewrite <- Heq, starts_with_app, drop_app_length; done.
Qed.

(** A literal that starts with a character absent from [pre] is first
    found right after [pre]. *)
Lemma after_first_skip a pat pre s :
  a ∉ pre -> after_first (a :: pat) (pre ++ (a :: pat) ++ s) = Some s.
Proof.
  induction pre as [|c pre IH]; intros Hpre.
  - apply (after_first_here (a :: pat)).
  - apply not_elem_of_cons in Hpre as [Hac Hpre].
    change (after_first (a :: pat) ((c :: pre) ++ (a :: pat) ++ s))
      with (if starts_with (a :: pat) (c :: pre ++ (a :: pat) ++ s)
            then Some (drop (length (a :: pat)) (c :: pre ++ (a :: pat) ++ s))
            else after_first (a :: pat) (pre ++ (a :: pat) ++ s)).
    simpl starts_with.
    destruct (N.eqb_spec a c) as [->|_]; [done|]. simpl. by apply IH.
Qed.

Lemma after_first_absent a pat s : a ∉ s -> after_first (a :: pat) s = None.
Proof.
  induction s as [|c s IH]; intros Hs; [done|].
  apply not_elem_of_cons in Hs as [Hac Hs].
  change (after_first (a :: pat) (c :: s))
    with (if starts_with (a :: pat) (c :: s)
          then Some (drop (length (a :: pat)) (c :: s))
          else after_first (a :: pat) s).
  simpl starts_with. destruct (N.eqb_spec a c) as [->|_]; [done|].
  simpl. by apply IH.
Qed.

Lemma lstrip_spaces ws s :
  Forall (fun c => isspace c = true) ws -> lstrip (ws ++ s) = lstrip s.
Proof. induction 1 as [|c ws Hc _ IH]; simpl; [done|]. by rewrite Hc. Qed.

Lemma rstrip_fixed_tail c s : rstrip (c :: s) = c :: s -> rstrip s = s.
Proof.
  simpl. destruct (rstrip s) as [|c' r'] eqn:Hr.
  - destruct (isspace c); [done|]. by intros [= <-].
  - by intros [= <-].
Qed.

Lemma rstrip_fixed_nonspace s :
  rstrip s = s -> s <> [] -> exists c, c ∈ s /\ isspace c = false.
Proof.
  induction s as [|c s IH]; intros Hfix Hne; [done|].
  pose proof (rstrip_fixed_tail _ _ Hfix) as Htail.
  destruct s as [|c' s'].
  - simpl in Hfix. destruct (isspace c) eqn:Hc; [done|].
    exists c. split; [by left | done].
  - destruct (IH Htail) as (x & Hx & Hspace); [done|].
    exists x. split; [by right | done].
Qed.

Lemma lstrip_head s tail :
  (exists c, c ∈ s /\ isspace c = false) ->
  exists x rest, lstrip (s ++ tail) = x :: rest /\ x ∈ s.
Proof.
  induction s as [|c s IH]; intros (x & Hx & Hspace).
  - by apply elem_of_nil in Hx.
  - simpl. destruct (isspace c) eqn:Hc.
    + apply elem_of_cons in Hx as [->|Hx]; [congruence|].
      destruct IH as (y & rest & Hy & Hin); [eauto|].
      exists y, rest. split; [done | by right].
    + exists c, (s ++ tail). split; [done | by left].
Qed.

Lemma until_fence_unfold s :
  until_fence s
  = if starts_with fence (lstrip s) then Some []
    else match s with
         | [] => None
         | c :: r => cons c <$> until_fence r
         end.
Proof. by destruct s. Qed.

(** The lazy group stops in front of the whitespace that precedes the
    closing fence, when the block body holds no backtick and does not end
    with whitespace. *)
Lemma until_fence_body body tail :
  0x60 ∉ body -> rstrip body = body ->
  starts_with fence (lstrip tail) = true ->
  until_fence (body ++ tail) = Some body.
Proof.
  intros Hbody Hfix Htail. induction body as [|c body IH].
  - simpl. by rewrite until_fence_unfold, Htail.
  - rewrite until_fence_unfold.
    destruct (lstrip_head (c :: body) tail) as (x & rest & -> & Hx).
    { by apply rstrip_fixed_nonspace. }
    assert (starts_with fence (x :: rest) = false) as ->.
    { change fence with [0x60; 0x60; 0x60]. cbn [starts_with].
      destruct (N.eqb_spec 0x60 x) as [<-|_]; [by destruct Hbody | done]. }
    change (cons c <$> until_fence (body ++ tail) = Some (c :: body)).
    rewrite IH; [done| |].
    + by apply not_elem_of_cons in Hbody as [_ ?].
    + by eapply rstrip_fixed_tail.
Qed.

(** A fenced JSON block is found, and its body is group 1. *)
Lemma lstrip_fixed_app s tail :
  lstrip s = s -> s <> [] -> lstrip (s ++ tail) = s ++ tail.
Proof.
  destruct s as [|c s]; [done|]. intros Hfix _. simpl in *.
  destruct (isspace c); [|done]. exfalso.
  assert (length (lstrip s) <= length s)%nat as Hlen.
  { clear. induction s as [|x r IH]; simpl; [lia|].
    destruct (isspace x); simpl; lia. }
  rewrite Hfix in Hlen. simpl in Hlen. lia.
Qed.

Lemma search_json_block_fenced pre ws1 body ws2 post :
  0x60 ∉ pre ->
  Forall (fun c => isspace c = true) ws1 ->
  Forall (fun c => isspace c = true) ws2 ->
  0x60 ∉ body -> lstrip body = body -> rstrip body = body ->
  search_json_block
    (pre ++ py "```json" ++ ws1 ++ body ++ ws2 ++ py "```" ++ post)
  = Some body.
Proof.
  intros Hpre Hws1 Hws2 Hbody Hl Hr. unfold search_json_block.
  change (py "```json") with (0x60 :: py "``json").
  rewrite after_first_skip by done.
  change (until_fence (lstrip (ws1 ++ body ++ ws2 ++ py "```" ++ post))
          = Some body).
  rewrite lstrip_spaces by done.
  assert (starts_with fence (lstrip (ws2 ++ py "```" ++ post)) = true)
    as Hclose.
  { rewrite lstrip_spaces by done. apply (starts_with_app fence). }
  destruct (decide (body = [])) as [->|Hne].
  - change (until_fence (lstrip (ws2 ++ py "```" ++ post)) = Some []).
    rewrite until_fence_unfold.
    assert (lstrip (lstrip (ws2 ++ py "```" ++ post))
            = lstrip (ws2 ++ py "```" ++ post)) as ->.
    { rewrite lstrip_spaces by done. reflexivity. }
    by rewrite Hclose.
  - rewrite lstrip_fixed_app by done. by apply until_fence_body.
Qed.

Lemma through_last_bracket_absent s :
  0x5D ∉ s -> through_last_bracket s = None.
Proof.
  induction s as [|c s IH]; intros Hs; [done|].
  apply not_elem_of_cons in Hs as [Hc Hs]. simpl. rewrite IH by done.
  by destruct (N.eqb_spec c 0x5D).
Qed.

Lemma through_last_bracket_last s post :
  0x5D ∉ post -> through_last_bracket (s ++ 0x5D :: post) = Some (s ++ [0x5D]).
Proof.
  intros Hpost. induction s as [|c s IH]; simpl.
  - by rewrite through_last_bracket_absent.
  - by rewrite IH.
Qed.

(** The bracket pattern matches from the first opening bracket to the last
    closing bracket. *)
Lemma search_array_span pre mid post :
  0x5B ∉ pre -> 0x5D ∉ post ->
  search_array (pre ++ [0x5B] ++ mid ++ [0x5D] ++ post)
  = Some ([0x5B] ++ mid ++ [0x5D]).
Proof.
  intros Hpre Hpost. unfold search_array.
  rewrite (after_first_skip 0x5B []) by done. simpl.
  by rewrite through_last_bracket_last.
Qed.

Lemma search_json_block_absent text :
  0x60 ∉ text -> search_json_block text = None.
Proof.
  intros Htext. unfold search_json_block.
  change (py "```json") with (0x60 :: py "``json").
  by rewrite after_first_absent.
Qed.

Lemma search_array_absent text : 0x5B ∉ text -> search_array text = None.
Proof.
  intros Htext. unfold search_array. by rewrite after_first_absent.
Qed.

End Extraction.

(** C3 (as amended): [_extract_json_from_response] hands one candidate
    string to the JSON decoder and decodes it once: a decoded object is
    promoted to a one-element list, any other decoded value is returned as
    it is, and when the candidate does not decode the result is [None]; no
    other candidate is tried.  The candidate is chosen by what the reply
    contains, not by what decodes: the body of the first fenced block tagged
    [json]; else, when the reply has no such block, the span from its first
    opening bracket to its last closing bracket; else, when it has neither,
    the whole reply.  A reply without backtick has no such block, a reply
    without opening bracket no such span.  In particular a reply that wraps
    a single JSON object in a fenced block tagged [json] is extracted as the
    one-element list of that object, and when the object is a valid test
    case [generate_test_cases] returns the list of that one test case.  (The
    preamble and the object hold no backtick, and the object has no
    surrounding whitespace.) *)
Theorem extract_json_strategies `{Collaborators} `{VectorBackend} :
  (forall text,
      (forall data,
          json_loads (TestCaseAgent.json_candidate text) = Ok data ->
          TestCaseAgent._extract_json_from_response text
          = Ok match data with
               | PDict _ => PList [data]
               | _ => data
               end)
      /\ (forall e,
            json_loads (TestCaseAgent.json_candidate text) = Raise e ->
            exn_class e = JSONDecodeError ->
            TestCaseAgent._extract_json_from_response text = Ok PNone))
  /\ (forall pre ws1 body ws2 post,
        0x60 ∉ pre ->
        Forall (fun ch => isspace ch = true) ws1 ->
        Forall (fun ch => isspace ch = true) ws2 ->
        0x60 ∉ body -> lstrip body = body -> rstrip body = body ->
        TestCaseAgent.json_candidate
          (pre ++ py "```json" ++ ws1 ++ body ++ ws2 ++ py "```" ++ post)
        = body)
  /\ (forall pre mid post,
        TestCaseAgent.search_json_block
          (pre ++ [0x5B] ++ mid ++ [0x5D] ++ post) = None ->
        0x5B ∉ pre -> 0x5D ∉ post ->
        TestCaseAgent.json_candidate (pre ++ [0x5B] ++ mid ++ [0x5D] ++ post)
        = [0x5B] ++ mid ++ [0x5D])
  /\ (forall text,
        TestCaseAgent.search_json_block text = None ->
        TestCaseAgent.search_array text = None ->
        TestCaseAgent.json_candidate text = text)
  /\ (forall text,
        (0x60 ∉ text -> TestCaseAgent.search_json_block text = None)
        /\ (0x5B ∉ text -> TestCaseAgent.search_array text = None))
  /\ (forall user_query include_negative c rag_result d tc,
        RAGService.rag_query
          (TestCaseAgent.enhanced_query user_query include_negative)
          TestCaseAgent.system_prompt (Some 8%Z)
          (Some 0x1.999999999999ap-4%float) None c = Ok rag_result ->
        TestCaseAgent._extract_json_from_response
          (RAGService.response rag_result) = Ok (PList [PDict d]) ->
        TestCaseAgent.build_test_case 0 (PDict d)
          (RAGService.retrieved_chunks rag_result) = Some tc ->
        TestCaseAgent.generate_test_cases user_query include_negative c
        = Ok {| Models.success := true;
                Models.message := py "Generated 1 test cases";
                Models.test_cases := [tc];
                Models.total_cases := 1 |}).
Proof.
  split; [|split; [|split; [|split; [|split]]]].
  - intros text. unfold TestCaseAgent._extract_json_from_response. split.
    + by intros data ->.
    + by intros e -> ->.
  - intros pre ws1 body ws2 post Hpre Hws1 Hws2 Hbody Hl Hr.
    unfold TestCaseAgent.json_candidate.
    by rewrite search_json_block_fenced.
  - intros pre mid post Hblock Hpre Hpost.
    unfold TestCaseAgent.json_candidate.
    by rewrite Hblock, search_array_span.
  - intros text Hblock Harray. unfold TestCaseAgent.json_candidate.
    by rewrite Hblock, Harray.
  - intros text. split.
    + apply search_json_block_absent.
    + apply search_array_absent.
  - intros user_query include_negative c rag_result d tc Hrag Hdata Hbuild.
    unfold TestCaseAgent.generate_test_cases, try_except.
    rewrite Hrag. cbn [mbind result_bind]. rewrite Hdata.
    cbn [mbind result_bind truthy TestCaseAgent.iterate].
    rewrite (bool_decide_eq_false_2 ([PDict d] = [])) by done.
    cbn [negb enumerate imap omap list_omap]. rewrite Hbuild.
    rewrite decide_False by done. reflexivity.
Qed.

Lemma extract_json_strategies_witness :
  @TestCaseAgent._extract_json_from_response
    (Examples.collaborators Examples.fenced_reply) Examples.fenced_reply
  = Ok (PList [PDict Examples.reply_dict])
  /\ @TestCaseAgent._extract_json_from_response
       (Examples.collaborators []) Scenarios.broken_block_reply
     = Ok PNone.
Proof.
  split.
  - refine (proj1 (proj1
      (@extract_json_strategies
         (Examples.collaborators Examples.fenced_reply) Reference.backend)
      Examples.fenced_reply) (PDict Examples.reply_dict) _).
    vm_compute. reflexivity.
  - refine (proj2 (proj1
      (@extract_json_strategies (Examples.collaborators [])
         Reference.backend)
      Scenarios.broken_block_reply)
      (Exn JSONDecodeError (py "Expecting value")) _ _).
    + vm_compute. reflexivity.
    + reflexivity.
Defined.

(** C3 (counterexample): the strategies are not tried in order.  A fenced
    JSON block that does not decode hides the array that follows it; a raw
    object that holds arrays is cut at its brackets and does not decode; and
    a single object in a fence without the [json] tag yields the list inside
    the object, so no test case. *)
Lemma extraction_does_not_try_in_order :
  (@TestCaseAgent._extract_json_from_response (Examples.collaborators [])
     Scenarios.broken_block_reply = Ok PNone
   /\ @TestCaseAgent.extract_trying_in_order (Examples.collaborators [])
        Scenarios.broken_block_reply = Some (PList [PInt 1]))
  /\ (@TestCaseAgent._extract_json_from_response (Examples.collaborators [])
        Scenarios.raw_object_reply = Ok PNone
      /\ @TestCaseAgent.extract_trying_in_order (Examples.collaborators [])
           Scenarios.raw_object_reply
         = Some (PList [PDict [(py "a", PList [PInt 1]);
                               (py "b", PList [PInt 2])]]))
  /\ (@Json.loads Examples.reply_object = Ok (PDict Examples.reply_dict)
      /\ @TestCaseAgent._extract_json_from_response
           (Examples.collaborators []) Scenarios.untagged_reply
         = Ok (PList [PStr (py "Enter SAVE15"); PStr (py "Click apply")])
      /\ Examples.generate Scenarios.untagged_reply
         = Ok {| Models.success := false;
                 Models.message := py "No valid test cases generated";
                 Models.test_cases := [];
                 Models.total_cases := 0 |}).
Proof.
  repeat split; vm_compute; reflexivity.
Qed.

(* ===================================================================== *)
(** * Part III: further properties of the code *)
(* ===================================================================== *)

(** ** The shape of cleaned text *)

Section Lengths.
Implicit Types (s : pystr).

Lemma lstrip_length s : (length (lstrip s) <= length s)%nat.
Proof.
  induction s as [|c s IH]; simpl; [lia|].
  destruct (isspace c); simpl; lia.
Qed.

Lemma rstrip_length s : (length (rstrip s) <= length s)%nat.
Proof.
  induction s as [|c s IH]; simpl; [lia|].
  destruct (rstrip s); [destruct (isspace c)|]; simpl in *; lia.
Qed.

Lemma collapse_ws_length b s : (length (collapse_ws b s) <= length s)%nat.
Proof.
  revert b. induction s as [|c s IH]; intros b; simpl; [lia|].
  pose proof (IH true). pose proof (IH false).
  destruct (isspace c); [destruct b|]; simpl; lia.
Qed.

Lemma lstrip_fixed_head s c :
  lstrip s = s -> head s = Some c -> isspace c = false.
Proof.
  destruct s as [|c0 s]; simpl; [done|]. intros Hfix [= ->].
  destruct (isspace c) eqn:Hc; [|done].
  pose proof (lstrip_length s) as Hlen. rewrite Hfix in Hlen.
  simpl in Hlen. lia.
Qed.

Lemma rstrip_fixed_last s c :
  rstrip s = s -> last s = Some c -> isspace c = false.
Proof.
  revert c. induction s as [|c0 s IH]; intros c; simpl; [done|].
  destruct (rstrip s) as [|c' r'] eqn:Hr.
  - destruct (isspace c0) eqn:Hc0; [done|]. intros [= <-]. simpl.
    by intros [= <-].
  - intros [= Hs]. rewrite <- Hs. intros Hlast.
    rewrite last_cons_cons in Hlast. apply IH; [by rewrite Hs | ].
    by rewrite <- Hs.
Qed.

End Lengths.

Lemma clean_text_no_control (s : pystr) : no_control (clean_text s).
Proof.
  unfold clean_text, strip. apply rstrip_Forall, lstrip_Forall.
  unfold remove_control, no_control. apply Forall_forall.
  intros c Hc. by apply list_elem_of_filter in Hc as [? _].
Qed.

Lemma clean_text_stripped (s : pystr) : strip (clean_text s) = clean_text s.
Proof. unfold clean_text. apply strip_strip. Qed.

(** X1: whatever the input, the text [clean_text] returns holds no control
    character, no whitespace other than U+0020, neither begins nor ends
    with whitespace (stripping it again changes nothing), and is never
    longer than the input. *)
Theorem clean_text_output_shape (s : pystr) :
  no_control (clean_text s)
  /\ only_spaces (clean_text s)
  /\ strip (clean_text s) = clean_text s
  /\ (forall c, head (clean_text s) = Some c -> isspace c = false)
  /\ (forall c, last (clean_text s) = Some c -> isspace c = false)
  /\ (length (clean_text s) <= length s)%nat.
Proof.
  split; [|split; [|split; [|split; [|split]]]].
  - apply clean_text_no_control.
  - apply clean_text_only_spaces.
  - apply clean_text_stripped.
  - intros c. apply lstrip_fixed_head. unfold clean_text, strip.
    apply lstrip_rstrip_fixed, lstrip_lstrip.
  - intros c. apply rstrip_fixed_last. unfold clean_text, strip.
    apply rstrip_rstrip.
  - unfold clean_text, strip, remove_control.
    etrans; [apply rstrip_length|]. etrans; [apply lstrip_length|].
    etrans; [apply length_filter|]. apply collapse_ws_length.
Qed.

Lemma lstrip_all_space (s : pystr) :
  Forall (fun c => isspace c = true) s -> lstrip s = [].
Proof. induction 1 as [|c s Hc Hs IH]; simpl; [done|]. by rewrite Hc. Qed.

Lemma clean_text_blank (s : pystr) :
  Forall (fun c => visible c = false) s -> clean_text s = [].
Proof.
  intros Hs. pose proof (clean_text_no_control s) as Hctl.
  assert (Forall (fun c => isspace c = true) (clean_text s)) as Hall.
  { apply Forall_forall. intros c Hc.
    assert (visible c = false) as Hv.
    { destruct (visible c) eqn:Hv; [|done].
      assert (c ∈ filter (fun c => visible c = true) (clean_text s)) as Hin
        by by apply list_elem_of_filter.
      rewrite clean_text_keeps_visible in Hin.
      apply list_elem_of_filter in Hin as [_ Hin].
      rewrite Forall_forall in Hs. by rewrite (Hs c Hin) in Hv. }
    unfold no_control in Hctl. rewrite Forall_forall in Hctl.
    specialize (Hctl c Hc). unfold visible in Hv. rewrite Hctl in Hv.
    destruct (isspace c); done. }
  rewrite <- clean_text_stripped. unfold strip.
  by rewrite (lstrip_all_space _ Hall).
Qed.

(** X2: [clean_text] returns the empty string exactly when the input has no
    visible character, that is when every character of it is whitespace or
    a control character. *)
Theorem clean_text_empty_iff (s : pystr) :
  clean_text s = [] <-> Forall (fun c => visible c = false) s.
Proof.
  split; [|apply clean_text_blank].
  intros Hempty. pose proof (clean_text_keeps_visible s) as Hkeep.
  rewrite Hempty in Hkeep. apply Forall_forall. intros c Hc.
  destruct (visible c) eqn:Hv; [|done].
  assert (c ∈ filter (fun c => visible c = true) s) as Hin
    by by apply list_elem_of_filter.
  rewrite <- Hkeep in Hin. by apply elem_of_nil in Hin.
Qed.

(** X3: on text that holds no control character, cleaning twice gives the
    same text as cleaning once. *)
Theorem clean_text_idempotent_on_control_free (s : pystr) :
  no_control s -> clean_text (clean_text s) = clean_text s.
Proof. apply clean_text_idempotent_without_control. Qed.

Lemma clean_text_idempotent_on_control_free_witness :
  clean_text (clean_text (py "  Total:   $10
 incl.	tax "))
  = clean_text (py "  Total:   $10
 incl.	tax ").
Proof.
  apply clean_text_idempotent_on_control_free.
  unfold no_control. repeat constructor.
Defined.

(** ** Identifiers *)

Section Digits.

Lemma py_String a s : py (String a s) = N_of_ascii a :: py s.
Proof. reflexivity. Qed.

Lemma pretty_N_char_digit x :
  x < 10 -> is_digit (N_of_ascii (pretty_N_char x)) = true.
Proof.
  intros Hx.
  assert (x = 0 \/ x = 1 \/ x = 2 \/ x = 3 \/ x = 4 \/ x = 5 \/ x = 6
          \/ x = 7 \/ x = 8 \/ x = 9) as Hcases by lia.
  destruct Hcases as [->|[->|[->|[->|[->|[->|[->|[->|[->| ->]]]]]]]]];
    reflexivity.
Qed.

Lemma pretty_N_char_value x :
  x < 10 -> N_of_ascii (pretty_N_char x) - 0x30 = x.
Proof.
  intros Hx.
  assert (x = 0 \/ x = 1 \/ x = 2 \/ x = 3 \/ x = 4 \/ x = 5 \/ x = 6
          \/ x = 7 \/ x = 8 \/ x = 9) as Hcases by lia.
  destruct Hcases as [->|[->|[->|[->|[->|[->|[->|[->|[->| ->]]]]]]]]];
    reflexivity.
Qed.

Lemma pretty_N_go_digits x s :
  Forall (fun c => is_digit c = true) (py s) ->
  Forall (fun c => is_digit c = true) (py (pretty_N_go x s)).
Proof.
  revert s. induction (N.lt_wf_0 x) as [x _ IH]; intros s Hs.
  destruct (decide (x = 0)) as [->|Hx]; [by rewrite pretty_N_go_0|].
  rewrite pretty_N_go_step by lia. apply IH.
  - apply N.div_lt; lia.
  - rewrite py_String. constructor; [|done].
    apply pretty_N_char_digit. apply N.mod_lt. lia.
Qed.

Lemma str_of_nat_digits n : Forall (fun c => is_digit c = true) (str_of_nat n).
Proof.
  unfold str_of_nat, pretty, pretty_nat, pretty, pretty_N.
  case_decide; [by repeat constructor|].
  apply pretty_N_go_digits. constructor.
Qed.

Lemma pretty_N_go_value x s :
  decimal_value (py (pretty_N_go x s))
  = foldl (fun acc c => 10 * acc + (c - 0x30)) x (py s).
Proof.
  revert s. induction (N.lt_wf_0 x) as [x _ IH]; intros s.
  destruct (decide (x = 0)) as [->|Hx]; [by rewrite pretty_N_go_0|].
  rewrite pretty_N_go_step by lia. rewrite IH by (apply N.div_lt; lia).
  rewrite py_String. simpl. f_equal.
  rewrite pretty_N_char_value by (apply N.mod_lt; lia).
  rewrite (N.div_mod x 10) at 3 by lia. lia.
Qed.

Lemma str_of_nat_value n : decimal_value (str_of_nat n) = N.of_nat n.
Proof.
  unfold str_of_nat, pretty, pretty_nat, pretty, pretty_N.
  case_decide as Hn; [by rewrite Hn|]. by rewrite pretty_N_go_value.
Qed.

Lemma decimal_value_zeros k s :
  decimal_value (replicate k 0x30 ++ s) = decimal_value s.
Proof.
  unfold decimal_value. rewrite foldl_app. f_equal.
  induction k as [|k IH]; [done|]. simpl. exact IH.
Qed.

Lemma str_of_nat_inj i j : str_of_nat i = str_of_nat j -> i = j.
Proof.
  intros Heq. apply (f_equal decimal_value) in Heq.
  rewrite !str_of_nat_value in Heq. lia.
Qed.

(** A run of digits is delimited by the first character that is not one. *)
Lemma digits_delimited (a b x y : pystr) c :
  is_digit c = false ->
  Forall (fun d => is_digit d = true) a ->
  Forall (fun d => is_digit d = true) b ->
  a ++ c :: x = b ++ c :: y -> a = b /\ x = y.
Proof.
  intros Hc Ha. revert b. induction Ha as [|d a Hd Ha IH]; intros b Hb Heq.
  - destruct Hb as [|d' b Hd' Hb]; simpl in *; [by injection Heq|].
    injection Heq as -> _. congruence.
  - destruct Hb as [|d' b Hd' Hb]; simpl in *.
    + injection Heq as -> _. congruence.
    + injection Heq as -> Heq. destruct (IH b Hb Heq) as [-> ->]. done.
Qed.

End Digits.

Section ChunkIds.

Lemma bytes_of_word_length n w : length (MD5.bytes_of_word n w) = n.
Proof.
  revert w. induction n as [|n IH]; intros w; simpl; [done|]. by rewrite IH.
Qed.

Lemma bytes_of_word_bound n w :
  Forall (fun b => b < 256) (MD5.bytes_of_word n w).
Proof.
  revert w. induction n as [|n IH]; intros w; simpl; constructor.
  - apply N.mod_lt. lia.
  - apply IH.
Qed.

Lemma digest_length msg : length (MD5.digest msg) = 16%nat.
Proof.
  unfold MD5.digest. destruct (MD5.blocks _ _ _) as [[[a b] c] d].
  by rewrite !length_app, !bytes_of_word_length.
Qed.

Lemma digest_bound msg : Forall (fun b => b < 256) (MD5.digest msg).
Proof.
  unfold MD5.digest. destruct (MD5.blocks _ _ _) as [[[a b] c] d].
  rewrite !Forall_app. repeat split; apply bytes_of_word_bound.
Qed.

Lemma hex_digit_lower_hex n : n < 16 -> is_lower_hex (hex_digit n) = true.
Proof.
  intros Hn. unfold hex_digit, is_lower_hex, is_digit.
  destruct (n <? 10) eqn:Hlt.
  - apply N.ltb_lt in Hlt. apply orb_true_iff. left.
    apply andb_true_iff. split; apply N.leb_le; lia.
  - apply N.ltb_ge in Hlt. apply orb_true_iff. right.
    apply andb_true_iff. split; apply N.leb_le; lia.
Qed.

Lemma hexdigest_length msg : length (MD5.hexdigest msg) = 32%nat.
Proof.
  unfold MD5.hexdigest. pose proof (digest_length msg) as Hlen.
  destruct (MD5.digest msg) as [|b0 [|b1 [|b2 [|b3 [|b4 [|b5 [|b6 [|b7
    [|b8 [|b9 [|b10 [|b11 [|b12 [|b13 [|b14 [|b15 [|]]]]]]]]]]]]]]]]];
    simpl in Hlen; try lia. reflexivity.
Qed.

Lemma hexdigest_lower_hex msg :
  Forall (fun c => is_lower_hex c = true) (MD5.hexdigest msg).
Proof.
  unfold MD5.hexdigest. pose proof (digest_bound msg) as Hb.
  induction Hb as [|b bs Hb Hbs IH]; [constructor|].
  rewrite bind_cons. apply Forall_app. split; [|exact IH].
  repeat constructor; apply hex_digit_lower_hex.
  - apply N.Div0.div_lt_upper_bound. lia.
  - apply N.mod_lt. lia.
Qed.

Lemma encode_from_Ok pos s :
  Forall (fun c => is_surrogate c = false) s ->
  exists bs, encode_from pos s = Ok bs.
Proof.
  intros Hs. revert pos. induction Hs as [|c s Hc Hs IH]; intros pos; simpl.
  - by exists [].
  - rewrite Hc. destruct (IH (S pos)) as [bs ->]. simpl. eauto.
Qed.

Lemma encode_from_Raise pos s :
  Exists (fun c => is_surrogate c = true) s ->
  exists e, encode_from pos s = Raise e /\ exn_class e = UnicodeEncodeError.
Proof.
  intros Hs. revert pos. induction s as [|c s IH]; intros pos.
  - by apply Exists_nil in Hs.
  - simpl. destruct (is_surrogate c) eqn:Hc; [eauto|].
    apply Exists_cons in Hs as [Hs|Hs]; [congruence|].
    destruct (IH Hs (S pos)) as (e & -> & He). simpl. eauto.
Qed.

Lemma encode_from_Raise_class pos s e :
  encode_from pos s = Raise e -> exn_class e = UnicodeEncodeError.
Proof.
  revert pos. induction s as [|c s IH]; intros pos; simpl; [done|].
  destruct (is_surrogate c); [by intros [= <-]|].
  destruct (encode_from (S pos) s) eqn:Hr; simpl; [done|].
  intros [= <-]. by eapply IH.
Qed.

Lemma generate_chunk_id_Ok text index chunk_id :
  generate_chunk_id text index = Ok chunk_id ->
  exists h,
    chunk_id = py "chunk_" ++ str_of_nat index ++ py "_" ++ h
    /\ length h = 8%nat
    /\ Forall (fun c => is_lower_hex c = true) h.
Proof.
  unfold generate_chunk_id, encode.
  destruct (encode_from 0 text) as [bs|]; simpl; [|done].
  intros [= <-]. exists (take 8 (MD5.hexdigest bs)).
  split; [done|]. split.
  - rewrite length_take, hexdigest_length. lia.
  - apply Forall_take, hexdigest_lower_hex.
Qed.

Lemma generate_chunk_id_index text text' i j chunk_id :
  generate_chunk_id text i = Ok chunk_id ->
  generate_chunk_id text' j = Ok chunk_id -> i = j.
Proof.
  intros Hi Hj.
  apply generate_chunk_id_Ok in Hi as (h & -> & _).
  apply generate_chunk_id_Ok in Hj as (h' & Heq & _).
  apply app_inv_head in Heq.
  apply (digits_delimited _ _ _ _ 0x5F) in Heq as [Heq _];
    [| done | apply str_of_nat_digits..].
  symmetry. by apply str_of_nat_inj.
Qed.

End ChunkIds.

(** X4: [generate_chunk_id] succeeds exactly on text without surrogate code
    points.  It then returns ["chunk_"], the index in decimal, an underscore
    and eight lower-case hexadecimal digits; on text that holds a surrogate
    it raises [UnicodeEncodeError]. *)
Theorem generate_chunk_id_result (text : pystr) (index : nat) :
  (Forall (fun c => is_surrogate c = false) text ->
   exists h,
     generate_chunk_id text index
     = Ok (py "chunk_" ++ str_of_nat index ++ py "_" ++ h)
     /\ length h = 8%nat
     /\ Forall (fun c => is_lower_hex c = true) h)
  /\ (Exists (fun c => is_surrogate c = true) text ->
      exists e,
        generate_chunk_id text index = Raise e
        /\ exn_class e = UnicodeEncodeError).
Proof.
  split.
  - intros Hs. destruct (encode_from_Ok 0 text Hs) as [bs Hbs].
    destruct (generate_chunk_id text index) as [chunk_id|e] eqn:Hid.
    + destruct (generate_chunk_id_Ok _ _ _ Hid) as (h & -> & Hlen & Hhex).
      eauto.
    + unfold generate_chunk_id, encode in Hid. by rewrite Hbs in Hid.
  - intros Hs. destruct (encode_from_Raise 0 text Hs) as (e & He & Hclass).
    exists e. unfold generate_chunk_id, encode. by rewrite He.
Qed.

Lemma generate_chunk_id_result_witness :
  (exists h,
     generate_chunk_id (py "SAVE15: 15% discount") 3
     = Ok (py "chunk_" ++ str_of_nat 3 ++ py "_" ++ h)
     /\ length h = 8%nat
     /\ Forall (fun c => is_lower_hex c = true) h)
  /\ (exists e,
        generate_chunk_id [0x61; 0xD800] 0 = Raise e
        /\ exn_class e = UnicodeEncodeError).
Proof.
  split.
  - apply (proj1 (generate_chunk_id_result (py "SAVE15: 15% discount") 3)).
    repeat constructor.
  - apply (proj2 (generate_chunk_id_result [0x61; 0xD800] 0)).
    right. by left.
Defined.

(** X5: the chunks of one document get pairwise distinct identifiers: the
    index is part of the identifier and can be read back from it, so two
    positions of the same document never share an identifier even when
    their texts are equal. *)
Theorem chunk_ids_distinct_within_document `{Collaborators}
    (doc : Document.t) (entries : list VectorStore.Entry) :
  VectorStore.document_entries doc = Ok entries ->
  NoDup (VectorStore.entry_id <$> entries)
  /\ forall i j e1 e2,
       entries !! i = Some e1 -> entries !! j = Some e2 ->
       VectorStore.entry_id e1 = VectorStore.entry_id e2 -> i = j.
Proof.
  intros Hentries.
  assert (forall i j e1 e2,
    entries !! i = Some e1 -> entries !! j = Some e2 ->
    VectorStore.entry_id e1 = VectorStore.entry_id e2 -> i = j) as Hinj.
  { intros i j e1 e2 H1 H2 Heq.
    destruct (document_entries_lookup _ _ _ _ Hentries H1)
      as (_ & _ & _ & Hid1 & _).
    destruct (document_entries_lookup _ _ _ _ Hentries H2)
      as (_ & _ & _ & Hid2 & _).
    rewrite Heq in Hid1. by eapply generate_chunk_id_index. }
  split; [|exact Hinj].
  apply NoDup_alt. intros i j x Hi Hj.
  rewrite list_lookup_fmap in Hi, Hj.
  destruct (entries !! i) as [e1|] eqn:H1; [|done].
  destruct (entries !! j) as [e2|] eqn:H2; [|done].
  simpl in *. injection Hi as Hi. injection Hj as Hj.
  apply (Hinj i j e1 e2); congruence.
Qed.

Lemma chunk_ids_distinct_within_document_witness :
  NoDup (VectorStore.entry_id <$> Examples.entries_of Examples.product_specs).
Proof.
  refine (proj1
    (@chunk_ids_distinct_within_document (Examples.collaborators [])
       Examples.product_specs (Examples.entries_of Examples.product_specs) _)).
  vm_compute. reflexivity.
Defined.

Lemma generate_test_id_short :
  forallb (fun i => (length (generate_test_id i) =? 6)%nat) (seq 0 1000) = true.
Proof. vm_compute. reflexivity. Qed.

Lemma generate_test_id_digits i :
  generate_test_id i
  = py "TC-" ++ replicate (3 - length (str_of_nat i)) 0x30 ++ str_of_nat i.
Proof. reflexivity. Qed.

(** X6: [generate_test_id], for a non-negative index, returns ["TC-"]
    followed by at least three decimal digits whose value is the index;
    distinct indices give distinct identifiers, and an index below 1000
    gives exactly six characters. *)
Theorem generate_test_id_round_trip (index : nat) :
  (exists digits,
      generate_test_id index = py "TC-" ++ digits
      /\ Forall (fun c => is_digit c = true) digits
      /\ (3 <= length digits)%nat
      /\ decimal_value digits = N.of_nat index)
  /\ (forall other, generate_test_id index = generate_test_id other ->
      index = other)
  /\ ((index < 1000)%nat -> length (generate_test_id index) = 6%nat).
Proof.
  assert (forall i,
    decimal_value (drop 3 (generate_test_id i)) = N.of_nat i) as Hvalue.
  { intros i. rewrite generate_test_id_digits.
    change (drop 3 (py "TC-" ++ ?x)) with x.
    by rewrite decimal_value_zeros, str_of_nat_value. }
  split; [|split].
  - exists (drop 3 (generate_test_id index)). split; [done|].
    split; [|split; [|apply Hvalue]].
    + rewrite generate_test_id_digits.
      change (drop 3 (py "TC-" ++ ?x)) with x. apply Forall_app. split.
      * apply Forall_replicate. reflexivity.
      * apply str_of_nat_digits.
    + rewrite generate_test_id_digits.
      change (drop 3 (py "TC-" ++ ?x)) with x.
      rewrite length_app, length_replicate. lia.
  - intros other Heq.
    apply (f_equal (fun s => decimal_value (drop 3 s))) in Heq.
    rewrite !Hvalue in Heq. lia.
  - intros Hlt. pose proof generate_test_id_short as Hall.
    rewrite forallb_forall in Hall.
    specialize (Hall index). apply Nat.eqb_eq, Hall.
    apply list_elem_of_In, elem_of_seq. lia.
Qed.

Lemma generate_test_id_round_trip_witness :
  length (generate_test_id 42) = 6%nat.
Proof.
  apply (proj2 (proj2 (generate_test_id_round_trip 42))). lia.
Defined.

(** ** Ingestion: what a batch holds *)

Section PreparedChunks.
Context `{Collaborators} `{VectorBackend}.
Import VectorStore.

Lemma for_each_Ok_fmap {A B C} (f : A -> result B) (g : B -> C) (h : A -> C)
    xs ys :
  (forall x y, f x = Ok y -> g y = h x) ->
  for_each f xs = Ok ys -> g <$> ys = h <$> xs.
Proof.
  intros Hfg. revert ys. induction xs as [|x xs IH]; intros ys Hrun.
  - by injection Hrun as <-.
  - rewrite for_each_cons in Hrun.
    destruct (f x) as [y|] eqn:Hx; [|done].
    destruct (for_each f xs) as [ys0|] eqn:Hxs; [|done].
    injection Hrun as <-. rewrite !fmap_cons. f_equal; [by apply Hfg|].
    by apply IH.
Qed.

Lemma document_entries_chunks doc entries :
  document_entries doc = Ok entries ->
  entry_chunk <$> entries = Ingest.document_chunks doc.
Proof.
  unfold document_entries, Ingest.document_chunks.
  destruct (Document.content doc) as [[|c0 content]|];
    try by intros [= <-].
  intros Hrun.
  apply (for_each_Ok_fmap _ entry_chunk snd) in Hrun.
  - rewrite Hrun. unfold enumerate. rewrite fmap_imap.
    rewrite (imap_ext _ (const id)) by done.
    by rewrite imap_const, list_fmap_id.
  - intros [i chunk] e. destruct (generate_chunk_id chunk i); [|done].
    by intros [= <-].
Qed.

Lemma prepare_batch_chunks documents batch :
  prepare_batch documents = Ok batch ->
  entry_chunk <$> batch = concat (Ingest.document_chunks <$> documents).
Proof.
  unfold prepare_batch.
  destruct (for_each document_entries documents) as [per_doc|] eqn:Hall;
    [|done].
  intros [= <-]. revert per_doc Hall.
  induction documents as [|doc documents IH]; intros per_doc Hall.
  - by injection Hall as <-.
  - rewrite for_each_cons in Hall.
    destruct (document_entries doc) as [entries|] eqn:Hdoc; [|done].
    destruct (for_each document_entries documents) as [rest|] eqn:Hrest;
      [|done].
    injection Hall as <-. simpl. rewrite fmap_app.
    f_equal; [by apply document_entries_chunks | by apply IH].
Qed.

End PreparedChunks.

Section EmptyAndFailingBatches.
Context `{Collaborators} `{VectorBackend}.
Import VectorStore.

Lemma document_entries_nothing doc :
  Ingest.document_chunks doc = [] -> document_entries doc = Ok [].
Proof.
  unfold document_entries, Ingest.document_chunks.
  destruct (Document.content doc) as [[|c0 content]|]; try done.
  by intros ->.
Qed.

Lemma prepare_batch_nothing documents :
  (forall doc, doc ∈ documents -> Ingest.document_chunks doc = []) ->
  prepare_batch documents = Ok [].
Proof.
  unfold prepare_batch. intros Hall.
  assert (for_each document_entries documents
          = Ok (replicate (length documents) [])) as ->.
  { induction documents as [|doc documents IH]; [done|].
    rewrite for_each_cons, document_entries_nothing
      by (apply Hall; by left).
    rewrite IH by (intros d Hd; apply Hall; by right). done. }
  simpl. f_equal. induction (length documents) as [|n IH]; [done|].
  simpl. exact IH.
Qed.

Lemma document_entries_Raise doc e :
  document_entries doc = Raise e -> exn_class e = UnicodeEncodeError.
Proof.
  unfold document_entries.
  destruct (Document.content doc) as [[|c0 content]|]; try done.
  generalize (enumerate (split_text (c0 :: content))).
  intros l. induction l as [|[i chunk] l IH]; [done|].
  rewrite for_each_cons.
  destruct (generate_chunk_id chunk i) as [chunk_id|e'] eqn:Hid; simpl.
  - destruct (for_each _ l) as [|e'']; [done|]. intros [= <-]. by apply IH.
  - intros [= <-]. unfold generate_chunk_id, encode in Hid.
    destruct (encode_from 0 chunk) as [bs|e''] eqn:Henc; simpl in Hid; [done|].
    injection Hid as <-. by eapply encode_from_Raise_class.
Qed.

Lemma document_entries_surrogate doc content chunk :
  Document.content doc = Some content -> content <> [] ->
  chunk ∈ split_text content ->
  Exists (fun c => is_surrogate c = true) chunk ->
  exists e, document_entries doc = Raise e.
Proof.
  intros Hcontent Hne Hchunk Hsur.
  destruct (document_entries doc) as [entries|e] eqn:Hrun; [|eauto].
  exfalso. unfold document_entries in Hrun. rewrite Hcontent in Hrun.
  destruct content as [|c0 content]; [done|].
  apply list_elem_of_lookup in Hchunk as [i Hi].
  assert (enumerate (split_text (c0 :: content)) !! i = Some (i, chunk))
    as Hi' by by apply enumerate_lookup.
  apply list_elem_of_lookup_2 in Hi'.
  destruct (for_each_Ok_elem _ _ _ _ Hrun Hi') as (e & _ & He).
  destruct (encode_from_Raise 0 chunk Hsur) as (err & Herr & _).
  unfold generate_chunk_id, encode in He. by rewrite Herr in He.
Qed.

Lemma for_each_Raise_elem {A B} (f : A -> result B) xs x e0 :
  x ∈ xs -> f x = Raise e0 ->
  exists x' e, x' ∈ xs /\ f x' = Raise e /\ for_each f xs = Raise e.
Proof.
  intros Hin Hx. induction xs as [|x0 xs IH]; [by apply elem_of_nil in Hin|].
  rewrite for_each_cons. destruct (f x0) as [y|e] eqn:Hx0.
  - apply elem_of_cons in Hin as [->|Hin]; [congruence|].
    destruct (IH Hin) as (x' & e & Hx' & He & ->).
    exists x', e. split; [by right | done].
  - exists x0, e. split; [by left | done].
Qed.

End EmptyAndFailingBatches.

(** X7: when no document contributes a chunk (each has no content, empty
    content, or content the splitter yields nothing for; the empty list of
    documents included), [add_documents] returns the failure
    ["No valid content to process"] with both totals 0 and leaves the
    collection as it was, whatever the embedding model and the backend
    would do. *)
Theorem add_documents_without_content `{Collaborators} `{VectorBackend}
    (documents : list Document.t) (c : collection) :
  (forall doc, doc ∈ documents -> Ingest.document_chunks doc = []) ->
  VectorStore.add_documents documents c
  = Ok ({| VectorStore.success := false;
           VectorStore.message := py "No valid content to process";
           VectorStore.total_chunks := 0;
           VectorStore.total_documents := 0 |}, c).
Proof.
  intros Hall. unfold VectorStore.add_documents.
  by rewrite prepare_batch_nothing.
Qed.

Lemma add_documents_without_content_witness :
  Examples.ingest
    [ {| Document.content := None; Document.metadata := None |};
      {| Document.content := Some []; Document.metadata := None |} ] []
  = Ok ({| VectorStore.success := false;
           VectorStore.message := py "No valid content to process";
           VectorStore.total_chunks := 0;
           VectorStore.total_documents := 0 |}, []).
Proof.
  apply (@add_documents_without_content
           (Examples.collaborators []) Reference.backend).
  intros doc Hdoc.
  apply elem_of_cons in Hdoc as [->|Hdoc]; [reflexivity|].
  apply elem_of_cons in Hdoc as [->|Hdoc]; [reflexivity|].
  by apply elem_of_nil in Hdoc.
Defined.

(** X8: a call of [add_documents] that returns either is the failure with
    totals 0 and an untouched collection, there being no chunk at all, or
    is a success in which [total_chunks] is the number of chunks of all
    documents, [total_documents] is the number of documents passed in
    (those skipped for having no content included), and the backend
    received, in one [collection.add], the chunks of the documents in
    order with one identifier and one metadata record each. *)
Theorem add_documents_accounting `{Collaborators} `{VectorBackend}
    (documents : list Document.t) (c c' : collection)
    (r : VectorStore.AddResult) :
  VectorStore.add_documents documents c = Ok (r, c') ->
  (VectorStore.success r = false
   /\ c' = c
   /\ concat (Ingest.document_chunks <$> documents) = []
   /\ VectorStore.total_chunks r = 0%nat
   /\ VectorStore.total_documents r = 0%nat)
  \/ (VectorStore.success r = true
      /\ VectorStore.message r = py "Documents added successfully"
      /\ VectorStore.total_documents r = length documents
      /\ VectorStore.total_chunks r
         = length (concat (Ingest.document_chunks <$> documents))
      /\ (0 < VectorStore.total_chunks r)%nat
      /\ exists batch embeddings,
           VectorStore.prepare_batch documents = Ok batch
           /\ VectorStore.entry_chunk <$> batch
              = concat (Ingest.document_chunks <$> documents)
           /\ embed_batch (VectorStore.entry_chunk <$> batch) = Ok embeddings
           /\ collection_add (VectorStore.entry_id <$> batch) embeddings
                (VectorStore.entry_chunk <$> batch)
                (VectorStore.entry_metadata <$> batch) c = Ok c').
Proof.
  unfold VectorStore.add_documents.
  destruct (VectorStore.prepare_batch documents) as [batch|] eqn:Hbatch;
    [|done].
  pose proof (prepare_batch_chunks _ _ Hbatch) as Hchunks.
  cbn [mbind result_bind]. case_decide as Hnone.
  - intros [= <- <-]. left. by rewrite <- Hchunks.
  - destruct (embed_batch _) as [embeddings|] eqn:Hembed; [|done].
    cbn [mbind result_bind].
    destruct (collection_add _ _ _ _ c) as [c1|] eqn:Hadd; [|done].
    cbn [mbind result_bind]. intros [= <- <-]. right.
    cbn [VectorStore.success VectorStore.message VectorStore.total_chunks
         VectorStore.total_documents].
    split; [done|]. split; [done|]. split; [done|].
    split; [by rewrite <- Hchunks, length_fmap|].
    split.
    { destruct batch; [done | simpl; lia]. }
    exists batch, embeddings. by rewrite Hembed.
Qed.

Lemma add_documents_accounting_witness :
  VectorStore.total_documents Examples.ingest_result = 1%nat
  /\ VectorStore.total_chunks Examples.ingest_result = 2%nat.
Proof.
  destruct (@add_documents_accounting
              (Examples.collaborators []) Reference.backend
              [Examples.product_specs] [] Examples.ingested
              Examples.ingest_result)
    as [(Hfalse & _)|(_ & _ & Hdocs & Hchunks & _)].
  - vm_compute. reflexivity.
  - vm_compute in Hfalse. discriminate.
  - split; [exact Hdocs|]. rewrite Hchunks. vm_compute. reflexivity.
Defined.

(** X9: one chunk that holds a surrogate code point makes the whole
    [add_documents] call raise [UnicodeEncodeError] instead of returning a
    result: the other documents of the batch are not added either. *)
Theorem add_documents_rejects_surrogates `{Collaborators} `{VectorBackend}
    (documents : list Document.t) (c : collection) (doc : Document.t)
    (content chunk : list N) :
  doc ∈ documents ->
  Document.content doc = Some content -> content <> [] ->
  chunk ∈ split_text content ->
  Exists (fun ch => is_surrogate ch = true) chunk ->
  exists e,
    VectorStore.add_documents documents c = Raise e
    /\ exn_class e = UnicodeEncodeError.
Proof.
  intros Hdoc Hcontent Hne Hchunk Hsur.
  destruct (document_entries_surrogate doc content chunk) as [e0 He0];
    try done.
  destruct (for_each_Raise_elem _ _ _ _ Hdoc He0) as (doc' & e & _ & He & Hrun).
  exists e. split; [|by eapply document_entries_Raise].
  unfold VectorStore.add_documents, VectorStore.prepare_batch.
  by rewrite Hrun.
Qed.

Lemma add_documents_rejects_surrogates_witness :
  exists e,
    Examples.ingest
      [Examples.product_specs;
       {| Document.content := Some [0x61; 0xDC00; 0x62];
          Document.metadata := None |}] []
    = Raise e
    /\ exn_class e = UnicodeEncodeError.
Proof.
  apply (@add_documents_rejects_surrogates
           (Examples.collaborators []) Reference.backend _ _
           {| Document.content := Some [0x61; 0xDC00; 0x62];
              Document.metadata := None |}
           [0x61; 0xDC00; 0x62] [0x61; 0xDC00; 0x62]).
  - right. by left.
  - reflexivity.
  - discriminate.
  - vm_compute. by left.
  - right. by left.
Defined.

(** X10: the metadata [add_documents] prepares for the chunk at position
    [i] of a document has [chunk_index = i] and [total_chunks] the number of
    chunks of that document, so that [chunk_index < total_chunks]; its
    [source_document] is the document's file name, or ["unknown"], and
    [file_type] and [file_size] default to the empty string and to 0. *)
Theorem stored_metadata_positions `{Collaborators} (doc : Document.t)
    (entries : list VectorStore.Entry) :
  VectorStore.document_entries doc = Ok entries ->
  forall i e,
    entries !! i = Some e ->
    Metadata.chunk_index (VectorStore.entry_metadata e) = i
    /\ Metadata.total_chunks (VectorStore.entry_metadata e) = length entries
    /\ (Metadata.chunk_index (VectorStore.entry_metadata e)
        < Metadata.total_chunks (VectorStore.entry_metadata e))%nat
    /\ Metadata.source_document (VectorStore.entry_metadata e)
       = Some (default (py "unknown")
                 (Document.metadata doc ≫= Document.filename))
    /\ Metadata.file_type (VectorStore.entry_metadata e)
       = default [] (Document.metadata doc ≫= Document.file_type)
    /\ Metadata.file_size (VectorStore.entry_metadata e)
       = default 0%Z (Document.metadata doc ≫= Document.file_size).
Proof.
  intros Hrun i e He. pose proof Hrun as Hrun'.
  unfold VectorStore.document_entries in Hrun.
  destruct (Document.content doc) as [[|c0 content]|] eqn:Hcontent;
    try (injection Hrun as <-; by rewrite lookup_nil in He).
  pose proof (for_each_Ok_length _ _ _ Hrun) as Hlen.
  unfold enumerate in Hlen. rewrite length_imap in Hlen.
  destruct (for_each_Ok_lookup _ _ _ _ _ Hrun He) as ([j chunk] & Hj & Hf).
  apply enumerate_lookup in Hj as [-> Hchunk].
  destruct (generate_chunk_id chunk i) as [chunk_id|]; [|done].
  injection Hf as <-.
  cbn [VectorStore.entry_metadata create_metadata_dict Metadata.chunk_index
       Metadata.total_chunks Metadata.source_document Metadata.file_type
       Metadata.file_size].
  rewrite <- Hlen. apply lookup_lt_Some in He. by repeat split.
Qed.

Lemma stored_metadata_positions_witness :
  exists e,
    Examples.entries_of Examples.product_specs !! 1%nat = Some e
    /\ Metadata.chunk_index (VectorStore.entry_metadata e) = 1%nat
    /\ Metadata.total_chunks (VectorStore.entry_metadata e) = 2%nat.
Proof.
  destruct (Examples.entries_of Examples.product_specs !! 1%nat) as [e|]
    eqn:He; [|vm_compute in He; discriminate].
  exists e. split; [done|].
  destruct (@stored_metadata_positions (Examples.collaborators [])
              Examples.product_specs
              (Examples.entries_of Examples.product_specs)
              ltac:(vm_compute; reflexivity) 1%nat e He)
    as (Hindex & Htotal & _).
  split; [exact Hindex|]. rewrite Htotal. vm_compute. reflexivity.
Defined.

(** X11: files without a visible character contribute nothing to the
    index.  The markdown and the text parser return the empty string for
    them, [add_documents] prepares no entry for such a document, and a batch
    made of such documents only is answered with the failure
    ["No valid content to process"], the collection left as it was. *)
Theorem blank_files_contribute_nothing `{Collaborators} `{VectorBackend}
    (documents : list Document.t) (c : collection) :
  (forall doc,
      doc ∈ documents ->
      exists raw,
        Forall (fun ch => visible ch = false) raw
        /\ (Document.content doc = Some (_parse_markdown raw)
            \/ Document.content doc = Some (_parse_text raw))) ->
  (forall doc entries,
      doc ∈ documents ->
      VectorStore.document_entries doc = Ok entries -> entries = [])
  /\ VectorStore.add_documents documents c
     = Ok ({| VectorStore.success := false;
              VectorStore.message := py "No valid content to process";
              VectorStore.total_chunks := 0;
              VectorStore.total_documents := 0 |}, c).
Proof.
  intros Hblank.
  assert (forall doc, doc ∈ documents -> Ingest.document_chunks doc = [])
    as Hnothing.
  { intros doc Hdoc. destruct (Hblank doc Hdoc) as (raw & Hraw & Hcontent).
    unfold Ingest.document_chunks, _parse_markdown, _parse_text in *.
    rewrite (clean_text_blank raw Hraw) in Hcontent.
    by destruct Hcontent as [-> | ->]. }
  split.
  - intros doc entries Hdoc Hentries.
    rewrite (document_entries_nothing doc (Hnothing doc Hdoc)) in Hentries.
    by injection Hentries.
  - unfold VectorStore.add_documents.
    by rewrite prepare_batch_nothing.
Qed.

Lemma blank_files_contribute_nothing_witness :
  Examples.ingest
    [ {| Document.content := Some (_parse_markdown (py "
   	
"));
         Document.metadata := None |} ] Examples.ingested
  = Ok ({| VectorStore.success := false;
           VectorStore.message := py "No valid content to process";
           VectorStore.total_chunks := 0;
           VectorStore.total_documents := 0 |}, Examples.ingested).
Proof.
  refine (proj2
    (@blank_files_contribute_nothing (Examples.collaborators [])
       Reference.backend _ Examples.ingested _)).
  intros doc Hdoc. apply list_elem_of_singleton in Hdoc as ->.
  exists (py "
   	
"). split; [by repeat constructor | by left].
Defined.

(** ** Retrieval: the rows of the backend *)

(** X12: the matches [query] returns follow the backend's first result row
    position by position: match [i] carries the document text and the
    metadata at position [i], and its [source_document] is the one of that
    metadata, or ["unknown"] when the metadata has none. *)
Theorem query_matches_follow_backend_rows `{Collaborators} `{VectorBackend}
    (query_text : list N) (n_results : option Z)
    (filter_dict : option pydict) (c : collection) (e : list float)
    (results : QueryResult.t) (matches : list Chunk.t) :
  embed_text query_text = Ok e ->
  collection_query [e] (default settings.TOP_K_RESULTS n_results)
    filter_dict c = Ok results ->
  VectorStore.query query_text n_results filter_dict c = Ok matches ->
  forall i m,
    matches !! i = Some m ->
    exists documents0 metadatas0,
      QueryResult.documents results !! 0%nat = Some documents0
      /\ documents0 !! i = Some (Chunk.text m)
      /\ QueryResult.metadatas results !! 0%nat = Some metadatas0
      /\ metadatas0 !! i = Some (Chunk.metadata m)
      /\ Chunk.source_document m
         = default (py "unknown")
             (Metadata.source_document (Chunk.metadata m)).
Proof.
  intros He Hq Hrun i m Hm. unfold VectorStore.query in Hrun.
  rewrite He in Hrun. simpl in Hrun. rewrite Hq in Hrun. simpl in Hrun.
  destruct (QueryResult.ids results) as [|ids0 rest].
  { injection Hrun as <-. by rewrite lookup_nil in Hm. }
  case_decide.
  2:{ injection Hrun as <-. by rewrite lookup_nil in Hm. }
  destruct (for_each_Ok_lookup _ _ _ _ _ Hrun Hm) as (j & Hj & Hbody).
  apply lookup_seq in Hj as [-> _]. simpl in Hbody.
  destruct (index (QueryResult.documents results) 0) as [documents0|]
    eqn:Hdoc0; [simpl in Hbody|done].
  destruct (index documents0 i) as [text|] eqn:Hdoc; [simpl in Hbody|done].
  destruct (index (QueryResult.metadatas results) 0) as [metadatas0|]
    eqn:Hmeta0; [simpl in Hbody|done].
  destruct (index metadatas0 i) as [metadata|] eqn:Hmeta;
    [simpl in Hbody|done].
  destruct (index (QueryResult.distances results) 0) as [distances0|];
    [simpl in Hbody|done].
  destruct (index distances0 i) as [distance|]; [|done].
  injection Hbody as <-. apply index_Ok in Hdoc0, Hdoc, Hmeta0, Hmeta.
  exists documents0, metadatas0. by repeat split.
Qed.

Lemma query_matches_follow_backend_rows_witness :
  exists m documents0 metadatas0,
    Examples.discount_matches !! 0%nat = Some m
    /\ QueryResult.documents Examples.discount_results !! 0%nat
       = Some documents0
    /\ documents0 !! 0%nat = Some (Chunk.text m)
    /\ QueryResult.metadatas Examples.discount_results !! 0%nat
       = Some metadatas0
    /\ metadatas0 !! 0%nat = Some (Chunk.metadata m)
    /\ Chunk.source_document m = py "product_specs.md".
Proof.
  destruct (Examples.discount_matches !! 0%nat) as [m|] eqn:Hm;
    [|vm_compute in Hm; discriminate].
  destruct (@query_matches_follow_backend_rows
              (Examples.collaborators []) Reference.backend
              (py "discount code") None None Examples.ingested
              (Examples.embedding (py "discount code"))
              Examples.discount_results Examples.discount_matches eq_refl
              ltac:(vm_compute; reflexivity) ltac:(vm_compute; reflexivity)
              0%nat m Hm)
    as (documents0 & metadatas0 & Hd0 & Hd & Hm0 & Hmeta & Hsource).
  exists m, documents0, metadatas0. repeat (split; [done|]).
  vm_compute in Hm. injection Hm as <-. reflexivity.
Defined.

Lemma for_each_Raise_inv {A B} (f : A -> result B) xs e :
  for_each f xs = Raise e -> exists x, x ∈ xs /\ f x = Raise e.
Proof.
  induction xs as [|x xs IH]; [done|]. rewrite for_each_cons.
  destruct (f x) as [y|e'] eqn:Hx.
  - destruct (for_each f xs) as [ys|e'']; [done|]. intros [= <-].
    destruct (IH eq_refl) as (x' & Hx' & He). exists x'.
    split; [by right | done].
  - intros [= <-]. exists x. split; [by left | done].
Qed.

(** X13: [query] reads the document, the metadata and the distance of
    every identifier of the backend's first row.  When one of these three
    rows is shorter than the row of identifiers, it raises
    [IndexError: list index out of range] and returns no match at all. *)
Theorem query_needs_complete_rows `{Collaborators} `{VectorBackend}
    (query_text : list N) (n_results : option Z)
    (filter_dict : option pydict) (c : collection) (e : list float)
    (results : QueryResult.t) (ids0 : list (list N)) :
  embed_text query_text = Ok e ->
  collection_query [e] (default settings.TOP_K_RESULTS n_results)
    filter_dict c = Ok results ->
  QueryResult.ids results !! 0%nat = Some ids0 ->
  (length (default [] (QueryResult.documents results !! 0%nat))
     < length ids0
   \/ length (default [] (QueryResult.metadatas results !! 0%nat))
      < length ids0
   \/ length (default [] (QueryResult.distances results !! 0%nat))
      < length ids0)%nat ->
  VectorStore.query query_text n_results filter_dict c
  = Raise (Exn IndexError (py "list index out of range")).
Proof.
  intros He Hq Hids Hshort. unfold VectorStore.query.
  rewrite He. cbn [mbind result_bind]. rewrite Hq. cbn [mbind result_bind].
  destruct (QueryResult.ids results) as [|ids rest]; [done|].
  injection Hids as ->.
  assert (length ids0 <> 0)%nat as Hne by lia.
  rewrite decide_True by lia.
  set (body := fun i : nat => _).
  assert (forall i m, body i = Ok m ->
    (i < length (default [] (QueryResult.documents results !! 0%nat))
     /\ i < length (default [] (QueryResult.metadatas results !! 0%nat))
     /\ i < length (default [] (QueryResult.distances results !! 0%nat)))%nat)
    as Hok.
  { intros i m. unfold body, index.
    destruct (QueryResult.documents results !! 0%nat) as [documents0|];
      cbn [mbind result_bind]; [|done].
    destruct (documents0 !! i) eqn:Hd; cbn [mbind result_bind]; [|done].
    destruct (QueryResult.metadatas results !! 0%nat) as [metadatas0|];
      cbn [mbind result_bind]; [|done].
    destruct (metadatas0 !! i) eqn:Hm; cbn [mbind result_bind]; [|done].
    destruct (QueryResult.distances results !! 0%nat) as [distances0|];
      cbn [mbind result_bind]; [|done].
    destruct (distances0 !! i) eqn:Hx; cbn [mbind result_bind]; [|done].
    intros _. apply lookup_lt_Some in Hd, Hm, Hx. done. }
  assert (forall i err, body i = Raise err ->
    err = Exn IndexError (py "list index out of range")) as Hraise.
  { intros i err. unfold body, index.
    destruct (QueryResult.documents results !! 0%nat) as [documents0|];
      cbn [mbind result_bind]; [|by intros [= <-]].
    destruct (documents0 !! i); cbn [mbind result_bind]; [|by intros [= <-]].
    destruct (QueryResult.metadatas results !! 0%nat) as [metadatas0|];
      cbn [mbind result_bind]; [|by intros [= <-]].
    destruct (metadatas0 !! i); cbn [mbind result_bind]; [|by intros [= <-]].
    destruct (QueryResult.distances results !! 0%nat) as [distances0|];
      cbn [mbind result_bind]; [|by intros [= <-]].
    destruct (distances0 !! i); cbn [mbind result_bind]; [|by intros [= <-]].
    done. }
  destruct (for_each body (seq 0 (length ids0))) as [matches|err] eqn:Hrun.
  - exfalso.
    assert (forall i, (i < length ids0)%nat -> exists m, body i = Ok m)
      as Hall.
    { intros i Hi.
      destruct (for_each_Ok_elem _ _ _ i Hrun) as (m & _ & Hm); [|eauto].
      apply elem_of_seq. lia. }
    destruct Hshort as [Hs|[Hs|Hs]].
    + destruct (Hall _ Hs) as [m Hm]. apply Hok in Hm. lia.
    + destruct (Hall _ Hs) as [m Hm]. apply Hok in Hm. lia.
    + destruct (Hall _ Hs) as [m Hm]. apply Hok in Hm. lia.
  - destruct (for_each_Raise_inv _ _ _ Hrun) as (i & _ & Hi).
    by rewrite (Hraise i err Hi).
Qed.

Lemma query_needs_complete_rows_witness :
  @VectorStore.query (Examples.collaborators []) Scenarios.incomplete_backend
    (py "discount code") None None tt
  = Raise (Exn IndexError (py "list index out of range")).
Proof.
  refine (@query_needs_complete_rows (Examples.collaborators [])
            Scenarios.incomplete_backend (py "discount code") None None tt
            (Examples.embedding (py "discount code")) _
            [py "chunk_0_5d41402a"] eq_refl eq_refl eq_refl _).
  left. simpl. lia.
Defined.

(** ** The context handed to the model *)

Section ContextBlocks.

Lemma join_cons_app (sep : pystr) p rest :
  exists post, join sep (p :: rest) = p ++ post.
Proof.
  destruct rest as [|q rest]; simpl.
  - exists []. by rewrite app_nil_r.
  - eauto.
Qed.

Lemma join_elem (sep : pystr) parts p :
  p ∈ parts -> exists pre post, join sep parts = pre ++ p ++ post.
Proof.
  induction parts as [|q parts IH]; intros Hin;
    [by apply elem_of_nil in Hin|].
  apply elem_of_cons in Hin as [->|Hin].
  - destruct (join_cons_app sep q parts) as [post ->]. by exists [], post.
  - destruct (IH Hin) as (pre & post & Heq).
    destruct parts as [|q' parts]; [by apply elem_of_nil in Hin|].
    change (join sep (q :: q' :: parts))
      with (q ++ sep ++ join sep (q' :: parts)).
    rewrite Heq. exists (q ++ sep ++ pre), post.
    by rewrite <- !app_assoc.
Qed.

End ContextBlocks.

(** X14: [format_context] never returns the empty string, and the context
    of a non-empty retrieval holds, for every retrieved chunk, the block
    made of its header line (source document and relevance with two
    decimals) and its text. *)
Theorem format_context_shows_every_chunk (retrieved_chunks : list Chunk.t) :
  RAGService.format_context retrieved_chunks <> []
  /\ forall chunk,
       chunk ∈ retrieved_chunks ->
       exists pre post,
         RAGService.format_context retrieved_chunks
         = pre
           ++ (py "=== From " ++ Chunk.source_document chunk
               ++ py " (relevance: " ++ format_2f (Chunk.score chunk)
               ++ py ") ===" ++ nl ++ Chunk.text chunk ++ nl)
           ++ post.
Proof.
  unfold RAGService.format_context. case_decide as Hnone.
  - split; [done|]. intros chunk Hin. subst. by apply elem_of_nil in Hin.
  - split.
    + destruct retrieved_chunks as [|ch rest]; [done|].
      rewrite fmap_cons.
      destruct (join_cons_app nl
        (py "=== From " ++ Chunk.source_document ch
         ++ py " (relevance: " ++ format_2f (Chunk.score ch)
         ++ py ") ===" ++ nl ++ Chunk.text ch ++ nl)
        ((fun chunk =>
            py "=== From " ++ Chunk.source_document chunk
            ++ py " (relevance: " ++ format_2f (Chunk.score chunk)
            ++ py ") ===" ++ nl ++ Chunk.text chunk ++ nl) <$> rest))
        as [post Hpost].
      rewrite Hpost. done.
    + intros chunk Hin. apply join_elem.
      apply list_elem_of_fmap. by exists chunk.
Qed.

Lemma format_context_shows_every_chunk_witness :
  exists chunk pre post,
    Examples.discount_matches !! 0%nat = Some chunk
    /\ RAGService.format_context Examples.discount_matches
       = pre
         ++ (py "=== From " ++ Chunk.source_document chunk
             ++ py " (relevance: " ++ format_2f (Chunk.score chunk)
             ++ py ") ===" ++ nl ++ Chunk.text chunk ++ nl)
         ++ post.
Proof.
  destruct (Examples.discount_matches !! 0%nat) as [chunk|] eqn:Hchunk;
    [|vm_compute in Hchunk; discriminate].
  destruct (proj2 (format_context_shows_every_chunk Examples.discount_matches)
              chunk (list_elem_of_lookup_2 _ _ _ Hchunk))
    as (pre & post & Heq).
  by exists chunk, pre, post.
Defined.

(** ** Failures of the collaborators *)

Section Failures.
Context `{Collaborators} `{VectorBackend}.
Import Models TestCaseAgent.

Lemma generate_test_cases_rag_failure user_query include_negative c e :
  RAGService.rag_query (enhanced_query user_query include_negative)
    system_prompt (Some 8%Z) (Some 0x1.999999999999ap-4%float) None c
  = Raise e ->
  generate_test_cases user_query include_negative c
  = Ok {| success := false;
          message := py "Error generating test cases: " ++ exn_str e;
          test_cases := [];
          total_cases := 0 |}.
Proof. unfold generate_test_cases, try_except. by intros ->. Qed.

End Failures.

(** X15: when retrieval succeeds and the chat-completion provider raises,
    [generate_response] raises an [Exception] whose text is
    ["LLM generation failed: "] followed by the provider's, and
    [generate_test_cases] returns the failure response whose message is
    ["Error generating test cases: LLM generation failed: "] followed by
    the provider's text. *)
Theorem provider_failure_is_reported `{Collaborators} `{VectorBackend}
    (user_query : list N) (include_negative : bool) (c : collection)
    (chunks : list Chunk.t) (e : exn) :
  VectorStore.query
    (TestCaseAgent.enhanced_query user_query include_negative)
    (Some 8%Z) None c = Ok chunks ->
  (forall system_prompt user_message temperature max_tokens,
      chat_completion system_prompt user_message temperature max_tokens
      = Raise e) ->
  (forall user_query context system_prompt temperature,
      RAGService.generate_response user_query context system_prompt
        temperature
      = Raise (Exn Exception (py "LLM generation failed: " ++ exn_str e)))
  /\ TestCaseAgent.generate_test_cases user_query include_negative c
     = Ok {| Models.success := false;
             Models.message :=
               py "Error generating test cases: LLM generation failed: "
                 ++ exn_str e;
             Models.test_cases := [];
             Models.total_cases := 0 |}.
Proof.
  intros Hquery Hchat.
  assert (forall user_query context system_prompt temperature,
    RAGService.generate_response user_query context system_prompt temperature
    = Raise (Exn Exception (py "LLM generation failed: " ++ exn_str e)))
    as Hgen.
  { intros q ctx sp t. unfold RAGService.generate_response, try_except.
    by rewrite Hchat. }
  split; [exact Hgen|].
  rewrite (generate_test_cases_rag_failure _ _ _
             (Exn Exception (py "LLM generation failed: " ++ exn_str e))).
  - reflexivity.
  - unfold RAGService.rag_query, RAGService.retrieve_context.
    change (8 =? 0)%Z with false. cbn iota. rewrite Hquery.
    cbn [mbind result_bind]. by rewrite Hgen.
Qed.

Lemma provider_failure_is_reported_witness :
  @TestCaseAgent.generate_test_cases Scenarios.failing_provider
    Reference.backend (py "discount code") true Examples.ingested
  = Ok {| Models.success := false;
          Models.message :=
            py "Error generating test cases: LLM generation failed: "
              ++ py "rate limit exceeded";
          Models.test_cases := [];
          Models.total_cases := 0 |}.
Proof.
  refine (proj2
    (@provider_failure_is_reported Scenarios.failing_provider
       Reference.backend (py "discount code") true Examples.ingested
       (RAGService.retrieved_chunks Examples.prose_rag_result)
       (Exn Exception (py "rate limit exceeded")) _ _)).
  - vm_compute. reflexivity.
  - reflexivity.
Defined.

(** X16: when the embedding of the query raises, or the backend's query
    does, [VectorStore.query] raises that exception unchanged and
    [generate_test_cases] returns the failure response whose message is
    ["Error generating test cases: "] followed by the exception's text. *)
Theorem retrieval_failure_is_reported `{Collaborators} `{VectorBackend}
    (user_query : list N) (include_negative : bool) (c : collection)
    (e : exn) :
  embed_text (TestCaseAgent.enhanced_query user_query include_negative)
  = Raise e
  \/ (exists embedding,
        embed_text (TestCaseAgent.enhanced_query user_query include_negative)
        = Ok embedding
        /\ collection_query [embedding] 8 None c = Raise e) ->
  VectorStore.query
    (TestCaseAgent.enhanced_query user_query include_negative)
    (Some 8%Z) None c = Raise e
  /\ TestCaseAgent.generate_test_cases user_query include_negative c
     = Ok {| Models.success := false;
             Models.message :=
               py "Error generating test cases: " ++ exn_str e;
             Models.test_cases := [];
             Models.total_cases := 0 |}.
Proof.
  intros Hfail.
  assert (VectorStore.query
            (TestCaseAgent.enhanced_query user_query include_negative)
            (Some 8%Z) None c = Raise e) as Hquery.
  { unfold VectorStore.query.
    destruct Hfail as [->|(embedding & -> & Hq)]; [done|].
    simpl. by rewrite Hq. }
  split; [exact Hquery|].
  apply generate_test_cases_rag_failure.
  unfold RAGService.rag_query, RAGService.retrieve_context.
  change (8 =? 0)%Z with false. cbn iota. by rewrite Hquery.
Qed.

Lemma retrieval_failure_is_reported_witness :
  @TestCaseAgent.generate_test_cases Scenarios.failing_embedder
    Reference.backend (py "discount code") true Examples.ingested
  = Ok {| Models.success := false;
          Models.message :=
            py "Error generating test cases: " ++ py "model not loaded";
          Models.test_cases := [];
          Models.total_cases := 0 |}.
Proof.
  refine (proj2
    (@retrieval_failure_is_reported Scenarios.failing_embedder
       Reference.backend (py "discount code") true Examples.ingested
       (Exn ValueError (py "model not loaded")) _)).
  left. reflexivity.
Defined.

(** ** The response of the generator *)

(** X17: in every response of [generate_test_cases], [total_cases] is the
    number of test cases, [success] holds exactly when there is at least
    one test case, and the message of a success is
    ["Generated <n> test cases"] for that number. *)
Theorem response_is_consistent `{Collaborators} `{VectorBackend}
    (user_query : list N) (include_negative : bool) (c : collection)
    (resp : Models.TestCaseResponse) :
  TestCaseAgent.generate_test_cases user_query include_negative c = Ok resp ->
  Models.total_cases resp = length (Models.test_cases resp)
  /\ (Models.success resp = true <-> Models.test_cases resp <> [])
  /\ (Models.success resp = true ->
      Models.message resp
      = py "Generated " ++ str_of_nat (Models.total_cases resp)
          ++ py " test cases").
Proof.
  unfold TestCaseAgent.generate_test_cases, try_except.
  destruct (RAGService.rag_query _ _ _ _ _ c) as [rag_result|e];
    cbn [mbind result_bind]; [|intros [= <-]; by repeat split].
  destruct (TestCaseAgent._extract_json_from_response _) as [data|e];
    cbn [mbind result_bind]; [|intros [= <-]; by repeat split].
  destruct (truthy data); cbn [negb]; [|intros [= <-]; by repeat split].
  destruct (TestCaseAgent.iterate data) as [items|e];
    cbn [mbind result_bind]; [|intros [= <-]; by repeat split].
  case_decide as Hnone; intros [= <-]; [by repeat split|].
  cbn [Models.total_cases Models.test_cases Models.success Models.message].
  by repeat split.
Qed.

Lemma response_is_consistent_witness :
  Models.total_cases Examples.generated
  = length (Models.test_cases Examples.generated)
  /\ (Models.success Examples.generated = true
      <-> Models.test_cases Examples.generated <> [])
  /\ (Models.success Examples.generated = true ->
      Models.message Examples.generated
      = py "Generated " ++ str_of_nat (Models.total_cases Examples.generated)
          ++ py " test cases").
Proof.
  apply (@response_is_consistent
           (Examples.collaborators Examples.fenced_reply) Reference.backend
           (py "discount code") true Examples.ingested).
  vm_compute. reflexivity.
Defined.

Section Degenerate.
Context `{Collaborators} `{VectorBackend}.
Import Models TestCaseAgent.

Lemma omap_build_nothing (items : list pyval) chunks n :
  Forall (fun item => forall d, item <> PDict d) items ->
  omap (fun '(i, tc_data) => build_test_case i tc_data chunks)
    (imap (fun i x => ((n + i)%nat, x)) items) = [].
Proof.
  intros Hitems. revert n. induction Hitems as [|item items Hitem _ IH];
    intros n; [done|].
  simpl. destruct (build_test_case (n + 0) item chunks) as [tc|] eqn:Hb.
  { apply build_test_case_dict in Hb as [d ->]. by destruct (Hitem d). }
  rewrite <- (IH (S n)). f_equal. apply imap_ext. intros i x _. simpl.
  f_equal. lia.
Qed.

End Degenerate.

(** X18: replies that decode to something other than a list of test-case
    objects end in a failure response.  A falsy value that is not an
    object (an empty array, [null], [false], [0], an empty string) gives
    ["Failed to parse test cases from LLM response"]; a non-empty array
    none of whose items is an object gives
    ["No valid test cases generated"]; a non-zero integer gives
    ["Error generating test cases: 'int' object is not iterable"]. *)
Theorem degenerate_replies_are_failures `{Collaborators} `{VectorBackend}
    (user_query : list N) (include_negative : bool) (c : collection)
    (rag_result : RAGService.RagResult) (data : pyval) :
  RAGService.rag_query
    (TestCaseAgent.enhanced_query user_query include_negative)
    TestCaseAgent.system_prompt (Some 8%Z)
    (Some 0x1.999999999999ap-4%float) None c = Ok rag_result ->
  json_loads (TestCaseAgent.json_candidate (RAGService.response rag_result))
  = Ok data ->
  (truthy data = false -> (forall d, data <> PDict d) ->
   TestCaseAgent.generate_test_cases user_query include_negative c
   = Ok {| Models.success := false;
           Models.message :=
             py "Failed to parse test cases from LLM response";
           Models.test_cases := [];
           Models.total_cases := 0 |})
  /\ (forall items,
        data = PList items -> items <> [] ->
        Forall (fun item => forall d, item <> PDict d) items ->
        TestCaseAgent.generate_test_cases user_query include_negative c
        = Ok {| Models.success := false;
                Models.message := py "No valid test cases generated";
                Models.test_cases := [];
                Models.total_cases := 0 |})
  /\ (forall z,
        data = PInt z -> z <> 0%Z ->
        TestCaseAgent.generate_test_cases user_query include_negative c
        = Ok {| Models.success := false;
                Models.message :=
                  py "Error generating test cases: "
                    ++ py "'int' object is not iterable";
                Models.test_cases := [];
                Models.total_cases := 0 |}).
Proof.
  intros Hrag Hloads.
  assert ((forall d, data <> PDict d) ->
    TestCaseAgent._extract_json_from_response (RAGService.response rag_result)
    = Ok data) as Hextract.
  { intros Hdict. unfold TestCaseAgent._extract_json_from_response.
    rewrite Hloads. destruct data; try done. by destruct (Hdict d). }
  split; [|split].
  - intros Hfalsy Hdict. unfold TestCaseAgent.generate_test_cases, try_except.
    rewrite Hrag. cbn [mbind result_bind]. rewrite Hextract by done.
    cbn [mbind result_bind]. by rewrite Hfalsy.
  - intros items -> Hne Hitems.
    unfold TestCaseAgent.generate_test_cases, try_except.
    rewrite Hrag. cbn [mbind result_bind]. rewrite Hextract by done.
    cbn [mbind result_bind truthy TestCaseAgent.iterate].
    rewrite (bool_decide_eq_false_2 (items = [])) by done.
    cbn [negb]. unfold enumerate.
    rewrite (omap_build_nothing items _ 0 Hitems). by rewrite decide_True.
  - intros z -> Hz. unfold TestCaseAgent.generate_test_cases, try_except.
    rewrite Hrag. cbn [mbind result_bind]. rewrite Hextract by done.
    cbn [mbind result_bind truthy TestCaseAgent.iterate].
    apply Z.eqb_neq in Hz. rewrite Hz. reflexivity.
Qed.

Lemma degenerate_replies_are_failures_witness :
  Examples.generate (py "[]")
  = Ok {| Models.success := false;
          Models.message :=
            py "Failed to parse test cases from LLM response";
          Models.test_cases := [];
          Models.total_cases := 0 |}
  /\ Examples.generate (py "[1, [2]]")
     = Ok {| Models.success := false;
             Models.message := py "No valid test cases generated";
             Models.test_cases := [];
             Models.total_cases := 0 |}.
Proof.
  split.
  - refine (proj1
      (@degenerate_replies_are_failures
         (Examples.collaborators (py "[]")) Reference.backend
         (py "discount code") true Examples.ingested
         (Scenarios.rag_result_of (py "[]")) (PList []) _ _) _ _).
    + vm_compute. reflexivity.
    + vm_compute. reflexivity.
    + reflexivity.
    + discriminate.
  - refine (proj1 (proj2
      (@degenerate_replies_are_failures
         (Examples.collaborators (py "[1, [2]]")) Reference.backend
         (py "discount code") true Examples.ingested
         (Scenarios.rag_result_of (py "[1, [2]]"))
         (PList [PInt 1; PList [PInt 2]]) _ _)) _ eq_refl _ _).
    + vm_compute. reflexivity.
    + vm_compute. reflexivity.
    + discriminate.
    + repeat constructor; discriminate.
Defined.

Section Fields.
Context `{Collaborators} `{VectorBackend}.
Import Models TestCaseAgent.




End Fields.



(** ** The text handed to the JSON decoder *)

Section Substring.
Import TestCaseAgent.
Implicit Types (s : pystr).

Lemma starts_with_prefix pat s :
  starts_with pat s = true -> s = pat ++ drop (length pat) s.
Proof.
  revert s. induction pat as [|a pat IH]; intros s; simpl; [done|].
  destruct s as [|b s]; [done|]. intros Hs.
  apply andb_prop in Hs as [Hab Hs]. apply N.eqb_eq in Hab as ->.
  simpl. f_equal. by apply IH.
Qed.

Lemma after_first_split pat s rest :
  after_first pat s = Some rest -> exists pre, s = pre ++ pat ++ rest.
Proof.
  induction s as [|c s IH]; simpl.
  - destruct (starts_with pat []) eqn:Hp; [|done]. intros [= <-].
    exists []. by apply starts_with_prefix.
  - destruct (starts_with pat (c :: s)) eqn:Hp.
    + intros [= <-]. exists []. by apply starts_with_prefix.
    + intros Hrest. destruct (IH Hrest) as [pre ->]. by exists (c :: pre).
Qed.

Lemma lstrip_suffix s : exists ws, s = ws ++ lstrip s.
Proof.
  induction s as [|c s [ws IH]]; simpl; [by exists []|].
  destruct (isspace c); [|by exists []].
  exists (c :: ws). simpl. by f_equal.
Qed.

Lemma until_fence_prefix s body :
  until_fence s = Some body -> exists post, s = body ++ post.
Proof.
  revert body. induction s as [|c s IH]; intros body;
    rewrite until_fence_unfold.
  - destruct (starts_with fence _); [|done]. intros [= <-]. by exists [].
  - destruct (starts_with fence _).
    + intros [= <-]. by exists (c :: s).
    + destruct (until_fence s) as [b|]; [|done]. intros [= <-].
      destruct (IH b eq_refl) as [post ->]. by exists post.
Qed.

Lemma through_last_bracket_prefix s t :
  through_last_bracket s = Some t ->
  (exists post, s = t ++ post) /\ last t = Some 0x5D.
Proof.
  revert t. induction s as [|c s IH]; intros t; simpl; [done|].
  destruct (through_last_bracket s) as [t'|].
  - intros [= <-]. destruct (IH t' eq_refl) as [[post ->] Hlast].
    split; [by exists post|].
    destruct t' as [|x t']; [done|]. by rewrite last_cons_cons.
  - destruct (c =? 0x5D) eqn:Hc; [|done]. intros [= <-].
    apply N.eqb_eq in Hc as ->. split; [by exists s | done].
Qed.

Lemma search_json_block_substring text block :
  search_json_block text = Some block ->
  exists pre post, text = pre ++ block ++ post.
Proof.
  unfold search_json_block.
  destruct (after_first (py "```json") text) as [rest|] eqn:Hrest; [|done].
  simpl. intros Hblock.
  apply after_first_split in Hrest as [pre ->].
  apply until_fence_prefix in Hblock as [post Hpost].
  destruct (lstrip_suffix rest) as [ws Hws].
  exists (pre ++ py "```json" ++ ws), post.
  rewrite Hws at 1. rewrite Hpost. by rewrite <- !app_assoc.
Qed.

Lemma search_array_substring text array :
  search_array text = Some array ->
  (exists pre post, text = pre ++ array ++ post)
  /\ head array = Some 0x5B /\ last array = Some 0x5D.
Proof.
  unfold search_array.
  destruct (after_first [0x5B] text) as [rest|] eqn:Hrest; [|done].
  simpl. destruct (through_last_bracket rest) as [t|] eqn:Ht; [|done].
  simpl. intros [= <-].
  apply after_first_split in Hrest as [pre ->].
  apply through_last_bracket_prefix in Ht as [[post ->] Hlast].
  split; [by exists pre, post|]. split; [done|].
  destruct t as [|x t]; [done|]. by rewrite last_cons_cons.
Qed.

End Substring.

(** X20: the text [_extract_json_from_response] hands to the JSON decoder
    is a contiguous piece of the reply; when it comes from the bracket
    search it begins with an opening and ends with a closing bracket.  The
    function never returns an object, returns [None] when the decoder
    raises [JSONDecodeError], and every other value it returns is what the
    decoder produced, a decoded object being wrapped in a one-element
    list. *)
Theorem json_candidate_is_substring `{Collaborators}
    (response_text : pystr) :
  (exists pre post,
      response_text
      = pre ++ TestCaseAgent.json_candidate response_text ++ post)
  /\ (TestCaseAgent.search_json_block response_text = None ->
      forall array,
        TestCaseAgent.search_array response_text = Some array ->
        TestCaseAgent.json_candidate response_text = array
        /\ head array = Some 0x5B /\ last array = Some 0x5D)
  /\ (forall data,
        TestCaseAgent._extract_json_from_response response_text = Ok data ->
        (forall d, data <> PDict d)
        /\ (data = PNone
            \/ exists decoded,
                 json_loads (TestCaseAgent.json_candidate response_text)
                 = Ok decoded
                 /\ data = match decoded with
                           | PDict _ => PList [decoded]
                           | _ => decoded
                           end))
  /\ (forall e,
        json_loads (TestCaseAgent.json_candidate response_text) = Raise e ->
        exn_class e = JSONDecodeError ->
        TestCaseAgent._extract_json_from_response response_text = Ok PNone).
Proof.
  split; [|split; [|split]].
  - unfold TestCaseAgent.json_candidate.
    destruct (TestCaseAgent.search_json_block response_text) as [block|]
      eqn:Hblock; [by apply search_json_block_substring|].
    destruct (TestCaseAgent.search_array response_text) as [array|]
      eqn:Harray; [by apply (search_array_substring response_text)|].
    exists [], []. by rewrite app_nil_r.
  - unfold TestCaseAgent.json_candidate.
    intros -> array Harray. rewrite Harray. split; [done|].
    by apply (search_array_substring response_text).
  - intros data. unfold TestCaseAgent._extract_json_from_response.
    destruct (json_loads _) as [decoded|e].
    + intros [= <-]. split; [by destruct decoded | eauto].
    + destruct (exn_class e); try done. intros [= <-]. split; [done | by left].
  - intros e He Hclass. unfold TestCaseAgent._extract_json_from_response.
    by rewrite He, Hclass.
Qed.

Lemma json_candidate_is_substring_witness :
  @TestCaseAgent._extract_json_from_response
    (Examples.collaborators []) Examples.prose_reply = Ok PNone.
Proof.
  refine (proj2 (proj2 (proj2
    (@json_candidate_is_substring (Examples.collaborators [])
       Examples.prose_reply)))
    (Exn JSONDecodeError (py "Expecting value"))
    _ eq_refl).
  vm_compute. reflexivity.
Defined.

(** ** Code blocks and generated scripts *)

Section Fences.
Import TestCaseAgent Markdown ScriptAgent.
Implicit Types (s pre post code : pystr).

Lemma after_first_found pat pre post :
  is_Some (after_first pat (pre ++ pat ++ post)).
Proof.
  induction pre as [|c pre IH].
  - rewrite app_nil_l, (after_first_here pat post). eauto.
  - change (is_Some
      (if starts_with pat (c :: pre ++ pat ++ post)
       then Some (drop (length pat) (c :: pre ++ pat ++ post))
       else after_first pat (pre ++ pat ++ post))).
    destruct (starts_with pat _); eauto.
Qed.

Lemma after_first_None pat s :
  after_first pat s = None -> forall pre post, s <> pre ++ pat ++ post.
Proof.
  intros Hnone pre post ->.
  destruct (after_first_found pat pre post) as [x Hx]. congruence.
Qed.

Lemma rstrip_prefix s : exists ws, s = rstrip s ++ ws.
Proof.
  induction s as [|c s [ws IH]]; simpl; [by exists []|].
  destruct (rstrip s) as [|c' r'] eqn:Hr.
  - destruct (isspace c).
    + by exists (c :: s).
    + exists ws. simpl in *. by f_equal.
  - exists ws. simpl in *. by f_equal.
Qed.

Lemma strip_infix s : exists before after, s = before ++ strip s ++ after.
Proof.
  unfold strip. destruct (lstrip_suffix s) as [ws Hws].
  destruct (rstrip_prefix (lstrip s)) as [ws' Hws'].
  exists ws, ws'. by rewrite <- Hws', <- Hws.
Qed.

Lemma remove_fences_skip k s :
  remove_fences k s = remove_fences 0 (drop k s).
Proof.
  revert k. induction s as [|c s IH]; intros k.
  - by destruct k.
  - destruct k as [|k]; [done|]. simpl. apply IH.
Qed.

Lemma remove_fences_unfold s :
  remove_fences 0 s
  = if starts_with (py "```python") s then remove_fences 0 (drop 9 s)
    else if starts_with fence s then remove_fences 0 (drop 3 s)
    else match s with
         | [] => []
         | c :: r => c :: remove_fences 0 r
         end.
Proof.
  destruct s as [|c r]; [done|].
  change (remove_fences 0 (c :: r))
    with (if starts_with (py "```python") (c :: r) then remove_fences 8 r
          else if starts_with fence (c :: r) then remove_fences 2 r
          else c :: remove_fences 0 r).
  by rewrite (remove_fences_skip 8), (remove_fences_skip 2).
Qed.

Lemma starts_with_tick_false pat x r :
  x <> 0x60 -> starts_with (0x60 :: pat) (x :: r) = false.
Proof.
  intros Hx. cbn [starts_with].
  destruct (N.eqb_spec 0x60 x) as [<-|_]; done.
Qed.

Lemma remove_fences_keeps x r :
  x <> 0x60 -> remove_fences 0 (x :: r) = x :: remove_fences 0 r.
Proof.
  intros Hx. rewrite remove_fences_unfold.
  change (py "```python") with (0x60 :: py "``python").
  change fence with (0x60 :: py "``").
  by rewrite !starts_with_tick_false.
Qed.

Lemma remove_fences_two s :
  starts_with (py "``") s = false ->
  starts_with (py "``") (remove_fences 0 s) = false.
Proof.
  change (py "``") with [0x60; 0x60].
  destruct s as [|x r]; [done|].
  destruct (decide (x = 0x60)) as [->|Hx].
  2:{ intros _. rewrite remove_fences_keeps by done.
      by apply starts_with_tick_false. }
  destruct r as [|y r]; [done|].
  destruct (decide (y = 0x60)) as [->|Hy]; [done|]. intros _.
  rewrite remove_fences_unfold.
  change (py "```python") with (0x60 :: 0x60 :: py "`python").
  change fence with (0x60 :: 0x60 :: py "`").
  assert (forall pat, starts_with (0x60 :: 0x60 :: pat) (0x60 :: y :: r)
                      = false) as Hno.
  { intros pat. cbn [starts_with]. rewrite N.eqb_refl.
    destruct (N.eqb_spec 0x60 y) as [<-|_]; done. }
  rewrite !Hno. rewrite remove_fences_keeps by done.
  cbn [starts_with]. rewrite N.eqb_refl.
  destruct (N.eqb_spec 0x60 y) as [<-|_]; done.
Qed.

Lemma remove_fences_no_fence_bounded n s :
  (length s <= n)%nat -> after_first fence (remove_fences 0 s) = None.
Proof.
  revert s. induction n as [|n IH]; intros s Hlen.
  { destruct s; [done | simpl in Hlen; lia]. }
  rewrite remove_fences_unfold.
  destruct (starts_with (py "```python") s) eqn:Hp.
  { apply IH. rewrite length_drop. destruct s; [done | simpl in *; lia]. }
  destruct (starts_with fence s) eqn:Hf.
  { apply IH. rewrite length_drop. destruct s; [done | simpl in *; lia]. }
  destruct s as [|c r]; [done|].
  assert (after_first fence (remove_fences 0 r) = None) as Hr
    by (apply IH; simpl in Hlen; lia).
  change (after_first fence (c :: remove_fences 0 r))
    with (if starts_with fence (c :: remove_fences 0 r)
          then Some (drop (length fence) (c :: remove_fences 0 r))
          else after_first fence (remove_fences 0 r)).
  assert (starts_with fence (c :: remove_fences 0 r) = false) as ->; [|done].
  change fence with (0x60 :: py "``") in *. cbn [starts_with] in *.
  destruct (N.eqb_spec 0x60 c) as [<-|_]; [|done]. cbn [andb] in *.
  by apply remove_fences_two.
Qed.

Lemma remove_fences_no_fence s pre post :
  remove_fences 0 s <> pre ++ fence ++ post.
Proof.
  apply after_first_None. by apply (remove_fences_no_fence_bounded (length s)).
Qed.

Lemma after_first_tick_skip pat pre s :
  0x60 ∉ pre ->
  after_first (0x60 :: pat) (pre ++ s) = after_first (0x60 :: pat) s.
Proof.
  induction pre as [|c pre IH]; intros Hpre; [done|].
  apply not_elem_of_cons in Hpre as [Hc Hpre].
  change (after_first (0x60 :: pat) ((c :: pre) ++ s))
    with (if starts_with (0x60 :: pat) (c :: pre ++ s)
          then Some (drop (length (0x60 :: pat)) (c :: pre ++ s))
          else after_first (0x60 :: pat) (pre ++ s)).
  rewrite starts_with_tick_false by done. by apply IH.
Qed.

End Fences.

Lemma absent_by_evaluation (c : N) (s : pystr) :
  forallb (fun x => negb (x =? c)) s = true -> c ∉ s.
Proof.
  intros Hall Hin. rewrite forallb_forall in Hall.
  apply list_elem_of_In, Hall in Hin. by rewrite N.eqb_refl in Hin.
Qed.

Section CodeBlocks.
Import TestCaseAgent Markdown ScriptAgent.
Implicit Types (s pre post code : pystr).

Lemma before_fence_unfold s :
  before_fence s
  = if starts_with fence s then Some []
    else match s with
         | [] => None
         | c :: r => cons c <$> before_fence r
         end.
Proof. by destruct s. Qed.

Lemma before_fence_code code post :
  0x60 ∉ code -> before_fence (code ++ fence ++ post) = Some code.
Proof.
  induction code as [|c code IH]; intros Hcode.
  - rewrite app_nil_l, before_fence_unfold.
    by rewrite (starts_with_app fence post).
  - apply not_elem_of_cons in Hcode as [Hc Hcode].
    rewrite before_fence_unfold.
    change ((c :: code) ++ fence ++ post) with (c :: code ++ fence ++ post).
    change fence with (0x60 :: py "``") at 1.
    rewrite starts_with_tick_false by done. by rewrite IH.
Qed.

Lemma code_fence_open_tick x r : x <> 0x60 -> code_fence_open (x :: r) = None.
Proof.
  intros Hx. unfold code_fence_open.
  change (py "```python" ++ nl) with (0x60 :: py "``python" ++ nl).
  change (py "```" ++ nl) with (0x60 :: py "``" ++ nl).
  by rewrite !starts_with_tick_false.
Qed.

Lemma first_code_block_unfold s :
  first_code_block s
  = match code_fence_open s ≫= before_fence with
    | Some code => Some code
    | None =>
        match s with
        | [] => None
        | _ :: r => first_code_block r
        end
    end.
Proof. by destruct s. Qed.

Lemma first_code_block_skip pre s :
  0x60 ∉ pre -> first_code_block (pre ++ s) = first_code_block s.
Proof.
  induction pre as [|c pre IH]; intros Hpre; [done|].
  apply not_elem_of_cons in Hpre as [Hc Hpre].
  rewrite first_code_block_unfold.
  change ((c :: pre) ++ s) with (c :: pre ++ s).
  rewrite code_fence_open_tick by done. by apply IH.
Qed.

Lemma first_code_block_none s : 0x60 ∉ s -> first_code_block s = None.
Proof.
  intros Hs. rewrite <- (app_nil_r s). by rewrite first_code_block_skip.
Qed.

Lemma first_code_block_fenced pre lang code post :
  0x60 ∉ pre -> lang = [] \/ lang = py "python" -> 0x60 ∉ code ->
  first_code_block (pre ++ fence ++ lang ++ nl ++ code ++ fence ++ post)
  = Some code.
Proof.
  intros Hpre Hlang Hcode. rewrite first_code_block_skip by done.
  rewrite first_code_block_unfold.
  assert (code_fence_open (fence ++ lang ++ nl ++ code ++ fence ++ post)
          = Some (code ++ fence ++ post)) as ->.
  { unfold code_fence_open. destruct Hlang as [->| ->].
    - change (fence ++ [] ++ nl ++ code ++ fence ++ post)
        with ((py "```" ++ nl) ++ code ++ fence ++ post).
      assert (starts_with (py "```python" ++ nl)
                ((py "```" ++ nl) ++ code ++ fence ++ post) = false) as ->
        by reflexivity.
      rewrite starts_with_app. reflexivity.
    - change (fence ++ py "python" ++ nl ++ code ++ fence ++ post)
        with ((py "```python" ++ nl) ++ code ++ fence ++ post).
      rewrite starts_with_app. reflexivity. }
  cbn [mbind option_bind]. by rewrite before_fence_code.
Qed.

End CodeBlocks.

(** X21: [extract_code_from_markdown] always returns stripped text.  On a
    text without backtick it returns the stripped text itself; on a text
    whose first fenced block opens with three backticks, an optional
    [python] and a line feed, it returns the stripped body of that block
    (the text in front of the block and the body hold no backtick). *)
Theorem extract_code_from_markdown_spec (text : pystr) :
  strip (Markdown.extract_code_from_markdown text)
  = Markdown.extract_code_from_markdown text
  /\ (0x60 ∉ text -> Markdown.extract_code_from_markdown text = strip text)
  /\ (forall pre lang code post,
        text = pre ++ TestCaseAgent.fence ++ lang ++ nl ++ code
                 ++ TestCaseAgent.fence ++ post ->
        0x60 ∉ pre -> lang = [] \/ lang = py "python" -> 0x60 ∉ code ->
        Markdown.extract_code_from_markdown text = strip code).
Proof.
  unfold Markdown.extract_code_from_markdown. split; [|split].
  - destruct (Markdown.first_code_block text); apply strip_strip.
  - intros Htext. by rewrite first_code_block_none.
  - intros pre lang code post -> Hpre Hlang Hcode.
    by rewrite first_code_block_fenced.
Qed.

Lemma extract_code_from_markdown_spec_witness :
  Markdown.extract_code_from_markdown
    (py "Here is the script:
```python
import time
time.sleep(1)
```
Run it with pytest.")
  = py "import time
time.sleep(1)".
Proof.
  refine (proj2 (proj2 (extract_code_from_markdown_spec _))
            (py "Here is the script:" ++ nl) (py "python")
            (py "import time
time.sleep(1)
") (nl ++ py "Run it with pytest.") eq_refl _ _ _).
  - apply absent_by_evaluation. reflexivity.
  - by right.
  - apply absent_by_evaluation. reflexivity.
Defined.

(** X22: the script [_clean_script] returns always begins with [from] or
    with [import], and holds no run of three backticks. *)
Theorem clean_script_shape (script : pystr) :
  (starts_with (py "from") (ScriptAgent._clean_script script) = true
   \/ starts_with (py "import") (ScriptAgent._clean_script script) = true)
  /\ (forall pre post,
        ScriptAgent._clean_script script
        <> pre ++ TestCaseAgent.fence ++ post).
Proof.
  unfold ScriptAgent._clean_script.
  set (s := strip (ScriptAgent.remove_fences 0 script)).
  assert (forall pre post, s <> pre ++ TestCaseAgent.fence ++ post) as Hs.
  { intros pre post Heq.
    destruct (strip_infix (ScriptAgent.remove_fences 0 script))
      as (before & after & Hstrip).
    fold s in Hstrip. rewrite Heq in Hstrip.
    apply (remove_fences_no_fence script (before ++ pre) (post ++ after)).
    rewrite Hstrip. by rewrite <- !app_assoc. }
  destruct (starts_with (py "from") s) eqn:Hfrom; cbn [negb andb].
  { split; [by left | exact Hs]. }
  destruct (starts_with (py "import") s) eqn:Himport; cbn [negb andb].
  { split; [by right | exact Hs]. }
  split; [by left|]. intros pre post Heq.
  assert (TestCaseAgent.after_first TestCaseAgent.fence
            (ScriptAgent.imports ++ s) = None) as Hnone.
  { change TestCaseAgent.fence with (0x60 :: py "``").
    rewrite after_first_tick_skip by (apply absent_by_evaluation; reflexivity).
    destruct (TestCaseAgent.after_first (0x60 :: py "``") s) as [rest|]
      eqn:Hrest; [|done].
    apply after_first_split in Hrest as [pre' Hrest].
    by destruct (Hs pre' rest). }
  by apply (after_first_None _ _ Hnone pre post).
Qed.

Lemma clean_script_shape_witness :
  starts_with (py "from")
    (ScriptAgent._clean_script (py "```python
driver.get(url)
```")) = true.
Proof.
  destruct (proj1 (clean_script_shape (py "```python
driver.get(url)
```"))) as [Hfrom|Himport]; [exact Hfrom|].
  vm_compute in Himport. discriminate.
Defined.

Section Scripts.
Import TestCaseAgent Markdown ScriptAgent.

Lemma remove_fences_none (s : pystr) : 0x60 ∉ s -> remove_fences 0 s = s.
Proof.
  induction s as [|c s IH]; intros Hs; [done|].
  apply not_elem_of_cons in Hs as [Hc Hs].
  rewrite remove_fences_keeps by done. by rewrite IH.
Qed.

Lemma strip_absent c (s : pystr) : c ∉ s -> c ∉ strip s.
Proof.
  intros Hs Hin. destruct (strip_infix s) as (before & after & Heq).
  apply Hs. rewrite Heq. rewrite !elem_of_app. auto.
Qed.

Lemma clean_script_plain (s : pystr) :
  0x60 ∉ s ->
  _clean_script (strip s)
  = if starts_with (py "from") (strip s)
       || starts_with (py "import") (strip s)
    then strip s else imports ++ strip s.
Proof.
  intros Hs. unfold _clean_script.
  rewrite remove_fences_none by by apply strip_absent.
  rewrite strip_strip.
  by destruct (starts_with (py "from") (strip s)),
    (starts_with (py "import") (strip s)).
Qed.

End Scripts.

(** X23: what [generate_script] makes of the model's reply,
    [_clean_script (extract_code_from_markdown reply)]: for a reply with
    one fenced block (no backtick in front of it nor inside it) it is the
    stripped body of the block, and for a reply without backtick the
    stripped reply, in both cases preceded by the import preamble unless
    the code already begins with [from] or [import]. *)
Theorem fenced_reply_becomes_script (response : pystr) :
  (forall pre lang code post,
      response = pre ++ TestCaseAgent.fence ++ lang ++ nl ++ code
                   ++ TestCaseAgent.fence ++ post ->
      0x60 ∉ pre -> lang = [] \/ lang = py "python" -> 0x60 ∉ code ->
      ScriptAgent._clean_script (Markdown.extract_code_from_markdown response)
      = if starts_with (py "from") (strip code)
           || starts_with (py "import") (strip code)
        then strip code else ScriptAgent.imports ++ strip code)
  /\ (0x60 ∉ response ->
      ScriptAgent._clean_script (Markdown.extract_code_from_markdown response)
      = if starts_with (py "from") (strip response)
           || starts_with (py "import") (strip response)
        then strip response else ScriptAgent.imports ++ strip response).
Proof.
  split.
  - intros pre lang code post -> Hpre Hlang Hcode.
    unfold Markdown.extract_code_from_markdown.
    rewrite first_code_block_fenced by done. by apply clean_script_plain.
  - intros Hresponse. unfold Markdown.extract_code_from_markdown.
    rewrite first_code_block_none by done. by apply clean_script_plain.
Qed.

Lemma fenced_reply_becomes_script_witness :
  ScriptAgent._clean_script
    (Markdown.extract_code_from_markdown
       (py "Here is the script:
```python
driver.get(url)
```
Run it with pytest."))
  = ScriptAgent.imports ++ py "driver.get(url)".
Proof.
  refine (proj1 (fenced_reply_becomes_script _)
            (py "Here is the script:" ++ nl) (py "python")
            (py "driver.get(url)
") (nl ++ py "Run it with pytest.") eq_refl _ _ _).
  - apply absent_by_evaluation. reflexivity.
  - by right.
  - apply absent_by_evaluation. reflexivity.
Defined.

(** ** Replies cut short *)

Section Unterminated.
Import TestCaseAgent.

Lemma lstrip_absent c (s : pystr) : c ∉ s -> c ∉ lstrip s.
Proof.
  intros Hs Hin. destruct (lstrip_suffix s) as [ws Heq].
  apply Hs. rewrite Heq. apply elem_of_app. by right.
Qed.

Lemma until_fence_absent (s : pystr) : 0x60 ∉ s -> until_fence s = None.
Proof.
  induction s as [|c s IH]; intros Hs; rewrite until_fence_unfold.
  - done.
  - assert (starts_with fence (lstrip (c :: s)) = false) as ->.
    { pose proof (lstrip_absent _ _ Hs) as Hl.
      destruct (lstrip (c :: s)) as [|x r]; [done|].
      change fence with (0x60 :: py "``").
      apply starts_with_tick_false. intros ->. apply Hl. by left. }
    apply not_elem_of_cons in Hs as [_ Hs]. by rewrite IH.
Qed.

Lemma search_json_block_unterminated pre rest :
  0x60 ∉ pre -> 0x60 ∉ rest ->
  search_json_block (pre ++ py "```json" ++ rest) = None.
Proof.
  intros Hpre Hrest. unfold search_json_block.
  change (py "```json") with (0x60 :: py "``json").
  rewrite after_first_skip by done. cbn [mbind option_bind].
  apply until_fence_absent. by apply lstrip_absent.
Qed.

End Unterminated.

(** X24: an opening [```json] that no closing fence follows is not a JSON
    block: the extraction goes on to the bracket search, which takes the
    span from the first opening to the last closing bracket of the reply,
    and to the whole reply when it has no opening bracket. *)
Theorem unterminated_block_falls_back (pre rest : pystr) :
  0x60 ∉ pre -> 0x60 ∉ rest ->
  TestCaseAgent.search_json_block (pre ++ py "```json" ++ rest) = None
  /\ (forall before mid after,
        pre ++ py "```json" ++ rest
        = before ++ [0x5B] ++ mid ++ [0x5D] ++ after ->
        0x5B ∉ before -> 0x5D ∉ after ->
        TestCaseAgent.json_candidate (pre ++ py "```json" ++ rest)
        = [0x5B] ++ mid ++ [0x5D])
  /\ (0x5B ∉ pre ++ rest ->
      TestCaseAgent.json_candidate (pre ++ py "```json" ++ rest)
      = pre ++ py "```json" ++ rest).
Proof.
  intros Hpre Hrest.
  pose proof (search_json_block_unterminated pre rest Hpre Hrest) as Hblock.
  split; [exact Hblock|]. split.
  - intros before mid after Heq Hbefore Hafter.
    unfold TestCaseAgent.json_candidate. rewrite Hblock, Heq.
    by rewrite search_array_span.
  - intros Hbracket. unfold TestCaseAgent.json_candidate. rewrite Hblock.
    assert (TestCaseAgent.search_array (pre ++ py "```json" ++ rest) = None)
      as ->; [|done].
    unfold TestCaseAgent.search_array. rewrite after_first_absent; [done|].
    intros Hin. apply Hbracket.
    rewrite !elem_of_app in Hin. rewrite elem_of_app.
    destruct Hin as [Hin|[Hin|Hin]]; [by left | | by right].
    exfalso. revert Hin. apply absent_by_evaluation. reflexivity.
Qed.

Lemma unterminated_block_falls_back_witness :
  TestCaseAgent.json_candidate
    (py "Sure:" ++ nl ++ py "```json" ++ nl ++ pyq "[{@feature@: @Cart@}]")
  = pyq "[{@feature@: @Cart@}]".
Proof.
  refine (proj1 (proj2
    (unterminated_block_falls_back
       (py "Sure:" ++ nl) (nl ++ pyq "[{@feature@: @Cart@}]") _ _))
    (py "Sure:" ++ nl ++ py "```json" ++ nl) (pyq "{@feature@: @Cart@}") []
    eq_refl _ _).
  - apply absent_by_evaluation. reflexivity.
  - apply absent_by_evaluation. reflexivity.
  - apply absent_by_evaluation. reflexivity.
  - apply absent_by_evaluation. reflexivity.
Defined.

(** ** Requests for one feature *)

(** X25: [generate_test_cases_for_feature] always returns a response, whose
    [total_cases] counts its test cases and whose test cases all have a
    non-empty [grounded_in]; of the HTML it is given only the first 1000
    characters matter, and an empty HTML is the same as none. *)
Theorem feature_request_reads_a_bounded_excerpt `{Collaborators}
    `{VectorBackend} (feature_name : pystr) (html_content : option pystr)
    (c : collection) :
  (exists resp,
      FeatureRequests.generate_test_cases_for_feature feature_name
        html_content c = Ok resp
      /\ Models.total_cases resp = length (Models.test_cases resp)
      /\ forall tc,
           tc ∈ Models.test_cases resp -> Models.grounded_in tc <> [])
  /\ (forall html other,
        html_content = Some html -> html <> [] -> other <> [] ->
        take 1000 other = take 1000 html ->
        FeatureRequests.generate_test_cases_for_feature feature_name
          (Some other) c
        = FeatureRequests.generate_test_cases_for_feature feature_name
            html_content c)
  /\ FeatureRequests.generate_test_cases_for_feature feature_name (Some []) c
     = FeatureRequests.generate_test_cases_for_feature feature_name None c.
Proof.
  split; [|split].
  - unfold FeatureRequests.generate_test_cases_for_feature. cbv zeta.
    destruct (generate_test_cases_total
                match html_content with
                | None | Some [] =>
                    py "Generate comprehensive test cases for the "
                      ++ feature_name ++ py " feature."
                | Some html =>
                    (py "Generate comprehensive test cases for the "
                       ++ feature_name ++ py " feature.")
                      ++ nl ++ nl
                      ++ py "Consider the following HTML structure:"
                      ++ nl ++ take 1000 html
                end true c) as [resp Hresp].
    exists resp. split; [done|].
    destruct (generate_test_cases_inv _ _ _ _ Hresp)
      as [(_ & Hnone & Htotal)|(rag_result & data & items & _ & _ & _ & _
                                 & Hcases & Htotal)].
    + rewrite Hnone. split; [done|]. intros tc Htc.
      by apply elem_of_nil in Htc.
    + split; [done|]. intros tc Htc. rewrite Hcases in Htc.
      apply list_elem_of_omap in Htc as ([i item] & _ & Hbuild).
      by eapply build_test_case_grounded.
  - intros html other -> Hhtml Hother Htake.
    unfold FeatureRequests.generate_test_cases_for_feature.
    destruct html as [|h html]; [done|]. destruct other as [|o other]; [done|].
    by rewrite Htake.
  - reflexivity.
Qed.

Lemma feature_request_reads_a_bounded_excerpt_witness :
  @FeatureRequests.generate_test_cases_for_feature
    (Examples.collaborators Examples.fenced_reply) Reference.backend
    (py "discount code") (Some (replicate 1000 0x20 ++ py "<p>"))
    Examples.ingested
  = @FeatureRequests.generate_test_cases_for_feature
      (Examples.collaborators Examples.fenced_reply) Reference.backend
      (py "discount code") (Some (replicate 1000 0x20 ++ py "<form>"))
      Examples.ingested.
Proof.
  refine (proj1 (proj2
    (@feature_request_reads_a_bounded_excerpt
       (Examples.collaborators Examples.fenced_reply) Reference.backend
       (py "discount code") (Some (replicate 1000 0x20 ++ py "<form>"))
       Examples.ingested)) _ _ eq_refl _ _ _).
  - discriminate.
  - discriminate.
  - vm_compute. reflexivity.
Defined.

(** ** JSON documents as text *)

Section JsonTextFacts.
Context `{Interpreter}.
Import JsonText.

Lemma pyval_nested_ind (P : pyval -> Prop) :
  P PNone -> (forall b, P (PBool b)) -> (forall z, P (PInt z)) ->
  (forall f, P (PFloat f)) -> (forall s, P (PStr s)) ->
  (forall l, Forall P l -> P (PList l)) ->
  (forall d, Forall (fun kv => P kv.2) d -> P (PDict d)) ->
  forall v, P v.
Proof.
  intros HN HB HI HF HS HL HD. fix IH 1.
  intros [|b|z|f|s|l|d];
    [exact HN | apply HB | apply HI | apply HF | apply HS | |].
  - apply HL. induction l as [|x l IHl]; constructor; [apply IH | apply IHl].
  - apply HD. induction d as [|[k x] d IHd]; constructor;
      [apply IH | apply IHd].
Qed.

Lemma occurs_in_refl s : occurs_in s s.
Proof. exists [], []. by rewrite app_nil_r. Qed.

Lemma occurs_in_trans s t u : occurs_in s t -> occurs_in t u -> occurs_in s u.
Proof.
  intros (p1 & q1 & ->) (p2 & q2 & ->). exists (p2 ++ p1), (q1 ++ q2).
  by rewrite <- !app_assoc.
Qed.

Lemma occurs_in_app_r s pre t : occurs_in s t -> occurs_in s (pre ++ t).
Proof.
  intros (p & q & ->). exists (pre ++ p), q. by rewrite <- !app_assoc.
Qed.

Lemma occurs_in_app_l s t post : occurs_in s t -> occurs_in s (t ++ post).
Proof.
  intros (p & q & ->). exists p, (q ++ post). by rewrite <- !app_assoc.
Qed.

Lemma occurs_in_join sep parts p : p ∈ parts -> occurs_in p (join sep parts).
Proof. apply join_elem. Qed.

Lemma json_to_text_PDict d indent :
  _json_to_text (PDict d) indent
  = join separator
      (d ≫= fun '(key, value) =>
         match scalar_str value with
         | None =>
             [concat (replicate indent (py "  ")) ++ key ++ py ":";
              _json_to_text value (indent + 1)]
         | Some text =>
             [concat (replicate indent (py "  ")) ++ key ++ py ": " ++ text]
         end).
Proof.
  cbn [_json_to_text]. f_equal.
  induction d as [|[key value] d IH]; [done|].
  rewrite bind_cons. by rewrite <- IH.
Qed.

Lemma json_to_text_PList l indent :
  _json_to_text (PList l) indent
  = join separator
      ((fun item =>
          match scalar_str item with
          | None => _json_to_text item indent
          | Some text =>
              concat (replicate indent (py "  ")) ++ py "- " ++ text
          end) <$> l).
Proof.
  reflexivity.
Qed.

Lemma strings_of_PDict d :
  strings_of (PDict d) = d ≫= fun '(key, value) => key :: strings_of value.
Proof.
  cbn [strings_of]. induction d as [|[key value] d IH]; [done|].
  rewrite bind_cons. by rewrite <- IH.
Qed.

Lemma strings_of_PList l : strings_of (PList l) = l ≫= strings_of.
Proof.
  cbn [strings_of]. induction l as [|item l IH]; [done|].
  rewrite bind_cons. by rewrite <- IH.
Qed.

Lemma scalar_str_strings value text s :
  scalar_str value = Some text -> s ∈ strings_of value -> s = text.
Proof.
  destruct value as [|[]| | | | |]; try done; simpl.
  all: try (intros _ Hs; by apply elem_of_nil in Hs).
  intros [= <-] Hs. by apply list_elem_of_singleton in Hs.
Qed.

Lemma json_to_text_keeps data :
  forall indent s,
    s ∈ strings_of data -> occurs_in s (_json_to_text data indent).
Proof.
  induction data as [| | | |s0|l IH|d IH] using pyval_nested_ind;
    intros indent s Hs; try by apply elem_of_nil in Hs.
  - apply list_elem_of_singleton in Hs as ->. cbn.
    apply occurs_in_app_r, occurs_in_refl.
  - rewrite strings_of_PList in Hs.
    apply list_elem_of_bind in Hs as (item & Hs & Hitem).
    rewrite json_to_text_PList.
    eapply occurs_in_trans;
      [|apply occurs_in_join, list_elem_of_fmap; by exists item].
    rewrite Forall_forall in IH.
    destruct (scalar_str item) as [text|] eqn:Hscalar.
    + rewrite (scalar_str_strings _ _ _ Hscalar Hs).
      apply occurs_in_app_r, occurs_in_app_r, occurs_in_refl.
    + by apply IH.
  - rewrite strings_of_PDict in Hs.
    apply list_elem_of_bind in Hs as ([key value] & Hs & Hitem).
    rewrite json_to_text_PDict. rewrite Forall_forall in IH.
    specialize (IH _ Hitem). simpl in IH.
    destruct (scalar_str value) as [text|] eqn:Hscalar.
    + eapply occurs_in_trans;
        [|apply occurs_in_join, list_elem_of_bind; exists (key, value);
          split; [|done]; rewrite Hscalar; apply list_elem_of_here].
      apply elem_of_cons in Hs as [->|Hs].
      * apply occurs_in_app_r, occurs_in_app_l, occurs_in_refl.
      * rewrite (scalar_str_strings _ _ _ Hscalar Hs).
        apply occurs_in_app_r, occurs_in_app_r, occurs_in_app_r,
          occurs_in_refl.
    + apply elem_of_cons in Hs as [->|Hs].
      * eapply occurs_in_trans;
          [|apply occurs_in_join, list_elem_of_bind; exists (key, value);
            split; [|done]; rewrite Hscalar; apply list_elem_of_here].
        apply occurs_in_app_r, occurs_in_app_l, occurs_in_refl.
      * eapply occurs_in_trans;
          [|apply occurs_in_join, list_elem_of_bind; exists (key, value);
            split; [|done]; rewrite Hscalar;
            apply list_elem_of_further, list_elem_of_here].
        by apply IH.
Qed.

End JsonTextFacts.

(** X26: [_json_to_text] drops no key and no string value: each occurs in
    the text it returns, at every depth of nesting; an empty object and an
    empty array give the empty text.  [_parse_json] returns this text for
    the decoded content of the file, and raises what the decoder raises. *)
Theorem json_text_keeps_keys_and_strings `{Interpreter} `{Collaborators}
    (content : pystr) :
  (forall data indent s,
      s ∈ JsonText.strings_of data ->
      JsonText.occurs_in s (JsonText._json_to_text data indent))
  /\ (forall indent,
        JsonText._json_to_text (PDict []) indent = []
        /\ JsonText._json_to_text (PList []) indent = [])
  /\ (forall text,
        JsonText._parse_json content = Ok text ->
        exists data,
          json_loads content = Ok data
          /\ text = JsonText._json_to_text data 0
          /\ forall s,
               s ∈ JsonText.strings_of data -> JsonText.occurs_in s text)
  /\ (forall e,
        json_loads content = Raise e -> JsonText._parse_json content = Raise e).
Proof.
  split; [|split; [|split]].
  - intros data indent s. apply json_to_text_keeps.
  - done.
  - intros text. unfold JsonText._parse_json.
    destruct (json_loads content) as [data|]; [|done].
    cbn [mbind result_bind]. intros [= <-]. exists data.
    split; [done|]. split; [done|]. intros s. apply json_to_text_keeps.
  - intros e He. unfold JsonText._parse_json. by rewrite He.
Qed.

Lemma json_text_keeps_keys_and_strings_witness :
  exists text,
    @JsonText._parse_json Scenarios.interpreter (Examples.collaborators [])
      Scenarios.config_json = Ok text
    /\ JsonText.occurs_in (py "express") text
    /\ JsonText.occurs_in (py "SAVE15") text.
Proof.
  destruct (@JsonText._parse_json Scenarios.interpreter
              (Examples.collaborators []) Scenarios.config_json)
    as [text|] eqn:Htext; [|vm_compute in Htext; discriminate].
  exists text. split; [done|].
  destruct (proj1 (proj2 (proj2
    (@json_text_keeps_keys_and_strings Scenarios.interpreter
       (Examples.collaborators []) Scenarios.config_json))) text Htext)
    as (data & Hdata & _ & Hkeeps).
  vm_compute in Hdata. injection Hdata as <-.
  split; apply Hkeeps.
  - apply list_elem_of_further, list_elem_of_here.
  - do 5 apply list_elem_of_further. apply list_elem_of_here.
Defined.
